(** * United Pharmacy LMS dashboard: the aggregation and filtering engine

    A shallow embedding of the pure data transformations of the dashboard
    (record filter, leaderboards, at-risk detection, trend moving average,
    group comparison KPIs, table sort/paginate state) and the proofs of the
    properties its specification states about them.

    Modelling conventions, used throughout:
    - a JavaScript [number] that holds a measurement (score, rate, hours) is
      an exact rational [Q]; the loader maps text that is no number to 0,
      so NaN and the infinities do not occur in records, and the rounding
      error of IEEE doubles is abstracted away;
    - counters and page numbers are integers [Z];
    - a [Date] is its time value, [None] standing for an invalid date;
    - a [string] is a list of bytes;
    - an object used as a dictionary ([{ [key: string]: ... }]) and a [Map]
      are association lists in insertion order, which is the order
      [Object.entries] and [Map.values] enumerate string keys in; keys are
      plain dictionary keys, as the TypeScript index signature declares
      them: a key that is a canonical array index (which an engine
      enumerates first) or a name an object inherits from its prototype is
      outside the model;
    - [Array.prototype.sort] is a stable insertion sort that asks the
      comparator about (later element, earlier element) and moves the later
      one to the left while the answer is negative. *)

From Stdlib Require Import List String Ascii ZArith QArith Qround Bool Lia Lqa.
From Stdlib Require Import Permutation Qabs DecimalString.
Import ListNotations.

Local Open Scope string_scope.
Local Open Scope Z_scope.
Local Open Scope list_scope.

(* ================================================================== *)
(** * JavaScript primitives *)
(* ================================================================== *)

(** [Date]: the time value in milliseconds, [None] for an invalid date. *)
Record Date : Type := MkDate { getTime : option Z }.

(** [a >= b] and [a <= b] on two dates: both are converted to their time
    values and any comparison with NaN is false. *)
Definition date_ge (a b : Date) : bool :=
  match getTime a, getTime b with
  | Some x, Some y => y <=? x
  | _, _ => false
  end.

Definition date_le (a b : Date) : bool :=
  match getTime a, getTime b with
  | Some x, Some y => x <=? y
  | _, _ => false
  end.

(** [arr.includes(x)] on an array of strings. *)
Definition includes (arr : list string) (x : string) : bool :=
  existsb (String.eqb x) arr.

(** Truthiness of a string: the empty string is the only falsy one. *)
Definition truthy (s : string) : bool :=
  match s with
  | EmptyString => false
  | String _ _ => true
  end.

(** [a < b] and [a > b] on numbers. *)
Definition Qltb (a b : Q) : bool :=
  match Qcompare a b with
  | Lt => true
  | _ => false
  end.

Definition Qgtb (a b : Q) : bool := Qltb b a.

(* ================================================================== *)
(** * Data model (types.ts) *)
(* ================================================================== *)

Inductive CourseType : Type := Mandatory | Optional.

(** The enum is string valued: [Mandatory = 'Mandatory'], [Optional = 'Optional']. *)
Definition CourseType_value (c : CourseType) : string :=
  match c with
  | Mandatory => "Mandatory"
  | Optional => "Optional"
  end.

Record TrainingRecord : Type := {
  id : Z;
  traineeName : string;
  email : string;
  branch : string;
  districtHead : string;
  supervisor : string;
  courseTitle : string;
  completionRate : Q;
  preAssessmentScore : Q;
  postAssessmentScore : Q;
  averageQuizScore : Q;
  courseType : CourseType;
  completionDate : Date;
  trainingHours : Q
}.

(* ================================================================== *)
(** * Filter engine (Dashboard.tsx) *)
(* ================================================================== *)

Record TimePeriod : Type := {
  tp_start : option Date;
  tp_end : option Date
}.

Record Filters : Type := {
  branchFilter : list string;
  districtHeadFilter : list string;
  supervisorFilter : list string;
  courseFilter : list string;
  courseTypeFilter : list string;
  timePeriodFilter : TimePeriod
}.

(** The initial value of the centralized filters state. *)
Definition initialFilters : Filters := {|
  branchFilter := [];
  districtHeadFilter := [];
  supervisorFilter := [];
  courseFilter := [];
  courseTypeFilter := [];
  timePeriodFilter := {| tp_start := None; tp_end := None |}
|}.

(** The callback of [allData.filter] in [filteredData]. *)
Definition filterItem (filters : Filters) (item : TrainingRecord) : bool :=
  let branchMatch :=
    (List.length (branchFilter filters) =? 0)%nat
    || includes (branchFilter filters) (branch item) in
  let districtHeadMatch :=
    (List.length (districtHeadFilter filters) =? 0)%nat
    || includes (districtHeadFilter filters) (districtHead item) in
  let supervisorMatch :=
    (List.length (supervisorFilter filters) =? 0)%nat
    || includes (supervisorFilter filters) (supervisor item) in
  let courseMatch :=
    (List.length (courseFilter filters) =? 0)%nat
    || includes (courseFilter filters) (courseTitle item) in
  let courseTypeMatch :=
    (List.length (courseTypeFilter filters) =? 0)%nat
    || includes (courseTypeFilter filters) (CourseType_value (courseType item)) in
  let startDateMatch :=
    match tp_start (timePeriodFilter filters) with
    | None => true
    | Some start => date_ge (completionDate item) start
    end in
  let endDateMatch :=
    match tp_end (timePeriodFilter filters) with
    | None => true
    | Some e => date_le (completionDate item) e
    end in
  branchMatch && districtHeadMatch && supervisorMatch && courseMatch
  && courseTypeMatch && startDateMatch && endDateMatch.

Definition filteredData (allData : list TrainingRecord) (filters : Filters)
  : list TrainingRecord :=
  filter (filterItem filters) allData.

(** ** What the specification says a filter does *)

(** A dimension with a non-empty selection contains the field value. *)
Definition dimension_ok (selection : list string) (v : string) : Prop :=
  selection <> [] -> In v selection.

(** [a >= b] on dates, as a proposition: both time values are numbers and
    ordered. *)
Definition Date_ge (a b : Date) : Prop :=
  exists x y, getTime a = Some x /\ getTime b = Some y /\ y <= x.

Definition Date_le (a b : Date) : Prop :=
  exists x y, getTime a = Some x /\ getTime b = Some y /\ x <= y.

Definition passes (f : Filters) (r : TrainingRecord) : Prop :=
  dimension_ok (branchFilter f) (branch r)
  /\ dimension_ok (districtHeadFilter f) (districtHead r)
  /\ dimension_ok (supervisorFilter f) (supervisor r)
  /\ dimension_ok (courseFilter f) (courseTitle r)
  /\ dimension_ok (courseTypeFilter f) (CourseType_value (courseType r))
  /\ (forall s, tp_start (timePeriodFilter f) = Some s -> Date_ge (completionDate r) s)
  /\ (forall e, tp_end (timePeriodFilter f) = Some e -> Date_le (completionDate r) e).

(** [selects P l out]: [out] holds exactly the elements of [l] that satisfy
    [P], each as often as in [l] and in the order of [l]. *)
Inductive selects {A : Type} (P : A -> Prop) : list A -> list A -> Prop :=
| selects_nil : selects P [] []
| selects_keep : forall x l out,
    P x -> selects P l out -> selects P (x :: l) (x :: out)
| selects_drop : forall x l out,
    ~ P x -> selects P l out -> selects P (x :: l) out.

(* ================================================================== *)
(** * More JavaScript primitives: numbers, arrays, dictionaries *)
(* ================================================================== *)

(** [String(n)] for an integer [n]. *)
Definition Z_toString (n : Z) : string := NilZero.string_of_int (Z.to_int n).

(** [parseFloat(x.toFixed(fractionDigits))]: [toFixed] picks the integer [n]
    with [n / 10^f] nearest to the magnitude of [x], the larger one on a tie,
    and keeps the sign of [x]. *)
Definition toFixed_n (x : Q) (f : nat) : Z :=
  Qfloor (x * inject_Z (10 ^ Z.of_nat f) + (1 # 2)).

Definition parseFloat_toFixed (x : Q) (fractionDigits : nat) : Q :=
  if Qltb x 0
  then - (inject_Z (toFixed_n (- x) fractionDigits)
          / inject_Z (10 ^ Z.of_nat fractionDigits))
  else inject_Z (toFixed_n x fractionDigits)
       / inject_Z (10 ^ Z.of_nat fractionDigits).

(** [arr.reduce((acc, curr) => acc + f(curr), 0)]. *)
Definition reduce_sum {A : Type} (f : A -> Q) (arr : list A) : Q :=
  fold_left (fun acc curr => acc + f curr)%Q arr 0%Q.

(** [arr.map((x, index) => f(x, index))]. *)
Fixpoint mapi_from {A B : Type} (f : A -> Z -> B) (index : Z) (arr : list A)
  : list B :=
  match arr with
  | [] => []
  | x :: rest => f x index :: mapi_from f (index + 1) rest
  end.

Definition mapi {A B : Type} (f : A -> Z -> B) (arr : list A) : list B :=
  mapi_from f 0 arr.

(** [arr.slice(start, end)]: a negative index counts from the end, and both
    are clamped to the bounds of the array. *)
Definition slice {A : Type} (arr : list A) (start end_ : Z) : list A :=
  let len := Z.of_nat (List.length arr) in
  let k := if start <? 0 then Z.max (len + start) 0 else Z.min start len in
  let final := if end_ <? 0 then Z.max (len + end_) 0 else Z.min end_ len in
  firstn (Z.to_nat (final - k)) (skipn (Z.to_nat k) arr).

(** A division that reports a zero divisor: [None] where JavaScript would
    produce NaN or an infinity. *)
Definition checked_div (a b : Q) : option Q :=
  if Qeq_bool b 0 then None else Some (a / b)%Q.

Section ArraySort.
Context {A : Type}.
Variable comparefn : A -> A -> Q.

(** One insertion: [sortedRev] is the sorted prefix, last element first.
    The pivot moves to the left of every element it is compared below. *)
Fixpoint sort_insert (pivot : A) (sortedRev : list A) : list A :=
  match sortedRev with
  | [] => [pivot]
  | e :: rest =>
      if Qltb (comparefn pivot e) 0
      then e :: sort_insert pivot rest
      else pivot :: sortedRev
  end.

(** [arr.sort(comparefn)] (on a copy: the result is a new list). *)
Definition sort (arr : list A) : list A :=
  rev (fold_left (fun sortedRev pivot => sort_insert pivot sortedRev) arr []).
End ArraySort.

(** A sorted prefix kept last element first, for a relation [before] that
    the result promises of an element placed before another: every element
    is after the ones that follow it in the list. *)
Inductive ordered_rev {A : Type} (before : A -> A -> Prop) : list A -> Prop :=
| ordered_rev_nil : ordered_rev before []
| ordered_rev_cons : forall x p,
    Forall (fun e => before e x) p -> ordered_rev before p ->
    ordered_rev before (x :: p).

(** A dictionary: keys in insertion order, each key once. *)
Definition Dict (V : Type) : Type := list (string * V).

(** [o[k]], [None] for [undefined]. *)
Fixpoint dict_get {V : Type} (o : Dict V) (k : string) : option V :=
  match o with
  | [] => None
  | (k', v) :: rest => if String.eqb k' k then Some v else dict_get rest k
  end.

(** [o[k] = v]: an existing key keeps its place, a new key goes last. *)
Fixpoint dict_set {V : Type} (o : Dict V) (k : string) (v : V) : Dict V :=
  match o with
  | [] => [(k, v)]
  | (k', v') :: rest =>
      if String.eqb k' k then (k', v) :: rest
      else (k', v') :: dict_set rest k v
  end.

Definition Object_entries {V : Type} (o : Dict V) : list (string * V) := o.

(** [new Set<string>()] with [add] and [size]: members in insertion order. *)
Definition Set_add (s : list string) (x : string) : list string :=
  if includes s x then s else s ++ [x].

Definition Set_size (s : list string) : Z := Z.of_nat (List.length s).

(** [new Set(arr).size]. *)
Definition Set_of (arr : list string) : list string :=
  fold_left Set_add arr [].

(* ================================================================== *)
(** * Leaderboards (src/components/sections/Leaderboard.tsx) *)
(* ================================================================== *)

Module TraineeScore.
Record t : Type := { name : string; totalScore : Q; count : Z }.
End TraineeScore.

Module TraineeRow.
Record t : Type := {
  email : string;
  name : string;
  avgScore : Q;
  courseInfo : string;
  courseCount : Z;
  rank : Z
}.
End TraineeRow.

Module GroupRate.
Record t : Type := { totalRate : Q; count : Z; trainees : list string }.
End GroupRate.

Module GroupRow.
Record t : Type := {
  name : string;
  avgRate : Q;
  traineeInfo : string;
  traineeCount : Z;
  rank : Z
}.
End GroupRow.

Module Leaderboard.

(** The body of [data.forEach] in [topTrainees]. *)
Definition traineeScores_step (traineeScores : Dict TraineeScore.t)
    (d : TrainingRecord) : Dict TraineeScore.t :=
  if Qgtb (postAssessmentScore d) 0 && truthy (email d) then
    let traineeScores1 :=
      match dict_get traineeScores (email d) with
      | None =>
          dict_set traineeScores (email d)
            {| TraineeScore.name := traineeName d;
               TraineeScore.totalScore := 0;
               TraineeScore.count := 0 |}
      | Some _ => traineeScores
      end in
    match dict_get traineeScores1 (email d) with
    | Some s =>
        dict_set traineeScores1 (email d)
          {| TraineeScore.name := TraineeScore.name s;
             TraineeScore.totalScore :=
               (TraineeScore.totalScore s + postAssessmentScore d)%Q;
             TraineeScore.count := TraineeScore.count s + 1 |}
    | None => traineeScores1
    end
  else traineeScores.

Definition traineeScores (data : list TrainingRecord) : Dict TraineeScore.t :=
  fold_left traineeScores_step data [].

Definition traineeRow (entry : string * TraineeScore.t) : TraineeRow.t :=
  let (email, s) := entry in
  {| TraineeRow.email := email;
     TraineeRow.name := TraineeScore.name s;
     TraineeRow.avgScore :=
       parseFloat_toFixed
         (TraineeScore.totalScore s / inject_Z (TraineeScore.count s)) 1;
     TraineeRow.courseInfo :=
       ("(" ++ Z_toString (TraineeScore.count s) ++ " courses)")%string;
     TraineeRow.courseCount := TraineeScore.count s;
     TraineeRow.rank := 0 |}.

Definition withTraineeRank (trainee : TraineeRow.t) (index : Z) : TraineeRow.t :=
  {| TraineeRow.email := TraineeRow.email trainee;
     TraineeRow.name := TraineeRow.name trainee;
     TraineeRow.avgScore := TraineeRow.avgScore trainee;
     TraineeRow.courseInfo := TraineeRow.courseInfo trainee;
     TraineeRow.courseCount := TraineeRow.courseCount trainee;
     TraineeRow.rank := index + 1 |}.

Definition topTrainees (data : list TrainingRecord) : list TraineeRow.t :=
  mapi withTraineeRank
    (sort (fun a b => (TraineeRow.avgScore b - TraineeRow.avgScore a)%Q)
       (map traineeRow (Object_entries (traineeScores data)))).

(** The accumulation shared by [topBranches] and [topSupervisors]: create
    the bucket of [k] when it is missing, then add the record to it. *)
Definition rates_add (rates : Dict GroupRate.t) (k : string)
    (d : TrainingRecord) : Dict GroupRate.t :=
  let rates1 :=
    match dict_get rates k with
    | None =>
        dict_set rates k
          {| GroupRate.totalRate := 0; GroupRate.count := 0;
             GroupRate.trainees := [] |}
    | Some _ => rates
    end in
  match dict_get rates1 k with
  | Some g =>
      dict_set rates1 k
        {| GroupRate.totalRate := (GroupRate.totalRate g + completionRate d)%Q;
           GroupRate.count := GroupRate.count g + 1;
           GroupRate.trainees := Set_add (GroupRate.trainees g) (traineeName d) |}
  | None => rates1
  end.

Definition groupRow (entry : string * GroupRate.t) : GroupRow.t :=
  let (name, g) := entry in
  {| GroupRow.name := name;
     GroupRow.avgRate :=
       parseFloat_toFixed
         (GroupRate.totalRate g / inject_Z (GroupRate.count g)) 1;
     GroupRow.traineeInfo :=
       ("(" ++ Z_toString (Set_size (GroupRate.trainees g)) ++ " trainees)")%string;
     GroupRow.traineeCount := Set_size (GroupRate.trainees g);
     GroupRow.rank := 0 |}.

Definition withGroupRank (g : GroupRow.t) (index : Z) : GroupRow.t :=
  {| GroupRow.name := GroupRow.name g;
     GroupRow.avgRate := GroupRow.avgRate g;
     GroupRow.traineeInfo := GroupRow.traineeInfo g;
     GroupRow.traineeCount := GroupRow.traineeCount g;
     GroupRow.rank := index + 1 |}.

Definition rankGroups (rates : Dict GroupRate.t) : list GroupRow.t :=
  mapi withGroupRank
    (sort (fun a b => (GroupRow.avgRate b - GroupRow.avgRate a)%Q)
       (map groupRow (Object_entries rates))).

(** [topBranches]: [if (!d.branch) return;] comes first in the loop body. *)
Definition branchRates_step (branchRates : Dict GroupRate.t)
    (d : TrainingRecord) : Dict GroupRate.t :=
  if negb (truthy (branch d)) then branchRates
  else rates_add branchRates (branch d) d.

Definition branchRates (data : list TrainingRecord) : Dict GroupRate.t :=
  fold_left branchRates_step data [].

Definition topBranches (data : list TrainingRecord) : list GroupRow.t :=
  rankGroups (branchRates data).

(** [topSupervisors]: the loop body is guarded by [if (d.supervisor)]. *)
Definition supervisorRates_step (supervisorRates : Dict GroupRate.t)
    (d : TrainingRecord) : Dict GroupRate.t :=
  if truthy (supervisor d) then rates_add supervisorRates (supervisor d) d
  else supervisorRates.

Definition supervisorRates (data : list TrainingRecord) : Dict GroupRate.t :=
  fold_left supervisorRates_step data [].


End Leaderboard.

(** The copy of the leaderboard in components/sections/Leaderboard.tsx at the
    repository root (the bundle index.tsx holds the same code): its
    [topBranches] loop has no guard on [d.branch]. *)
Module RootLeaderboard.

Definition branchRates_step (branchRates : Dict GroupRate.t)
    (d : TrainingRecord) : Dict GroupRate.t :=
  Leaderboard.rates_add branchRates (branch d) d.

Definition branchRates (data : list TrainingRecord) : Dict GroupRate.t :=
  fold_left branchRates_step data [].

Definition topBranches (data : list TrainingRecord) : list GroupRow.t :=
  Leaderboard.rankGroups (branchRates data).

End RootLeaderboard.

(** ** What the specification says about a leaderboard *)

(** The records that count for a trainee: the email is the trainee's and the
    post-assessment score is positive. *)
Definition scoredFor (e : string) (d : TrainingRecord) : bool :=
  Qgtb (postAssessmentScore d) 0 && String.eqb (email d) e.

(** The accumulator of an email after the loop: absent when no record
    counts for it, else the name of the first such record, the sum of their
    scores and their number. *)
Definition traineeScore_of (e : string) (data : list TrainingRecord)
  : option TraineeScore.t :=
  match filter (scoredFor e) data with
  | [] => None
  | d0 :: _ =>
      if truthy e then
        Some {| TraineeScore.name := traineeName d0;
                TraineeScore.totalScore :=
                  fold_left Qplus
                    (map postAssessmentScore (filter (scoredFor e) data)) 0%Q;
                TraineeScore.count :=
                  Z.of_nat (List.length (filter (scoredFor e) data)) |}
      else None
  end.



(** The arithmetic mean of a list of numbers. *)
Definition mean (l : list Q) : Q :=
  (fold_left Qplus l 0 / inject_Z (Z.of_nat (List.length l)))%Q.

(* ================================================================== *)
(** * Actionable insights (src/components/sections/ActionableInsights.tsx) *)
(* ================================================================== *)

Record Thresholds : Type := {
  AT_RISK_COMPLETION : Z;
  AT_RISK_SCORE : Z;
  COURSE_ATTENTION_COMPLETION : Z;
  COURSE_ATTENTION_SCORE : Z
}.

Definition DEFAULT_THRESHOLDS : Thresholds := {|
  AT_RISK_COMPLETION := 30;
  AT_RISK_SCORE := 50;
  COURSE_ATTENTION_COMPLETION := 60;
  COURSE_ATTENTION_SCORE := 60
|}.

Module RiskEntry.
Record t : Type := { trainee : TrainingRecord; reasons : list string }.
End RiskEntry.

Module AtRiskRow.
Record t : Type := {
  traineeName : string;
  branch : string;
  supervisor : string;
  reasons : string;
  email : string
}.
End AtRiskRow.

Module ActionableInsights.

(** The local array [reasons] that the loop body builds for a record. *)
Definition recordReasons (thresholds : Thresholds) (record : TrainingRecord)
  : list string :=
  (if Qltb (completionRate record) (inject_Z (AT_RISK_COMPLETION thresholds))
   then [("Completion < " ++ Z_toString (AT_RISK_COMPLETION thresholds) ++ "%")%string]
   else [])
  ++
  (if Qgtb (postAssessmentScore record) 0
      && Qltb (postAssessmentScore record) (inject_Z (AT_RISK_SCORE thresholds))
   then [("Score < " ++ Z_toString (AT_RISK_SCORE thresholds) ++ "%")%string]
   else []).

(** [reasons.map(r => `${r} on '${record.courseTitle}'`)]. *)
Definition taggedReasons (thresholds : Thresholds) (record : TrainingRecord)
  : list string :=
  map (fun r => (r ++ " on '" ++ courseTitle record ++ "'")%string)
      (recordReasons thresholds record).

(** The body of [data.forEach] in [atRiskTrainees]. *)
Definition riskMap_step (thresholds : Thresholds)
    (riskMap : Dict RiskEntry.t) (record : TrainingRecord) : Dict RiskEntry.t :=
  let reasons := recordReasons thresholds record in
  if (0 <? Z.of_nat (List.length reasons)) then
    let riskMap1 :=
      match dict_get riskMap (traineeName record) with
      | None =>
          dict_set riskMap (traineeName record)
            {| RiskEntry.trainee := record; RiskEntry.reasons := [] |}
      | Some _ => riskMap
      end in
    match dict_get riskMap1 (traineeName record) with
    | Some entry =>
        dict_set riskMap1 (traineeName record)
          {| RiskEntry.trainee := RiskEntry.trainee entry;
             RiskEntry.reasons :=
               RiskEntry.reasons entry ++ taggedReasons thresholds record |}
    | None => riskMap1
    end
  else riskMap.

Definition riskMap (data : list TrainingRecord) (thresholds : Thresholds)
  : Dict RiskEntry.t :=
  fold_left (riskMap_step thresholds) data [].

(** [Array.from(riskMap.values())]. *)
Definition atRiskTrainees (data : list TrainingRecord) (thresholds : Thresholds)
  : list RiskEntry.t :=
  map snd (riskMap data thresholds).

Definition atRiskRow (item : RiskEntry.t) : AtRiskRow.t :=
  {| AtRiskRow.traineeName := traineeName (RiskEntry.trainee item);
     AtRiskRow.branch := branch (RiskEntry.trainee item);
     AtRiskRow.supervisor := supervisor (RiskEntry.trainee item);
     AtRiskRow.reasons := String.concat "; " (RiskEntry.reasons item);
     AtRiskRow.email := email (RiskEntry.trainee item) |}.

Definition atRiskTraineesData (data : list TrainingRecord)
    (thresholds : Thresholds) : list AtRiskRow.t :=
  map atRiskRow (atRiskTrainees data thresholds).

End ActionableInsights.

(** ** What the specification says about the at-risk list *)

(** The two flag conditions of a record. *)
Definition lowCompletion (t : Thresholds) (r : TrainingRecord) : Prop :=
  (completionRate r < inject_Z (AT_RISK_COMPLETION t))%Q.

Definition lowScore (t : Thresholds) (r : TrainingRecord) : Prop :=
  (0 < postAssessmentScore r)%Q
  /\ (postAssessmentScore r < inject_Z (AT_RISK_SCORE t))%Q.

Definition flagged (t : Thresholds) (r : TrainingRecord) : Prop :=
  lowCompletion t r \/ lowScore t r.

(** The reason strings, tagged with the course of the record. *)
Definition completionReason (t : Thresholds) (r : TrainingRecord) : string :=
  ("Completion < " ++ Z_toString (AT_RISK_COMPLETION t) ++ "% on '"
   ++ courseTitle r ++ "'")%string.

Definition scoreReason (t : Thresholds) (r : TrainingRecord) : string :=
  ("Score < " ++ Z_toString (AT_RISK_SCORE t) ++ "% on '"
   ++ courseTitle r ++ "'")%string.

(** [reasonsOf t r l]: [l] holds one reason per flag condition that [r]
    satisfies, the completion reason first. *)
Definition reasonsOf (t : Thresholds) (r : TrainingRecord) (l : list string)
  : Prop :=
  (lowCompletion t r /\ lowScore t r
   /\ l = [completionReason t r; scoreReason t r])
  \/ (lowCompletion t r /\ ~ lowScore t r /\ l = [completionReason t r])
  \/ (~ lowCompletion t r /\ lowScore t r /\ l = [scoreReason t r])
  \/ (~ lowCompletion t r /\ ~ lowScore t r /\ l = []).

(** The records of a trainee, in input order. *)
Definition recordsOf (n : string) (data : list TrainingRecord)
  : list TrainingRecord :=
  filter (fun r => String.eqb (traineeName r) n) data.

(** The code's test [reasons.length > 0] on a record of trainee [n]. *)
Definition flaggedFor (t : Thresholds) (n : string) (r : TrainingRecord) : bool :=
  String.eqb (traineeName r) n
  && (0 <? Z.of_nat (List.length (ActionableInsights.recordReasons t r))).

(** The entry of a trainee after the loop. *)
Definition riskEntry_of (t : Thresholds) (n : string) (data : list TrainingRecord)
  : option RiskEntry.t :=
  match find (flaggedFor t n) data with
  | None => None
  | Some first =>
      Some {| RiskEntry.trainee := first;
              RiskEntry.reasons :=
                flat_map (ActionableInsights.taggedReasons t) (recordsOf n data) |}
  end.

(** [firstFlagged t n data first]: [first] is the first record of [data], in
    input order, that belongs to trainee [n] and is flagged. *)
Definition firstFlagged (t : Thresholds) (n : string)
    (data : list TrainingRecord) (first : TrainingRecord) : Prop :=
  exists earlier later,
    data = earlier ++ first :: later
    /\ traineeName first = n /\ flagged t first
    /\ forall r, In r earlier -> ~ (traineeName r = n /\ flagged t r).

(** The records of the at-risk scenario: trainee "T" on two courses. *)
Definition riskRecord (course : string) (rate score : Q) (b : string)
  : TrainingRecord := {|
  id := 1; traineeName := "T"; email := "t@x.com"; branch := b;
  districtHead := ""; supervisor := "S"; courseTitle := course;
  completionRate := rate; preAssessmentScore := 0; postAssessmentScore := score;
  averageQuizScore := 0; courseType := Mandatory;
  completionDate := MkDate (Some 0); trainingHours := 1 |}.

(* ================================================================== *)
(** * Trend analysis (src/components/sections/TrendAnalysis.tsx) *)
(* ================================================================== *)

Module TrendPoint.
Record t : Type := { month : string; avgCompletion : Q; trainingHours : Q }.
End TrendPoint.

Module TrendRow.
Record t : Type := {
  month : string;
  avgCompletion : Q;
  trainingHours : Q;
  movingAverage : option Q
}.
End TrendRow.

Module MonthTotals.
Record t : Type := { totalCompletion : Q; count : Z; totalHours : Q }.
End MonthTotals.

Module TrendAnalysis.

(** [{ ...d, movingAverage: ma }]. *)
Definition withMovingAverage (d : TrendPoint.t) (ma : option Q) : TrendRow.t :=
  {| TrendRow.month := TrendPoint.month d;
     TrendRow.avgCompletion := TrendPoint.avgCompletion d;
     TrendRow.trainingHours := TrendPoint.trainingHours d;
     TrendRow.movingAverage := ma |}.

Definition calculateMovingAverage (data : list TrendPoint.t) (windowSize : Z)
  : list TrendRow.t :=
  if Z.of_nat (List.length data) <? windowSize
  then map (fun d => withMovingAverage d None) data
  else
    mapi (fun d index =>
            if index <? windowSize - 1 then withMovingAverage d None
            else
              let window := slice data (index - windowSize + 1) (index + 1) in
              let sum := reduce_sum TrendPoint.avgCompletion window in
              withMovingAverage d (Some (sum / inject_Z windowSize)%Q))
         data.

Section MonthlyData.
(** [date.toLocaleDateString('en-US', { year: 'numeric', month: 'short' })]
    and [new Date(month).getTime()] depend on the time zone and the
    locale data of the host; they are parameters here. *)
Variable monthLabel : Date -> string.
Variable monthTime : string -> option Z.

Definition trends_step (trends : Dict MonthTotals.t) (item : TrainingRecord)
  : Dict MonthTotals.t :=
  let month := monthLabel (completionDate item) in
  let trends1 :=
    match dict_get trends month with
    | None =>
        dict_set trends month
          {| MonthTotals.totalCompletion := 0; MonthTotals.count := 0;
             MonthTotals.totalHours := 0 |}
    | Some _ => trends
    end in
  match dict_get trends1 month with
  | Some m =>
      dict_set trends1 month
        {| MonthTotals.totalCompletion :=
             (MonthTotals.totalCompletion m + completionRate item)%Q;
           MonthTotals.count := MonthTotals.count m + 1;
           MonthTotals.totalHours :=
             (MonthTotals.totalHours m + trainingHours item)%Q |}
  | None => trends1
  end.

Definition trendPoint (entry : string * MonthTotals.t) : TrendPoint.t :=
  let (month, values) := entry in
  {| TrendPoint.month := month;
     TrendPoint.avgCompletion :=
       (MonthTotals.totalCompletion values
        / inject_Z (MonthTotals.count values))%Q;
     TrendPoint.trainingHours := MonthTotals.totalHours values |}.

(** [new Date(a.month).getTime() - new Date(b.month).getTime()]; a
    difference that is NaN orders nothing, like 0. *)
Definition byMonth (a b : TrendPoint.t) : Q :=
  match monthTime (TrendPoint.month a), monthTime (TrendPoint.month b) with
  | Some ta, Some tb => inject_Z (ta - tb)
  | _, _ => 0%Q
  end.

Definition sortedTrends (data : list TrainingRecord) : list TrendPoint.t :=
  sort byMonth (map trendPoint (Object_entries (fold_left trends_step data []))).

Definition monthlyData (data : list TrainingRecord) : list TrendRow.t :=
  calculateMovingAverage (sortedTrends data) 3.
End MonthlyData.

End TrendAnalysis.

(** ** What the specification says about the moving average *)

(** Two moving-average values are the same: both absent, or equal numbers. *)
Definition sameAverage (a b : option Q) : Prop :=
  match a, b with
  | None, None => True
  | Some x, Some y => (x == y)%Q
  | _, _ => False
  end.

(** A bucket with a mean completion value. *)
Definition bucket (label : string) (completion : Q) : TrendPoint.t :=
  {| TrendPoint.month := label; TrendPoint.avgCompletion := completion;
     TrendPoint.trainingHours := 0 |}.

(* ================================================================== *)
(** * Comparison tool (src/components/sections/ComparisonTool.tsx) *)
(* ================================================================== *)

Module Kpis.
Record t : Type := {
  totalLearners : Z;
  avgCompletion : Q;
  avgPostScore : Q;
  improvement : Q;
  totalHours : Q;
  recordCount : Z
}.
End Kpis.

Module ComparisonTool.

Definition bind {A B : Type} (m : option A) (k : A -> option B) : option B :=
  match m with
  | Some a => k a
  | None => None
  end.

Notation "x <- m ;; k" := (bind m (fun x => k))
  (at level 61, m at next level, right associativity).

(** Every [/] of the function is a [checked_div], so that the result is
    [None] as soon as one divisor is zero. *)
Definition calculateKpis (data : list TrainingRecord) : option Kpis.t :=
  if (Z.of_nat (List.length data) =? 0) then
    Some {| Kpis.totalLearners := 0; Kpis.avgCompletion := 0;
            Kpis.avgPostScore := 0; Kpis.improvement := 0;
            Kpis.totalHours := 0; Kpis.recordCount := 0 |}
  else
    let totalLearners := Set_size (Set_of (map traineeName data)) in
    avgCompletion <-
      checked_div (reduce_sum completionRate data)
                  (inject_Z (Z.of_nat (List.length data))) ;;
    let totalHours := reduce_sum trainingHours data in
    let completedTrainings :=
      filter (fun d => Qgtb (postAssessmentScore d) 0) data in
    avgPostScore <-
      (if 0 <? Z.of_nat (List.length completedTrainings)
       then checked_div (reduce_sum postAssessmentScore completedTrainings)
                        (inject_Z (Z.of_nat (List.length completedTrainings)))
       else Some 0%Q) ;;
    let preScores := reduce_sum preAssessmentScore completedTrainings in
    let postScores := reduce_sum postAssessmentScore completedTrainings in
    improvement <-
      (if Qgtb preScores 0
       then q <- checked_div (postScores - preScores) preScores ;;
            Some (q * 100)%Q
       else Some 0%Q) ;;
    Some {| Kpis.totalLearners := totalLearners;
            Kpis.avgCompletion := avgCompletion;
            Kpis.avgPostScore := avgPostScore;
            Kpis.improvement := improvement;
            Kpis.totalHours := totalHours;
            Kpis.recordCount := Z.of_nat (List.length data) |}.

End ComparisonTool.

(** ** What the specification says about the KPIs *)

Definition zeroKpis : Kpis.t :=
  {| Kpis.totalLearners := 0; Kpis.avgCompletion := 0; Kpis.avgPostScore := 0;
     Kpis.improvement := 0; Kpis.totalHours := 0; Kpis.recordCount := 0 |}.

(** The sum of a list of numbers. *)
Definition Qsum (l : list Q) : Q := fold_right Qplus 0%Q l.

(** The records with a completed assessment. *)
Definition assessed (data : list TrainingRecord) : list TrainingRecord :=
  filter (fun d => Qgtb (postAssessmentScore d) 0) data.

(** The records of the KPI scenario: one record with pre and post scores. *)
Definition kpiRecord (pre post : Q) : TrainingRecord := {|
  id := 1; traineeName := "T"; email := "t@x.com"; branch := "North";
  districtHead := ""; supervisor := "S"; courseTitle := "Safety";
  completionRate := 100; preAssessmentScore := pre;
  postAssessmentScore := post; averageQuizScore := 0; courseType := Mandatory;
  completionDate := MkDate (Some 0); trainingHours := 1 |}.

(* ================================================================== *)
(** * Table view state (hooks/useDataTable.ts) *)
(* ================================================================== *)

(** A cell of a row: the values that the tables of the dashboard hold. *)
Inductive value : Type :=
| VUndefined
| VNull
| VNumber (q : Q)
| VString (s : string)
| VDate (d : Date).

(** A row is a plain object: its own keys, in insertion order. *)
Definition Row : Type := Dict value.

(** [item[key]]. *)
Definition row_get (item : Row) (key : string) : value :=
  match dict_get item key with
  | Some v => v
  | None => VUndefined
  end.

(** [v === null || v === undefined]. *)
Definition nullish (v : value) : bool :=
  match v with
  | VUndefined | VNull => true
  | _ => false
  end.

(** [s.includes(sub)] on strings. *)
Fixpoint String_includes (s sub : string) : bool :=
  String.prefix sub s
  || match s with
     | EmptyString => false
     | String _ rest => String_includes rest sub
     end.

Inductive SortDirection : Type := ascending | descending.

Definition SortDirection_eqb (a b : SortDirection) : bool :=
  match a, b with
  | ascending, ascending | descending, descending => true
  | _, _ => false
  end.

Record SortConfig : Type := {
  key : option string;
  direction : SortDirection
}.

(** The three [useState] cells of the hook. *)
Record HookState : Type := {
  searchTerm : string;
  sortConfig : SortConfig;
  currentPage : Z
}.

(** What the hook returns to the table. *)
Module TableView.
Record t : Type := {
  paginatedItems : list Row;
  sortConfig : SortConfig;
  searchTerm : string;
  currentPage : Z;
  pageCount : Z;
  totalItems : Z;
  sortedItems : list Row
}.
End TableView.

(** What a user or React can do to the hook between two renders. *)
Inductive Event : Type :=
| RequestSort (k : string)
| SearchChange (term : string)
| NextPage
| PrevPage
| SetPage (page : Z)
| PageEffect.

Section UseDataTable.
(** The conversions of the language that depend on the host or on the
    full grammar of numeric literals are parameters: [Number(s)] of a
    string ([None] for NaN), [String(v)] of a cell, and [s.toLowerCase()]. *)
Variable StringToNumber : string -> option Q.
Variable ToString : value -> string.
Variable toLowerCase : string -> string.

(** The number a cell is compared as, [None] for NaN. *)
Definition ToNumber (v : value) : option Q :=
  match v with
  | VUndefined => None
  | VNull => Some 0%Q
  | VNumber q => Some q
  | VString s => StringToNumber s
  | VDate d => option_map inject_Z (getTime d)
  end.

(** [a < b]: two strings are compared as strings, anything else as
    numbers, and a comparison with NaN is false. *)
Definition js_lt (a b : value) : bool :=
  match a, b with
  | VString s, VString t => String.ltb s t
  | _, _ =>
      match ToNumber a, ToNumber b with
      | Some x, Some y => Qltb x y
      | _, _ => false
      end
  end.

(** The comparator of [sortableItems.sort]. *)
Definition compareRows (k : string) (dir : SortDirection) (a b : Row) : Q :=
  let aValue := row_get a k in
  let bValue := row_get b k in
  if nullish aValue then 1%Q
  else if nullish bValue then (-1)%Q
  else if js_lt aValue bValue
       then (if SortDirection_eqb dir ascending then -1 else 1)%Q
  else if js_lt bValue aValue
       then (if SortDirection_eqb dir ascending then 1 else -1)%Q
  else 0%Q.

(** [Object.values(item).join(' ')]: [join] writes null and undefined as
    the empty string. *)
Definition rowString (item : Row) : string :=
  String.concat " "
    (map (fun v => if nullish v then "" else ToString v) (map snd item)).

Definition filteredItems (items : list Row) (st : HookState) : list Row :=
  if negb (truthy (searchTerm st)) then items
  else
    let lowercasedSearchTerm := toLowerCase (searchTerm st) in
    filter (fun item =>
              String_includes (toLowerCase (rowString item)) lowercasedSearchTerm)
           items.

Definition sortedItems (items : list Row) (st : HookState) : list Row :=
  let sortableItems := filteredItems items st in
  match key (sortConfig st) with
  | Some k => sort (compareRows k (direction (sortConfig st))) sortableItems
  | None => sortableItems
  end.

(** [Math.ceil(sortedItems.length / rowsPerPage) || 1]; [rowsPerPage] is
    not zero. *)
Definition pageCount (items : list Row) (rowsPerPage : Z) (st : HookState) : Z :=
  let pages :=
    Qceiling (inject_Z (Z.of_nat (List.length (sortedItems items st)))
              / inject_Z rowsPerPage) in
  if pages =? 0 then 1 else pages.

Definition actualCurrentPage (items : list Row) (rowsPerPage : Z)
    (st : HookState) : Z :=
  Z.min (currentPage st) (pageCount items rowsPerPage st).

Definition paginatedItems (items : list Row) (rowsPerPage : Z)
    (st : HookState) : list Row :=
  let startIndex := (actualCurrentPage items rowsPerPage st - 1) * rowsPerPage in
  slice (sortedItems items st) startIndex (startIndex + rowsPerPage).

Definition setCurrentPage (st : HookState) (page : Z) : HookState :=
  {| searchTerm := searchTerm st; sortConfig := sortConfig st;
     currentPage := page |}.

Definition requestSort (k : string) (st : HookState) : HookState :=
  let direction0 := ascending in
  let direction1 :=
    if match key (sortConfig st) with
       | Some k0 => String.eqb k0 k
       | None => false
       end
       && SortDirection_eqb (direction (sortConfig st)) ascending
    then descending else direction0 in
  {| searchTerm := searchTerm st;
     sortConfig := {| key := Some k; direction := direction1 |};
     currentPage := 1 |}.

Definition handleSearchChange (term : string) (st : HookState) : HookState :=
  {| searchTerm := term; sortConfig := sortConfig st; currentPage := 1 |}.

(** The page handlers close over the [pageCount] of the render that made
    them and update the latest [currentPage]. *)
Definition nextPage (pages : Z) (st : HookState) : HookState :=
  setCurrentPage st (Z.min (currentPage st + 1) pages).

Definition prevPage (st : HookState) : HookState :=
  setCurrentPage st (Z.max (currentPage st - 1) 1).

Definition setPage (pages : Z) (page : Z) (st : HookState) : HookState :=
  setCurrentPage st (Z.max 1 (Z.min page pages)).

(** The [useEffect] that writes the clamped page back to the state. *)
Definition pageEffect (items : list Row) (rowsPerPage : Z) (st : HookState)
  : HookState :=
  if negb (currentPage st =? actualCurrentPage items rowsPerPage st)
  then setCurrentPage st (actualCurrentPage items rowsPerPage st)
  else st.

Definition initialState (initialSortKey : option string) : HookState :=
  {| searchTerm := "";
     sortConfig := {| key := initialSortKey; direction := descending |};
     currentPage := 1 |}.

(** One render of the hook. *)
Definition useDataTable (items : list Row) (rowsPerPage : Z) (st : HookState)
  : TableView.t :=
  {| TableView.paginatedItems := paginatedItems items rowsPerPage st;
     TableView.sortConfig := sortConfig st;
     TableView.searchTerm := searchTerm st;
     TableView.currentPage := actualCurrentPage items rowsPerPage st;
     TableView.pageCount := pageCount items rowsPerPage st;
     TableView.totalItems := Z.of_nat (List.length (filteredItems items st));
     TableView.sortedItems := sortedItems items st |}.

(** The state after an event that happens while the hook shows [items]. *)
Definition dispatch (items : list Row) (rowsPerPage : Z) (ev : Event)
    (st : HookState) : HookState :=
  match ev with
  | RequestSort k => requestSort k st
  | SearchChange term => handleSearchChange term st
  | NextPage => nextPage (pageCount items rowsPerPage st) st
  | PrevPage => prevPage st
  | SetPage page => setPage (pageCount items rowsPerPage st) page st
  | PageEffect => pageEffect items rowsPerPage st
  end.

(** The states the hook can be in: the items it is given may change from
    one render to the next. *)
Inductive reachable (initialSortKey : option string) (rowsPerPage : Z)
  : HookState -> Prop :=
| reachable_init : reachable initialSortKey rowsPerPage (initialState initialSortKey)
| reachable_step : forall st items ev,
    reachable initialSortKey rowsPerPage st ->
    reachable initialSortKey rowsPerPage (dispatch items rowsPerPage ev st).
End UseDataTable.

(** ** What the specification says about the table *)



(** [pagesFor count rowsPerPage pages]: [pages] is the ceiling of
    [count / rowsPerPage], and 1 when there is nothing to show. *)
Definition pagesFor (count rowsPerPage pages : Z) : Prop :=
  (count = 0 -> pages = 1)
  /\ (0 < count -> (pages - 1) * rowsPerPage < count <= pages * rowsPerPage).

(** Rows for the scenarios: [n] rows with a numeric cell. *)
Definition numberedRow (n : nat) : Row :=
  [("rank", VNumber (inject_Z (Z.of_nat n))); ("name", VString "row")].

Definition numberedRows (n : nat) : list Row := map numberedRow (seq 1 n).

(** Rows for the sort scenario: scores with a tie and two missing values. *)
Definition scoreRow (label : string) (v : value) : Row :=
  [("name", VString label); ("avgScore", v)].

Definition scoreRows : list Row :=
  [scoreRow "a" (VNumber 80); scoreRow "b" VNull; scoreRow "c" (VNumber 90);
   [("name", VString "d")]; scoreRow "e" (VNumber 80)].

(** The records of the Top Trainees scenario: trainee "A" with a score. *)
Definition recordA (score : Q) : TrainingRecord := {|
  id := 1; traineeName := "A"; email := "a@x.com"; branch := "";
  districtHead := ""; supervisor := ""; courseTitle := "";
  completionRate := 0; preAssessmentScore := 0; postAssessmentScore := score;
  averageQuizScore := 0; courseType := Mandatory;
  completionDate := MkDate (Some 0); trainingHours := 0 |}.

(** A record without a branch: trainee "T", completion rate 40. *)
Definition noBranchRecord : TrainingRecord := {|
  id := 1; traineeName := "T"; email := "t@x.com"; branch := "";
  districtHead := ""; supervisor := "S"; courseTitle := "Safety";
  completionRate := 40; preAssessmentScore := 0; postAssessmentScore := 0;
  averageQuizScore := 0; courseType := Mandatory;
  completionDate := MkDate (Some 0); trainingHours := 1 |}.

(* ================================================================== *)
(** * The grouping loops, in general *)
(* ================================================================== *)

(** [if (!o[k]) o[k] = init; o[k] = update(o[k])]: the two statements that
    every grouping loop of the dashboard runs for a record. *)
Definition upsert {V : Type} (o : Dict V) (k : string) (init : V)
    (update : V -> V) : Dict V :=
  let o1 :=
    match dict_get o k with
    | None => dict_set o k init
    | Some _ => o
    end in
  match dict_get o1 k with
  | Some v => dict_set o1 k (update v)
  | None => o1
  end.

(** A loop that groups the records passing [guard] under [keyOf]. *)
Definition groupBy {A V : Type} (guard : A -> bool) (keyOf : A -> string)
    (init : A -> V) (update : A -> V -> V) (data : list A) : Dict V :=
  fold_left
    (fun o d => if guard d then upsert o (keyOf d) (init d) (update d) else o)
    data [].

(** The records of [data] that a grouping loop puts under the key [k]. *)
Definition groupOf {A : Type} (guard : A -> bool) (keyOf : A -> string)
    (k : string) (data : list A) : list A :=
  filter (fun d => guard d && String.eqb (keyOf d) k) data.

(** The sum of a list of integers. *)
Definition Zsum (l : list Z) : Z := fold_right Z.add 0 l.

(** ** The leaderboard loops as grouping loops *)

(** The bucket that [topBranches] and [topSupervisors] create, and what a
    record adds to it. *)
Definition rateInit : GroupRate.t :=
  {| GroupRate.totalRate := 0; GroupRate.count := 0; GroupRate.trainees := [] |}.

Definition rateUpdate (d : TrainingRecord) (g : GroupRate.t) : GroupRate.t :=
  {| GroupRate.totalRate := (GroupRate.totalRate g + completionRate d)%Q;
     GroupRate.count := GroupRate.count g + 1;
     GroupRate.trainees := Set_add (GroupRate.trainees g) (traineeName d) |}.

(** The bucket that [topTrainees] creates, and what a record adds to it. *)
Definition scoreInit (d : TrainingRecord) : TraineeScore.t :=
  {| TraineeScore.name := traineeName d; TraineeScore.totalScore := 0;
     TraineeScore.count := 0 |}.

Definition scoreUpdate (d : TrainingRecord) (s : TraineeScore.t) : TraineeScore.t :=
  {| TraineeScore.name := TraineeScore.name s;
     TraineeScore.totalScore := (TraineeScore.totalScore s + postAssessmentScore d)%Q;
     TraineeScore.count := TraineeScore.count s + 1 |}.

(** A record that [topTrainees] counts. *)
Definition countedTrainee (d : TrainingRecord) : bool :=
  Qgtb (postAssessmentScore d) 0 && truthy (email d).

(** The names of the trainees of a list of records, each once. *)
Definition distinctNames (records : list TrainingRecord) (names : list string)
  : Prop :=
  NoDup names /\ forall n, In n names <-> exists d, In d records /\ traineeName d = n.

(* ================================================================== *)
(** * Scenario data *)
(* ================================================================== *)

(** A record of trainee [trainee] in a course, with its rate and scores. *)
Definition sampleRecord (trainee mail branchName supervisorName course : string)
    (rate pre post hours : Q) : TrainingRecord := {|
  id := 1; traineeName := trainee; email := mail; branch := branchName;
  districtHead := ""; supervisor := supervisorName; courseTitle := course;
  completionRate := rate; preAssessmentScore := pre; postAssessmentScore := post;
  averageQuizScore := post; courseType := Mandatory;
  completionDate := MkDate (Some 0); trainingHours := hours |}.

(** Two trainees of branch "North" under supervisor "Sam", and a record
    that names neither a branch nor a supervisor. *)
Definition sampleData : list TrainingRecord :=
  [sampleRecord "Ann" "ann@x.com" "North" "Sam" "Safety" 80 50 75 2;
   sampleRecord "Bob" "bob@x.com" "North" "Sam" "Safety" 60 40 0 1;
   sampleRecord "Ann" "ann@x.com" "North" "Sam" "Hygiene" 100 60 90 3;
   sampleRecord "Cid" "cid@x.com" "" "" "Hygiene" 40 70 35 1].

(* ================================================================== *)
(** * Table footer (src/components/DataTable.tsx) *)
(* ================================================================== *)

(** [Math.min(1 + (currentPage - 1) * 10, totalItems)] and
    [Math.min(currentPage * 10, totalItems)]: the range that the footer
    prints as "Showing from-to of totalItems". *)
Definition showingFrom (v : TableView.t) : Z :=
  Z.min (1 + (TableView.currentPage v - 1) * 10) (TableView.totalItems v).

Definition showingTo (v : TableView.t) : Z :=
  Z.min (TableView.currentPage v * 10) (TableView.totalItems v).

(* ================================================================== *)
(** * Course and improvement insights
      (src/components/sections/ActionableInsights.tsx) *)
(* ================================================================== *)

Module CourseStats.
Record t : Type := {
  totalCompletion : Q;
  totalScore : Q;
  scoreCount : Z;
  recordCount : Z;
  learners : list string
}.
End CourseStats.

Module AttentionRow.
Record t : Type := {
  title : string;
  avgCompletion : Q;
  avgScore : Q;
  learnerCount : Z
}.
End AttentionRow.

Module ImproverStats.
Record t : Type := { name : string; totalImprovement : Q; courseCount : Z }.
End ImproverStats.

Module ImproverRow.
Record t : Type := { email : string; name : string; avgImprovement : Q; rank : Z }.
End ImproverRow.

Module PerformanceStats.
Record t : Type := {
  totalCompletion : Q;
  totalScore : Q;
  scoreCount : Z;
  recordCount : Z
}.
End PerformanceStats.

Module PerformanceRow.
Record t : Type := {
  title : string;
  avgCompletion : Q;
  avgScore : Q;
  performanceScore : Q;
  recordCount : Z;
  rank : Z
}.
End PerformanceRow.

Module Insights.

(** ** [coursesNeedingAttention] *)

Definition newCourseStats : CourseStats.t :=
  {| CourseStats.totalCompletion := 0; CourseStats.totalScore := 0;
     CourseStats.scoreCount := 0; CourseStats.recordCount := 0;
     CourseStats.learners := [] |}.

(** What the loop body does to [stats = courseStats[record.courseTitle]]. *)
Definition addToCourseStats (record : TrainingRecord) (stats : CourseStats.t)
  : CourseStats.t :=
  let stats1 :=
    {| CourseStats.totalCompletion :=
         (CourseStats.totalCompletion stats + completionRate record)%Q;
       CourseStats.totalScore := CourseStats.totalScore stats;
       CourseStats.scoreCount := CourseStats.scoreCount stats;
       CourseStats.recordCount := CourseStats.recordCount stats + 1;
       CourseStats.learners :=
         Set_add (CourseStats.learners stats) (traineeName record) |} in
  if Qgtb (postAssessmentScore record) 0 then
    {| CourseStats.totalCompletion := CourseStats.totalCompletion stats1;
       CourseStats.totalScore :=
         (CourseStats.totalScore stats1 + postAssessmentScore record)%Q;
       CourseStats.scoreCount := CourseStats.scoreCount stats1 + 1;
       CourseStats.recordCount := CourseStats.recordCount stats1;
       CourseStats.learners := CourseStats.learners stats1 |}
  else stats1.

Definition courseStats_step (courseStats : Dict CourseStats.t)
    (record : TrainingRecord) : Dict CourseStats.t :=
  upsert courseStats (courseTitle record) newCourseStats (addToCourseStats record).

Definition courseStats (data : list TrainingRecord) : Dict CourseStats.t :=
  fold_left courseStats_step data [].




(** ** [topImprovers] *)

(** [((post - pre) / pre) * 100]. *)
Definition improvement (record : TrainingRecord) : Q :=
  ((postAssessmentScore record - preAssessmentScore record)
   / preAssessmentScore record * 100)%Q.

Definition newImproverStats (record : TrainingRecord) : ImproverStats.t :=
  {| ImproverStats.name := traineeName record;
     ImproverStats.totalImprovement := 0;
     ImproverStats.courseCount := 0 |}.

(** [if (improvement > 0) { stats.totalImprovement += improvement;
    stats.courseCount++; }]. *)
Definition addImprovement (record : TrainingRecord) (stats : ImproverStats.t)
  : ImproverStats.t :=
  if Qgtb (improvement record) 0 then
    {| ImproverStats.name := ImproverStats.name stats;
       ImproverStats.totalImprovement :=
         (ImproverStats.totalImprovement stats + improvement record)%Q;
       ImproverStats.courseCount := ImproverStats.courseCount stats + 1 |}
  else stats.

Definition improverStats_step (improverStats : Dict ImproverStats.t)
    (record : TrainingRecord) : Dict ImproverStats.t :=
  if Qgtb (preAssessmentScore record) 0 && Qgtb (postAssessmentScore record) 0
     && truthy (email record)
  then upsert improverStats (email record) (newImproverStats record)
         (addImprovement record)
  else improverStats.

Definition improverStats (data : list TrainingRecord) : Dict ImproverStats.t :=
  fold_left improverStats_step data [].




(** ** [topPerformingCourses] *)









End Insights.

(** ** The insights, course by course and trainee by trainee *)

(** The records of a course, in input order. *)
Definition courseRecords (title : string) (data : list TrainingRecord)
  : list TrainingRecord :=
  filter (fun r => String.eqb (courseTitle r) title) data.






(* ================================================================== *)
(** * The monthly buckets, month by month *)
(* ================================================================== *)

Definition newMonthTotals : MonthTotals.t :=
  {| MonthTotals.totalCompletion := 0; MonthTotals.count := 0;
     MonthTotals.totalHours := 0 |}.

(** What the loop body of [monthlyData] adds to the bucket of a month. *)
Definition addToMonth (item : TrainingRecord) (m : MonthTotals.t) : MonthTotals.t :=
  {| MonthTotals.totalCompletion :=
       (MonthTotals.totalCompletion m + completionRate item)%Q;
     MonthTotals.count := MonthTotals.count m + 1;
     MonthTotals.totalHours := (MonthTotals.totalHours m + trainingHours item)%Q |}.

(** The records of a month, in input order. *)
Definition monthRecords (monthLabel : Date -> string) (month : string)
    (data : list TrainingRecord) : list TrainingRecord :=
  filter (fun d => String.eqb (monthLabel (completionDate d)) month) data.

(* ================================================================== *)
(** * Filter options (components/Dashboard.tsx) *)
(* ================================================================== *)

Module FilterOptions.
Record t : Type := {
  branches : list string;
  districtHeads : list string;
  supervisors : list string;
  courses : list string;
  courseTypes : list string
}.
End FilterOptions.

(** [[...Array.from(new Set(allData.map(d => d.branch)))]] and the like;
    [Object.values(CourseType)] for the course types. *)
Definition filterOptions (allData : list TrainingRecord) : FilterOptions.t :=
  {| FilterOptions.branches := Set_of (map branch allData);
     FilterOptions.districtHeads := Set_of (map districtHead allData);
     FilterOptions.supervisors := Set_of (map supervisor allData);
     FilterOptions.courses := Set_of (map courseTitle allData);
     FilterOptions.courseTypes :=
       [CourseType_value Mandatory; CourseType_value Optional] |}.

(** The filters with every option of every dimension selected. *)
Definition everyOption (o : FilterOptions.t) : Filters :=
  {| branchFilter := FilterOptions.branches o;
     districtHeadFilter := FilterOptions.districtHeads o;
     supervisorFilter := FilterOptions.supervisors o;
     courseFilter := FilterOptions.courses o;
     courseTypeFilter := FilterOptions.courseTypes o;
     timePeriodFilter := {| tp_start := None; tp_end := None |} |}.

(* ================================================================== *)
(** * Groups of the comparison tool (components/sections/ComparisonTool.tsx) *)
(* ================================================================== *)

Module ComparisonCategory.
Inductive t : Type := branch | districtHead | supervisor.
End ComparisonCategory.

(** [{ category, value }]: [None] is the empty category of the initial
    state and of the "Select Category..." entry. *)
Module GroupState.
Record t : Type := { category : option ComparisonCategory.t; value : string }.
End GroupState.

Module ComparisonGroups.

(** [item[group.category]]. *)
Definition field (c : ComparisonCategory.t) (item : TrainingRecord) : string :=
  match c with
  | ComparisonCategory.branch => branch item
  | ComparisonCategory.districtHead => districtHead item
  | ComparisonCategory.supervisor => supervisor item
  end.

Definition getOptionsForCategory (options : FilterOptions.t)
    (category : option ComparisonCategory.t) : list string :=
  match category with
  | None => []
  | Some c =>
      let opts :=
        match c with
        | ComparisonCategory.branch => FilterOptions.branches options
        | ComparisonCategory.districtHead => FilterOptions.districtHeads options
        | ComparisonCategory.supervisor => FilterOptions.supervisors options
        end in
      filter (fun opt => negb (String.eqb opt "all")) opts
  end.

Definition handleCategoryChange (c : option ComparisonCategory.t) : GroupState.t :=
  {| GroupState.category := c; GroupState.value := "" |}.

Definition handleValueChange (v : string) (prev : GroupState.t) : GroupState.t :=
  {| GroupState.category := GroupState.category prev; GroupState.value := v |}.

Definition filterData (allData : list TrainingRecord) (group : GroupState.t)
  : list TrainingRecord :=
  match GroupState.category group with
  | None => []
  | Some c =>
      if negb (truthy (GroupState.value group)) then []
      else filter (fun item => String.eqb (field c item) (GroupState.value group))
                  allData
  end.

End ComparisonGroups.

(* ================================================================== *)
(** * Course analysis (components/sections/CourseAnalysis.tsx) *)
(* ================================================================== *)

Module CourseDatum.
Record t : Type := { name : string; completion : Q; score : Q; learners : Z }.
End CourseDatum.

Module CourseTypeCount.
Record t : Type := { name : string; trainingRecords : Z }.
End CourseTypeCount.

(** [arr.filter(Boolean)] on an array of objects and nulls. *)
Definition filter_Boolean {A : Type} (arr : list (option A)) : list A :=
  flat_map (fun x => match x with Some a => [a] | None => [] end) arr.

(** [new Set(arr).size] for an array of numbers. *)
Definition Set_size_of_numbers (arr : list Z) : Z :=
  Z.of_nat (List.length (nodup Z.eq_dec arr)).

Module CourseAnalysis.

(** The callback of [courses.map] in [courseData]. *)
Definition courseDatum (data : list TrainingRecord) (course : string)
  : option CourseDatum.t :=
  let courseRecords :=
    filter (fun item => String.eqb (courseTitle item) course) data in
  if Z.of_nat (List.length courseRecords) =? 0 then None
  else
    let totalLearners := Set_size (Set_of (map traineeName courseRecords)) in
    let avgCompletionRate :=
      (reduce_sum completionRate courseRecords
       / inject_Z (Z.of_nat (List.length courseRecords)))%Q in
    let avgQuizScore :=
      (reduce_sum averageQuizScore courseRecords
       / inject_Z (Z.of_nat (List.length courseRecords)))%Q in
    Some {| CourseDatum.name := course;
            CourseDatum.completion := avgCompletionRate;
            CourseDatum.score := avgQuizScore;
            CourseDatum.learners := totalLearners |}.

Definition courseData (data : list TrainingRecord) : list CourseDatum.t :=
  let courses := Set_of (map courseTitle data) in
  filter_Boolean (map (courseDatum data) courses).

Definition courseTypeData (data : list TrainingRecord) : list CourseTypeCount.t :=
  let mandatoryCount :=
    Set_size_of_numbers
      (map id (filter (fun d => match courseType d with
                                | Mandatory => true
                                | Optional => false
                                end) data)) in
  let optionalCount :=
    Set_size_of_numbers
      (map id (filter (fun d => match courseType d with
                                | Optional => true
                                | Mandatory => false
                                end) data)) in
  [ {| CourseTypeCount.name := CourseType_value Mandatory;
       CourseTypeCount.trainingRecords := mandatoryCount |};
    {| CourseTypeCount.name := CourseType_value Optional;
       CourseTypeCount.trainingRecords := optionalCount |} ].

(** [setFilters(prev => ({ ...prev, courseTypeFilter: ... }))]. *)
Definition withCourseTypeFilter (prev : Filters) (selection : list string)
  : Filters :=
  {| branchFilter := branchFilter prev;
     districtHeadFilter := districtHeadFilter prev;
     supervisorFilter := supervisorFilter prev;
     courseFilter := courseFilter prev;
     courseTypeFilter := selection;
     timePeriodFilter := timePeriodFilter prev |}.

Definition withCourseFilter (prev : Filters) (selection : list string) : Filters :=
  {| branchFilter := branchFilter prev;
     districtHeadFilter := districtHeadFilter prev;
     supervisorFilter := supervisorFilter prev;
     courseFilter := selection;
     courseTypeFilter := courseTypeFilter prev;
     timePeriodFilter := timePeriodFilter prev |}.

(** [selection.length === 1 && selection[0] === clicked]. *)
Definition isAlreadyFiltered (selection : list string) (clicked : string) : bool :=
  (List.length selection =? 1)%nat
  && match selection with
     | first :: _ => String.eqb first clicked
     | [] => false
     end.

Definition handleCourseTypeClick (clickedType : string) (filters : Filters)
  : Filters :=
  if negb (truthy clickedType) then filters
  else if isAlreadyFiltered (courseTypeFilter filters) clickedType
       then withCourseTypeFilter filters []
       else withCourseTypeFilter filters [clickedType].

Definition handleCourseClick (clickedCourse : string) (filters : Filters)
  : Filters :=
  if negb (truthy clickedCourse) then filters
  else if isAlreadyFiltered (courseFilter filters) clickedCourse
       then withCourseFilter filters []
       else withCourseFilter filters [clickedCourse].


Inductive LowPerfSortKey : Type := completion | score | learners.

(** [a[lowPerfSortBy]]. *)
Definition sortValue (k : LowPerfSortKey) (a : CourseDatum.t) : Q :=
  match k with
  | completion => CourseDatum.completion a
  | score => CourseDatum.score a
  | learners => inject_Z (CourseDatum.learners a)
  end.


Definition avgScoresPerCourse (data : list TrainingRecord) : list CourseDatum.t :=
  sort (fun a b => (CourseDatum.score b - CourseDatum.score a)%Q) (courseData data).

End CourseAnalysis.


(* ================================================================== *)
(** * Learner performance
      (src/components/sections/ActionableInsights.tsx, LearnerPerformance) *)
(* ================================================================== *)

Module CompletedCourse.
Record t : Type := {
  courseTitle : string;
  completionDate : Date;
  postAssessmentScore : Q
}.
End CompletedCourse.

Module LearnerPerformance.

Definition completedCoursesData (allData : list TrainingRecord)
    (selectedEmail : string) : list CompletedCourse.t :=
  if negb (truthy selectedEmail) then []
  else
    map (fun d => {| CompletedCourse.courseTitle := courseTitle d;
                     CompletedCourse.completionDate := completionDate d;
                     CompletedCourse.postAssessmentScore := postAssessmentScore d |})
        (filter (fun d => String.eqb (email d) selectedEmail
                          && Qgtb (postAssessmentScore d) 0)
                allData).

Definition learnerAverageScore (allData : list TrainingRecord)
    (selectedEmail : string) : Q :=
  let completed := completedCoursesData allData selectedEmail in
  if Z.of_nat (List.length completed) =? 0 then 0%Q
  else (reduce_sum CompletedCourse.postAssessmentScore completed
        / inject_Z (Z.of_nat (List.length completed)))%Q.

Definition isTopPerformer (allData : list TrainingRecord) (selectedEmail : string)
  : bool :=
  Qgtb (learnerAverageScore allData selectedEmail) 90.

Definition companyAverage (allData : list TrainingRecord) : Q :=
  if Z.of_nat (List.length allData) =? 0 then 0%Q
  else (reduce_sum postAssessmentScore allData
        / inject_Z (Z.of_nat (List.length allData)))%Q.

End LearnerPerformance.

(* ================================================================== *)
(** * Loading the sheet (services/googleSheetService.ts) *)
(* ================================================================== *)

(** [s.split(sep)] for a separator of one character. *)
Fixpoint split_char (sep : ascii) (s : string) : list string :=
  match s with
  | EmptyString => [EmptyString]
  | String c rest =>
      if Ascii.eqb c sep then EmptyString :: split_char sep rest
      else match split_char sep rest with
           | first :: others => String c first :: others
           | [] => [String c EmptyString]
           end
  end.


(** The number of occurrences of a character in a string. *)
Fixpoint count_char (c : ascii) (s : string) : nat :=
  match s with
  | EmptyString => 0
  | String c' rest => (if Ascii.eqb c' c then 1 else 0) + count_char c rest
  end.


Section GoogleSheetService.
(** [s.trim()], [parseFloat(s)] ([None] for NaN), [new Date(s)] and the
    clock read by [new Date()] while the row at an index is mapped depend
    on the host or on grammars that are not modelled; they are parameters. *)
Variable trim : string -> string.
Variable parseFloat : string -> option Q.
Variable parseDate : string -> Date.
Variable now : Z -> Z.






End GoogleSheetService.


(* ================================================================== *)
(** * Multi-select filter (components/MultiSelectFilter.tsx) *)
(* ================================================================== *)

Module MultiSelectFilter.

(** What [handleSelect(option)] passes to [onChange]. *)
Definition handleSelect (selected : list string) (option : string) : list string :=
  if includes selected option
  then filter (fun item => negb (String.eqb item option)) selected
  else selected ++ [option].

(** What [handleSelectAll()] passes to [onChange]. *)
Definition handleSelectAll (options selected : list string) : list string :=
  if (List.length selected =? List.length options)%nat then [] else options.

End MultiSelectFilter.

(* ================================================================== *)
(** * Overview (components/sections/Overview.tsx) *)
(* ================================================================== *)

(** [Math.round(x)]: the nearest integer, the larger one on a tie. *)
Definition Math_round (x : Q) : Z := Qfloor (x + (1 # 2)).

Inductive ChangeColor : Type := text_success | text_danger | text_gray.

Module Sparklines.
Record t : Type := {
  learners : list Q;
  completion : list Q;
  improvement : list Q
}.
End Sparklines.

Module OverviewStats.
Record t : Type := {
  totalLearners : Z;
  avgCompletion : Z;
  activeLearners : Z;
  inactiveLearners : Z;
  improvement : Z;
  changeText : string;
  changeColor : ChangeColor;
  sparklines : Sparklines.t
}.
End OverviewStats.

Module Overview.

(** [getTrendData(records, key, days)]: the values of [key] of the last
    [days] records in the order of their completion dates, and nothing when
    that leaves fewer than two points. A difference of times that is NaN
    orders nothing, like 0. *)
Definition byDate {A : Type} (time : A -> option Z) (a b : A) : Q :=
  match time a, time b with
  | Some ta, Some tb => inject_Z (ta - tb)
  | _, _ => 0%Q
  end.

Definition getTrendData {A : Type} (time : A -> option Z) (key : A -> Q)
    (records : list A) (days : Z) : list Q :=
  let sorted := sort (byDate time) records in
  if Z.of_nat (List.length sorted) <? 2 then []
  else
    let trend :=
      map key (slice sorted (- days) (Z.of_nat (List.length sorted))) in
    if 1 <? Z.of_nat (List.length trend) then trend else [].

Definition companyAvgs (allData : list TrainingRecord) : Q :=
  if Z.of_nat (List.length allData) =? 0 then 0%Q
  else (reduce_sum completionRate allData
        / inject_Z (Z.of_nat (List.length allData)))%Q.

(** The improvement of one record, for the third sparkline. *)
Definition recordImprovement (d : TrainingRecord) : Q :=
  if Qgtb (preAssessmentScore d) 0
  then ((postAssessmentScore d - preAssessmentScore d)
        / preAssessmentScore d * 100)%Q
  else 0%Q.

Section Stats.
(** [x.toFixed(1)] as a string is a parameter. *)
Variable toFixed1 : Q -> string.

Definition stats (data allData : list TrainingRecord) : OverviewStats.t :=
  if Z.of_nat (List.length data) =? 0 then
    {| OverviewStats.totalLearners := 0;
       OverviewStats.avgCompletion := 0;
       OverviewStats.activeLearners := 0;
       OverviewStats.inactiveLearners := 0;
       OverviewStats.improvement := 0;
       OverviewStats.changeText := "N/A";
       OverviewStats.changeColor := text_gray;
       OverviewStats.sparklines :=
         {| Sparklines.learners := []; Sparklines.completion := [];
            Sparklines.improvement := [] |} |}
  else
    let totalLearners := Set_size (Set_of (map traineeName data)) in
    let avgCompletion :=
      (reduce_sum completionRate data
       / inject_Z (Z.of_nat (List.length data)))%Q in
    let activeLearners :=
      Set_size (Set_of (map traineeName
                          (filter (fun d => Qgtb (completionRate d) 0) data))) in
    let completedTrainings :=
      filter (fun d => Qgtb (postAssessmentScore d) 0) data in
    let preScores := reduce_sum preAssessmentScore completedTrainings in
    let postScores := reduce_sum postAssessmentScore completedTrainings in
    let improvement :=
      if Qgtb preScores 0
      then ((postScores - preScores) / preScores * 100)%Q else 0%Q in
    let diff := (avgCompletion - companyAvgs allData)%Q in
    let changeText :=
      if String.eqb (toFixed1 diff) "0.0" then "Matches company avg"%string
      else ((if Qgtb diff 0 then "+" else "") ++ toFixed1 diff
            ++ "% vs company avg")%string in
    let changeColor :=
      if Qgtb diff (1 # 10) then text_success
      else if Qltb diff (- (1 # 10)) then text_danger
      else text_gray in
    let time := fun d : TrainingRecord => getTime (completionDate d) in
    {| OverviewStats.totalLearners := totalLearners;
       OverviewStats.avgCompletion := Math_round avgCompletion;
       OverviewStats.activeLearners := activeLearners;
       OverviewStats.inactiveLearners := totalLearners - activeLearners;
       OverviewStats.improvement := Math_round improvement;
       OverviewStats.changeText := changeText;
       OverviewStats.changeColor := changeColor;
       OverviewStats.sparklines :=
         {| Sparklines.learners :=
              getTrendData time (fun d => inject_Z (id d)) data 30;
            Sparklines.completion := getTrendData time completionRate data 30;
            Sparklines.improvement :=
              getTrendData time recordImprovement data 30 |} |}.
End Stats.

End Overview.

(** A trainee is inactive in [data] when none of the trainee's records has
    a positive completion rate. *)
Definition inactiveIn (data : list TrainingRecord) (n : string) : bool :=
  negb (existsb (fun d => String.eqb (traineeName d) n && Qgtb (completionRate d) 0)
                data).

(* ================================================================== *)
(** * Branch comparison (components/sections/BranchComparison.tsx) *)
(* ================================================================== *)

Module BranchStats.
Record t : Type := { completionTotal : Q; scoreTotal : Q; recordCount : Z }.
End BranchStats.

Module BranchDatum.
Record t : Type := {
  name : string;
  displayName : string;
  completionRate : Q;
  quizScore : Q;
  recordCount : Z
}.
End BranchDatum.

Module BranchComparison.

(** The values of the [viewType] and [sortBy] states that the buttons set. *)
Inductive ViewType : Type := all | top5 | bottom5.
Inductive SortBy : Type := byCompletionRate | byQuizScore.

Definition newBranchStats : BranchStats.t :=
  {| BranchStats.completionTotal := 0; BranchStats.scoreTotal := 0;
     BranchStats.recordCount := 0 |}.

Definition addToBranch (item : TrainingRecord) (stats : BranchStats.t)
  : BranchStats.t :=
  {| BranchStats.completionTotal :=
       (BranchStats.completionTotal stats + completionRate item)%Q;
     BranchStats.scoreTotal :=
       (BranchStats.scoreTotal stats + averageQuizScore item)%Q;
     BranchStats.recordCount := BranchStats.recordCount stats + 1 |}.

Definition branchMap_step (branchMap : Dict BranchStats.t) (item : TrainingRecord)
  : Dict BranchStats.t :=
  if negb (truthy (branch item)) then branchMap
  else upsert branchMap (branch item) newBranchStats (addToBranch item).

Definition branchMap (data : list TrainingRecord) : Dict BranchStats.t :=
  fold_left branchMap_step data [].

(** [b[sortBy]]. *)
Definition sortValue (sortBy : SortBy) (b : BranchDatum.t) : Q :=
  match sortBy with
  | byCompletionRate => BranchDatum.completionRate b
  | byQuizScore => BranchDatum.quizScore b
  end.

Section BranchData.
(** [branch.replace(/ Pharmacy| Pharma| Health| Meds| Drugs/g, '')] is a
    parameter. *)
Variable displayNameOf : string -> string.

Definition branchDatum (entry : string * BranchStats.t) : BranchDatum.t :=
  let (branch, stats) := entry in
  {| BranchDatum.name := branch;
     BranchDatum.displayName := displayNameOf branch;
     BranchDatum.completionRate :=
       if 0 <? BranchStats.recordCount stats
       then (BranchStats.completionTotal stats
             / inject_Z (BranchStats.recordCount stats))%Q
       else 0%Q;
     BranchDatum.quizScore :=
       if 0 <? BranchStats.recordCount stats
       then (BranchStats.scoreTotal stats
             / inject_Z (BranchStats.recordCount stats))%Q
       else 0%Q;
     BranchDatum.recordCount := BranchStats.recordCount stats |}.

Definition sortedData (data : list TrainingRecord) (sortBy : SortBy)
  : list BranchDatum.t :=
  sort (fun a b => (sortValue sortBy b - sortValue sortBy a)%Q)
       (map branchDatum (Object_entries (branchMap data))).

Definition branchData (data : list TrainingRecord) (viewType : ViewType)
    (sortBy : SortBy) : list BranchDatum.t :=
  match viewType with
  | top5 => slice (sortedData data sortBy) 0 5
  | bottom5 =>
      slice (sortedData data sortBy) (-5)
            (Z.of_nat (List.length (sortedData data sortBy)))
  | all => sortedData data sortBy
  end.
End BranchData.

End BranchComparison.

(** The records of a branch, in input order. *)
Definition branchRecords (b : string) (data : list TrainingRecord)
  : list TrainingRecord :=
  groupOf (fun d => truthy (branch d)) branch b data.

(* ================================================================== *)
(** * Engagement and performance
      (components/sections/EngagementPerformance.tsx) *)
(* ================================================================== *)

Module ScatterPoint.
Record t : Type := { name : string; x : Q; y : Q; z : Z }.
End ScatterPoint.

Module Engagement.
Record t : Type := {
  scatterData : list ScatterPoint.t;
  avgEngagement : Q;
  avgPerformance : Q
}.
End Engagement.

Module EngagementPerformance.

(** The callback of [learners.map], followed by the test of
    [filter(d => !isNaN(d.y))]: [None] for a point whose [y] is NaN. *)
Definition point (data : list TrainingRecord) (learner : string)
  : option ScatterPoint.t :=
  let learnerRecords :=
    filter (fun item => String.eqb (traineeName item) learner) data in
  let totalHours := reduce_sum trainingHours learnerRecords in
  match checked_div (reduce_sum postAssessmentScore learnerRecords)
                    (inject_Z (Z.of_nat (List.length learnerRecords))) with
  | Some avgScore =>
      Some {| ScatterPoint.name := learner;
              ScatterPoint.x := totalHours;
              ScatterPoint.y := avgScore;
              ScatterPoint.z := Z.of_nat (List.length learnerRecords) * 50 |}
  | None => None
  end.

Definition engagement (data : list TrainingRecord) : Engagement.t :=
  let learners := Set_of (map traineeName data) in
  let processedData := filter_Boolean (map (point data) learners) in
  if Z.of_nat (List.length processedData) =? 0 then
    {| Engagement.scatterData := []; Engagement.avgEngagement := 0;
       Engagement.avgPerformance := 0 |}
  else
    let avgX :=
      (reduce_sum ScatterPoint.x processedData
       / inject_Z (Z.of_nat (List.length processedData)))%Q in
    let avgY :=
      (reduce_sum ScatterPoint.y processedData
       / inject_Z (Z.of_nat (List.length processedData)))%Q in
    {| Engagement.scatterData := processedData;
       Engagement.avgEngagement := avgX;
       Engagement.avgPerformance := avgY |}.

End EngagementPerformance.

(** The records of a trainee name, in input order. *)
Definition traineeRecords (n : string) (data : list TrainingRecord)
  : list TrainingRecord :=
  filter (fun item => String.eqb (traineeName item) n) data.

(** The point of a trainee, computed from the trainee's records. *)
Definition pointOf (data : list TrainingRecord) (n : string) : ScatterPoint.t :=
  {| ScatterPoint.name := n;
     ScatterPoint.x := reduce_sum trainingHours (traineeRecords n data);
     ScatterPoint.y := mean (map postAssessmentScore (traineeRecords n data));
     ScatterPoint.z := Z.of_nat (List.length (traineeRecords n data)) * 50 |}.

(* ================================================================== *)
(** * Proofs: filter engine *)
(* ================================================================== *)

Lemma includes_In (arr : list string) (x : string) :
  includes arr x = true <-> In x arr.
Proof.
  unfold includes. rewrite existsb_exists. split.
  - intros [y [Hy Heq]]. apply String.eqb_eq in Heq. now subst.
  - intros H. exists x. split; [assumption | apply String.eqb_refl].
Qed.

Lemma dimension_match (sel : list string) (v : string) :
  ((List.length sel =? 0)%nat || includes sel v) = true <-> dimension_ok sel v.
Proof.
  unfold dimension_ok. rewrite orb_true_iff, includes_In, Nat.eqb_eq.
  destruct sel as [|s sel]; simpl.
  - split; [intros _ H; now elim H | intros _; now left].
  - split.
    + intros [H | H] _; [discriminate | exact H].
    + intros H. right. apply H. discriminate.
Qed.

Lemma date_ge_Date_ge (a b : Date) : date_ge a b = true <-> Date_ge a b.
Proof.
  unfold date_ge, Date_ge. destruct (getTime a) as [x|], (getTime b) as [y|].
  - rewrite Z.leb_le. split.
    + intros H. exists x, y. auto.
    + intros (x' & y' & Hx & Hy & H). now inversion Hx; inversion Hy; subst.
  - split; [discriminate | intros (? & ? & _ & H & _); discriminate].
  - split; [discriminate | intros (? & ? & H & _); discriminate].
  - split; [discriminate | intros (? & ? & H & _); discriminate].
Qed.

Lemma date_le_Date_le (a b : Date) : date_le a b = true <-> Date_le a b.
Proof.
  unfold date_le, Date_le. destruct (getTime a) as [x|], (getTime b) as [y|].
  - rewrite Z.leb_le. split.
    + intros H. exists x, y. auto.
    + intros (x' & y' & Hx & Hy & H). now inversion Hx; inversion Hy; subst.
  - split; [discriminate | intros (? & ? & _ & H & _); discriminate].
  - split; [discriminate | intros (? & ? & H & _); discriminate].
  - split; [discriminate | intros (? & ? & H & _); discriminate].
Qed.

Lemma filterItem_passes (f : Filters) (r : TrainingRecord) :
  filterItem f r = true <-> passes f r.
Proof.
  unfold filterItem, passes; cbv zeta.
  repeat rewrite andb_true_iff. repeat rewrite dimension_match.
  assert (Hs : match tp_start (timePeriodFilter f) with
               | Some start => date_ge (completionDate r) start
               | None => true
               end = true
               <-> (forall s, tp_start (timePeriodFilter f) = Some s ->
                              Date_ge (completionDate r) s)).
  { destruct (tp_start (timePeriodFilter f)) as [s|].
    - rewrite date_ge_Date_ge. split.
      + intros H s' Hs'. now inversion Hs'; subst.
      + intros H. now apply H.
    - split; [intros _ s Hs; discriminate | reflexivity]. }
  assert (He : match tp_end (timePeriodFilter f) with
               | Some e => date_le (completionDate r) e
               | None => true
               end = true
               <-> (forall e, tp_end (timePeriodFilter f) = Some e ->
                              Date_le (completionDate r) e)).
  { destruct (tp_end (timePeriodFilter f)) as [e|].
    - rewrite date_le_Date_le. split.
      + intros H e' He'. now inversion He'; subst.
      + intros H. now apply H.
    - split; [intros _ e He; discriminate | reflexivity]. }
  rewrite Hs, He. tauto.
Qed.

Lemma filter_selects {A : Type} (p : A -> bool) (P : A -> Prop) (l : list A) :
  (forall x, p x = true <-> P x) -> selects P l (filter p l).
Proof.
  intros Hp. induction l as [|x l IH]; simpl.
  - constructor.
  - destruct (p x) eqn:E.
    + apply selects_keep; [now apply Hp | exact IH].
    + apply selects_drop; [| exact IH].
      intros HP. apply Hp in HP. congruence.
Qed.

Lemma filter_idempotent {A : Type} (p : A -> bool) (l : list A) :
  filter p (filter p l) = filter p l.
Proof.
  induction l as [|x l IH]; simpl; [reflexivity |].
  destruct (p x) eqn:E; simpl; [rewrite E, IH; reflexivity | exact IH].
Qed.

Lemma filter_all {A : Type} (p : A -> bool) (l : list A) :
  (forall x, p x = true) -> filter p l = l.
Proof.
  intros Hp. induction l as [|x l IH]; simpl; [reflexivity |].
  now rewrite Hp, IH.
Qed.

(** C1. For every record list [R] and every filter value [f], the filtered
    view holds exactly the records of [R], in their original order, that pass
    every dimension with a non-empty selection and both date bounds when they
    are set; with no selection and no bound the view is [R] itself. *)
Theorem filteredData_selects_passing :
  forall (R : list TrainingRecord) (f : Filters),
    selects (passes f) R (filteredData R f)
    /\ (branchFilter f = [] -> districtHeadFilter f = [] ->
        supervisorFilter f = [] -> courseFilter f = [] ->
        courseTypeFilter f = [] ->
        tp_start (timePeriodFilter f) = None ->
        tp_end (timePeriodFilter f) = None ->
        filteredData R f = R).
Proof.
  intros R f. split.
  - apply filter_selects. apply filterItem_passes.
  - intros Hb Hd Hs Hc Ht Hst Hen. apply filter_all. intros x.
    unfold filterItem. now rewrite Hb, Hd, Hs, Hc, Ht, Hst, Hen.
Qed.

Lemma filteredData_selects_passing_witness :
  filteredData [recordA 80; noBranchRecord] initialFilters
  = [recordA 80; noBranchRecord].
Proof.
  apply (proj2 (filteredData_selects_passing
                  [recordA 80; noBranchRecord] initialFilters));
    reflexivity.
Defined.

(** C2. Filtering is idempotent: applying the same filters to the filtered
    view gives the filtered view. *)
Theorem filteredData_idempotent :
  forall (R : list TrainingRecord) (f : Filters),
    filteredData (filteredData R f) f = filteredData R f.
Proof.
  intros R f. unfold filteredData. apply filter_idempotent.
Qed.

(* ================================================================== *)
(** * Proofs: numbers *)
(* ================================================================== *)

Lemma Qltb_lt (a b : Q) : Qltb a b = true <-> (a < b)%Q.
Proof.
  unfold Qltb. rewrite Qlt_alt. destruct (a ?= b)%Q; split; congruence.
Qed.

Lemma Qltb_ge (a b : Q) : Qltb a b = false <-> (b <= a)%Q.
Proof.
  rewrite <- not_true_iff_false, Qltb_lt. split.
  - apply Qnot_lt_le.
  - apply Qle_not_lt.
Qed.

Lemma Qgtb_gt (a b : Q) : Qgtb a b = true <-> (b < a)%Q.
Proof. apply Qltb_lt. Qed.



(* ================================================================== *)
(** * Proofs: arrays *)
(* ================================================================== *)

Lemma mapi_from_length {A B : Type} (f : A -> Z -> B) (l : list A) (k : Z) :
  List.length (mapi_from f k l) = List.length l.
Proof.
  revert k. induction l as [|x l IH]; intros k; simpl; [reflexivity |].
  now rewrite IH.
Qed.

Lemma mapi_from_nth_error {A B : Type} (f : A -> Z -> B) (l : list A) :
  forall (k : Z) (i : nat),
    nth_error (mapi_from f k l) i
    = option_map (fun x => f x (k + Z.of_nat i)) (nth_error l i).
Proof.
  induction l as [|x l IH]; intros k i.
  - destruct i; reflexivity.
  - destruct i as [|i]; simpl.
    + now rewrite Z.add_0_r.
    + rewrite IH. destruct (nth_error l i); simpl; [| reflexivity].
      do 2 f_equal. lia.
Qed.

Lemma mapi_nth_error {A B : Type} (f : A -> Z -> B) (l : list A) (i : nat) :
  nth_error (mapi f l) i = option_map (fun x => f x (Z.of_nat i)) (nth_error l i).
Proof. unfold mapi. now rewrite mapi_from_nth_error. Qed.

Lemma mapi_map {A B C : Type} (f : A -> Z -> B) (g : B -> C) (h : A -> C)
    (l : list A) :
  (forall x i, g (f x i) = h x) -> map g (mapi f l) = map h l.
Proof.
  intros H. unfold mapi. generalize 0. induction l as [|x l IH]; intros k; simpl.
  - reflexivity.
  - now rewrite H, IH.
Qed.

Lemma mapi_In {A B : Type} (f : A -> Z -> B) (l : list A) (y : B) :
  In y (mapi f l) -> exists x i, In x l /\ y = f x i.
Proof.
  intros H. apply In_nth_error in H. destruct H as [n Hn].
  rewrite mapi_nth_error in Hn.
  destruct (nth_error l n) as [x|] eqn:E; simpl in Hn; [| discriminate].
  exists x, (Z.of_nat n). split.
  - eapply nth_error_In; eassumption.
  - congruence.
Qed.

Section SortFacts.
Context {A : Type}.
Variable comparefn : A -> A -> Q.

Lemma sort_insert_perm (x : A) (p : list A) :
  Permutation (sort_insert comparefn x p) (x :: p).
Proof.
  induction p as [|e p IH]; simpl; [apply Permutation_refl |].
  destruct (Qltb (comparefn x e) 0).
  - eapply Permutation_trans; [apply perm_skip, IH | apply perm_swap].
  - apply Permutation_refl.
Qed.

Lemma sort_fold_perm (l acc : list A) :
  Permutation
    (fold_left (fun p x => sort_insert comparefn x p) l acc) (rev l ++ acc).
Proof.
  revert acc. induction l as [|x l IH]; intros acc; simpl.
  - apply Permutation_refl.
  - eapply Permutation_trans; [apply IH |].
    rewrite <- app_assoc. simpl. apply Permutation_app_head.
    apply sort_insert_perm.
Qed.

Lemma sort_perm (l : list A) : Permutation (sort comparefn l) l.
Proof.
  unfold sort. eapply Permutation_trans; [apply Permutation_sym, Permutation_rev |].
  eapply Permutation_trans; [apply sort_fold_perm |].
  rewrite app_nil_r. apply Permutation_sym, Permutation_rev.
Qed.

Lemma sort_length (l : list A) : List.length (sort comparefn l) = List.length l.
Proof. apply Permutation_length, sort_perm. Qed.

Lemma sort_In (l : list A) (x : A) : In x (sort comparefn l) <-> In x l.
Proof.
  split; apply Permutation_in; [| apply Permutation_sym]; apply sort_perm.
Qed.

(** ** Order of the result

    [before x y] is what the result promises of an element [x] placed
    before an element [y]. It holds of the whole result as soon as the
    comparator agrees with it and it is transitive. *)
Section Ordered.
Variable before : A -> A -> Prop.
Hypothesis before_trans : forall x y z, before x y -> before y z -> before x z.
Hypothesis moved : forall pivot e,
  Qltb (comparefn pivot e) 0 = true -> before pivot e.
Hypothesis stays : forall pivot e,
  Qltb (comparefn pivot e) 0 = false -> before e pivot.

Lemma sort_insert_ordered (x : A) (p : list A) :
  ordered_rev before p -> ordered_rev before (sort_insert comparefn x p).
Proof.
  induction 1 as [|e p Hall Hp IH]; simpl.
  - constructor; constructor.
  - destruct (Qltb (comparefn x e) 0) eqn:E.
    + constructor; [| exact IH].
      apply Forall_forall. intros z Hz.
      apply (Permutation_in _ (sort_insert_perm x p)) in Hz.
      destruct Hz as [<- | Hz]; [now apply moved |].
      rewrite Forall_forall in Hall. now apply Hall.
    + constructor; [| now constructor].
      constructor; [now apply stays |].
      rewrite Forall_forall in Hall |- *. intros z Hz.
      eapply before_trans; [apply Hall, Hz | now apply stays].
Qed.

Lemma sort_fold_ordered (l acc : list A) :
  ordered_rev before acc ->
  ordered_rev before (fold_left (fun p x => sort_insert comparefn x p) l acc).
Proof.
  revert acc. induction l as [|x l IH]; intros acc Hacc; simpl.
  - exact Hacc.
  - apply IH, sort_insert_ordered, Hacc.
Qed.

Lemma ordered_rev_nth (p : list A) :
  ordered_rev before p ->
  forall i j x y, (i < j)%nat ->
    nth_error p i = Some x -> nth_error p j = Some y -> before y x.
Proof.
  induction 1 as [|e p Hall Hp IH]; intros i j x y Hij Hx Hy.
  - destruct i; discriminate.
  - destruct j as [|j]; [lia |]. simpl in Hy.
    destruct i as [|i]; simpl in Hx.
    + inversion Hx; subst. rewrite Forall_forall in Hall.
      apply Hall. eapply nth_error_In; eassumption.
    + apply (IH i j); [lia | assumption | assumption].
Qed.

(** In the result, an element at a smaller index is [before] every
    element at a larger index. *)
Lemma sort_ordered (l : list A) :
  forall i j x y, (i < j)%nat ->
    nth_error (sort comparefn l) i = Some x ->
    nth_error (sort comparefn l) j = Some y ->
    before x y.
Proof.
  intros i j x y Hij Hx Hy. unfold sort in Hx, Hy.
  set (p := fold_left (fun p x => sort_insert comparefn x p) l []) in *.
  assert (Hp : ordered_rev before p) by (apply sort_fold_ordered; constructor).
  assert (Hj : (j < List.length p)%nat).
  { rewrite <- length_rev. apply nth_error_Some. congruence. }
  rewrite nth_error_rev in Hx, Hy.
  destruct (Nat.ltb_spec i (List.length p)) as [Hi | Hi]; [| discriminate].
  destruct (Nat.ltb_spec j (List.length p)) as [_ | Hj']; [| discriminate].
  apply (ordered_rev_nth p Hp (List.length p - S j) (List.length p - S i));
    [lia | assumption | assumption].
Qed.
End Ordered.

(** ** Stability

    A class of elements none of which the comparator puts below another
    keeps its order. *)
Section Stable.
Variable P : A -> bool.
Hypothesis P_ties : forall x y,
  P x = true -> P y = true -> Qltb (comparefn x y) 0 = false.



End Stable.
End SortFacts.

(* ================================================================== *)
(** * Proofs: dictionaries *)
(* ================================================================== *)

Section DictFacts.
Context {V : Type}.
Implicit Types (o : Dict V) (k : string) (v : V).

Lemma dict_get_set_eq o k v : dict_get (dict_set o k v) k = Some v.
Proof.
  induction o as [|[k' v'] o IH]; simpl.
  - now rewrite String.eqb_refl.
  - destruct (String.eqb k' k) eqn:E; simpl; rewrite E; [reflexivity | exact IH].
Qed.

Lemma dict_get_set_neq o k k' v :
  k <> k' -> dict_get (dict_set o k v) k' = dict_get o k'.
Proof.
  intros Hne. induction o as [|[k0 v0] o IH]; simpl.
  - destruct (String.eqb_spec k k'); [contradiction | reflexivity].
  - destruct (String.eqb_spec k0 k) as [-> | Hk]; simpl.
    + destruct (String.eqb_spec k k'); [contradiction | reflexivity].
    + now rewrite IH.
Qed.

Lemma dict_get_None o k : dict_get o k = None <-> ~ In k (map fst o).
Proof.
  induction o as [|[k0 v0] o IH]; simpl.
  - tauto.
  - destruct (String.eqb_spec k0 k) as [-> | Hk].
    + split; [discriminate | intros H; elim H; now left].
    + rewrite IH. tauto.
Qed.

Lemma dict_keys_set o k v :
  map fst (dict_set o k v)
  = match dict_get o k with
    | Some _ => map fst o
    | None => map fst o ++ [k]
    end.
Proof.
  induction o as [|[k0 v0] o IH]; simpl; [reflexivity |].
  destruct (String.eqb_spec k0 k) as [-> | Hk]; simpl; [reflexivity |].
  rewrite IH. now destruct (dict_get o k).
Qed.

Lemma dict_set_NoDup o k v :
  NoDup (map fst o) -> NoDup (map fst (dict_set o k v)).
Proof.
  intros H. rewrite dict_keys_set. destruct (dict_get o k) eqn:E; [exact H |].
  apply dict_get_None in E.
  apply (Permutation_NoDup (l := k :: map fst o)).
  - apply Permutation_cons_append.
  - now constructor.
Qed.

Lemma dict_get_In o k v :
  NoDup (map fst o) -> (In (k, v) o <-> dict_get o k = Some v).
Proof.
  induction o as [|[k0 v0] o IH]; simpl; intros Hnd.
  - split; [tauto | discriminate].
  - inversion Hnd as [|? ? Hnotin Hnd']; subst.
    destruct (String.eqb_spec k0 k) as [-> | Hk].
    + split.
      * intros [H | H]; [congruence |].
        elim Hnotin. apply (in_map fst) in H. exact H.
      * intros H. left. congruence.
    + rewrite <- (IH Hnd'). split.
      * intros [H | H]; [congruence | exact H].
      * now right.
Qed.
End DictFacts.

(* ================================================================== *)
(** * Proofs: Top Trainees *)
(* ================================================================== *)

Lemma filter_snoc {A : Type} (p : A -> bool) (l : list A) (x : A) :
  filter p (l ++ [x]) = if p x then filter p l ++ [x] else filter p l.
Proof.
  rewrite filter_app. simpl. destruct (p x); [reflexivity | apply app_nil_r].
Qed.

Lemma traineeScores_snoc (data : list TrainingRecord) (d : TrainingRecord) :
  Leaderboard.traineeScores (data ++ [d])
  = Leaderboard.traineeScores_step (Leaderboard.traineeScores data) d.
Proof. unfold Leaderboard.traineeScores. now rewrite fold_left_app. Qed.

Lemma traineeScores_NoDup (data : list TrainingRecord) :
  NoDup (map fst (Leaderboard.traineeScores data)).
Proof.
  induction data as [|d data IH] using rev_ind.
  - constructor.
  - rewrite traineeScores_snoc. unfold Leaderboard.traineeScores_step.
    destruct (Qgtb (postAssessmentScore d) 0 && truthy (email d)); [| exact IH].
    set (o := Leaderboard.traineeScores data) in *.
    destruct (dict_get o (email d)) as [s|] eqn:E.
    + rewrite E. now apply dict_set_NoDup.
    + rewrite dict_get_set_eq. now apply dict_set_NoDup, dict_set_NoDup.
Qed.

Lemma traineeScores_get (data : list TrainingRecord) (e : string) :
  dict_get (Leaderboard.traineeScores data) e = traineeScore_of e data.
Proof.
  induction data as [|d data IH] using rev_ind; [reflexivity |].
  rewrite traineeScores_snoc. unfold traineeScore_of in *.
  rewrite filter_snoc. unfold Leaderboard.traineeScores_step.
  set (o := Leaderboard.traineeScores data) in *.
  set (g := filter (scoredFor e) data) in *.
  assert (Hsc : scoredFor e d
                = Qgtb (postAssessmentScore d) 0 && String.eqb (email d) e)
    by reflexivity.
  destruct (Qgtb (postAssessmentScore d) 0) eqn:Hpos; simpl andb in *.
  - destruct (String.eqb_spec (email d) e) as [He | He]; rewrite Hsc.
    + (* the record counts for [e] *)
      subst e. destruct (truthy (email d)) eqn:Ht.
      * destruct g as [|d0 g'] eqn:Hg.
        -- rewrite IH. rewrite dict_get_set_eq, dict_get_set_eq. reflexivity.
        -- rewrite IH. simpl app. rewrite IH, dict_get_set_eq.
           cbn [TraineeScore.count TraineeScore.totalScore TraineeScore.name].
           f_equal. f_equal.
           ++ change (d0 :: g' ++ [d]) with ((d0 :: g') ++ [d]).
              rewrite map_app, fold_left_app. reflexivity.
           ++ change (d0 :: g' ++ [d]) with ((d0 :: g') ++ [d]).
              rewrite length_app. simpl List.length. lia.
      * rewrite IH. destruct g as [|d0 g']; reflexivity.
    + (* the record has another email *)
      destruct (truthy (email d)); [| exact IH].
      destruct (dict_get o (email d)) as [s|] eqn:E.
      * rewrite E, dict_get_set_neq by exact He. exact IH.
      * rewrite dict_get_set_eq, !dict_get_set_neq by exact He. exact IH.
  - rewrite Hsc. exact IH.
Qed.

Lemma truthy_nonempty (s : string) : truthy s = true <-> s <> "".
Proof. destruct s; simpl; split; congruence. Qed.


Lemma fold_left_skip {A B : Type} (f : B -> A -> B) (keep : A -> bool)
    (l : list A) (acc : B) :
  (forall b x, keep x = false -> f b x = b) ->
  fold_left f (filter keep l) acc = fold_left f l acc.
Proof.
  intros H. revert acc. induction l as [|x l IH]; intros acc; simpl.
  - reflexivity.
  - destruct (keep x) eqn:E; simpl; [apply IH |].
    rewrite (H acc x E). apply IH.
Qed.





(** Every row of the leaderboard comes from the accumulator of its email. *)
Lemma topTrainees_row (data : list TrainingRecord) (row : TraineeRow.t) :
  In row (Leaderboard.topTrainees data) ->
  exists s,
    traineeScore_of (TraineeRow.email row) data = Some s
    /\ TraineeRow.name row = TraineeScore.name s
    /\ TraineeRow.avgScore row
       = parseFloat_toFixed
           (TraineeScore.totalScore s / inject_Z (TraineeScore.count s)) 1.
Proof.
  unfold Leaderboard.topTrainees. intros H.
  apply mapi_In in H. destruct H as (r0 & i & Hr0 & ->).
  apply sort_In in Hr0. apply in_map_iff in Hr0.
  destruct Hr0 as ([e s] & <- & Hin).
  exists s. simpl. rewrite <- traineeScores_get.
  split; [| split; reflexivity].
  apply dict_get_In; [apply traineeScores_NoDup | exact Hin].
Qed.











(* ================================================================== *)
(** * Proofs: Top Branches *)
(* ================================================================== *)

Lemma rates_add_keys (rates : Dict GroupRate.t) (k : string) (d : TrainingRecord) :
  forall k', In k' (map fst (Leaderboard.rates_add rates k d))
             -> k' = k \/ In k' (map fst rates).
Proof.
  intros k'. unfold Leaderboard.rates_add.
  destruct (dict_get rates k) as [g|] eqn:E.
  - rewrite E, dict_keys_set, E. now right.
  - rewrite dict_get_set_eq, dict_keys_set, dict_get_set_eq, dict_keys_set, E.
    rewrite in_app_iff. simpl. intuition.
Qed.

Lemma branchRates_snoc (data : list TrainingRecord) (d : TrainingRecord) :
  Leaderboard.branchRates (data ++ [d])
  = Leaderboard.branchRates_step (Leaderboard.branchRates data) d.
Proof. unfold Leaderboard.branchRates. now rewrite fold_left_app. Qed.

Lemma branchRates_keys_nonempty (data : list TrainingRecord) (k : string) :
  In k (map fst (Leaderboard.branchRates data)) -> k <> "".
Proof.
  induction data as [|d data IH] using rev_ind; [intros [] |].
  rewrite branchRates_snoc. unfold Leaderboard.branchRates_step.
  destruct (truthy (branch d)) eqn:E; simpl negb; cbv iota; [| exact IH].
  intros H. apply rates_add_keys in H. destruct H as [-> | H].
  - now apply truthy_nonempty.
  - now apply IH.
Qed.

Lemma groupRow_name (entry : string * GroupRate.t) :
  GroupRow.name (Leaderboard.groupRow entry) = fst entry.
Proof. now destruct entry. Qed.

Lemma rankGroups_names (rates : Dict GroupRate.t) :
  Permutation (map GroupRow.name (Leaderboard.rankGroups rates)) (map fst rates).
Proof.
  unfold Leaderboard.rankGroups.
  rewrite (mapi_map _ _ GroupRow.name) by reflexivity.
  eapply Permutation_trans; [apply Permutation_map, sort_perm |].
  unfold Object_entries. rewrite map_map.
  erewrite map_ext; [apply Permutation_refl | apply groupRow_name].
Qed.

(** The guarded loop of src/components/sections/Leaderboard.tsx does what
    the specification asks of Top Branches: no row is named by the empty
    string, and the records with an empty branch can be removed from the
    input without changing any row. *)
Lemma topBranches_guarded_excludes_empty_branch (data : list TrainingRecord) :
  (forall row, In row (Leaderboard.topBranches data) -> GroupRow.name row <> "")
  /\ Leaderboard.topBranches data
     = Leaderboard.topBranches (filter (fun d => truthy (branch d)) data).
Proof.
  split.
  - intros row Hrow. apply (in_map GroupRow.name) in Hrow.
    apply (Permutation_in _ (rankGroups_names _)) in Hrow.
    now apply branchRates_keys_nonempty in Hrow.
  - unfold Leaderboard.topBranches, Leaderboard.branchRates.
    rewrite fold_left_skip; [reflexivity |].
    intros o d H. unfold Leaderboard.branchRates_step. now rewrite H.
Qed.

Lemma rates_add_keeps_keys (rates : Dict GroupRate.t) (k : string)
    (d : TrainingRecord) (k' : string) :
  k' = k \/ In k' (map fst rates) ->
  In k' (map fst (Leaderboard.rates_add rates k d)).
Proof.
  unfold Leaderboard.rates_add. destruct (dict_get rates k) as [g|] eqn:E.
  - rewrite E, dict_keys_set, E. intros [-> | H]; [| exact H].
    destruct (in_dec string_dec k (map fst rates)) as [Hin | Hout];
      [exact Hin |].
    apply dict_get_None in Hout. congruence.
  - rewrite dict_get_set_eq, dict_keys_set, dict_get_set_eq, dict_keys_set, E.
    rewrite in_app_iff. simpl. intuition.
Qed.

Lemma root_branchRates_keys (data : list TrainingRecord) (d : TrainingRecord) :
  In d data -> In (branch d) (map fst (RootLeaderboard.branchRates data)).
Proof.
  unfold RootLeaderboard.branchRates.
  induction data as [|x data IH] using rev_ind; [intros [] |].
  rewrite fold_left_app. simpl. unfold RootLeaderboard.branchRates_step at 1.
  intros H. apply in_app_or in H. apply rates_add_keeps_keys.
  destruct H as [H | [-> | []]]; [right; now apply IH | now left].
Qed.

(** The unguarded loop of the root copy, on every input: a record with an
    empty branch puts a row named by the empty string in the leaderboard. *)
Lemma topBranches_root_copy_row_for_empty_branch (data : list TrainingRecord)
    (d : TrainingRecord) :
  In d data -> branch d = "" ->
  exists row, In row (RootLeaderboard.topBranches data) /\ GroupRow.name row = "".
Proof.
  intros Hd Hb. apply root_branchRates_keys in Hd. rewrite Hb in Hd.
  apply (Permutation_in _ (Permutation_sym (rankGroups_names _))) in Hd.
  apply in_map_iff in Hd. destruct Hd as (row & Hname & Hrow). eauto.
Qed.

(** C4 (evaluation at the failing input). On a single record whose branch is
    the empty string, the loop of the root copy of the leaderboard, which
    has no guard on the branch, makes a bucket for the empty string and
    returns a row named by it, with the record's completion rate as its
    average and its trainee in the count; the guarded loop returns no row. *)
Theorem topBranches_root_copy_keeps_empty_branch :
  (exists row,
     RootLeaderboard.topBranches [noBranchRecord] = [row]
     /\ GroupRow.name row = ""
     /\ (GroupRow.avgRate row == 40)%Q
     /\ GroupRow.traineeCount row = 1
     /\ GroupRow.rank row = 1)
  /\ Leaderboard.topBranches [noBranchRecord] = [].
Proof.
  split; [| reflexivity].
  eexists. split; [vm_compute; reflexivity |].
  repeat split.
Qed.

(* ================================================================== *)
(** * Proofs: At-Risk Trainees *)
(* ================================================================== *)

Lemma string_append_assoc (a b c : string) :
  ((a ++ b) ++ c = a ++ (b ++ c))%string.
Proof. induction a as [|ch a IH]; simpl; [reflexivity | now rewrite IH]. Qed.

Lemma find_app_split {A : Type} (p : A -> bool) (l l' : list A) :
  find p (l ++ l') = match find p l with
                     | Some x => Some x
                     | None => find p l'
                     end.
Proof.
  induction l as [|x l IH]; simpl; [reflexivity |].
  destruct (p x); [reflexivity | exact IH].
Qed.

Lemma lowCompletion_test (t : Thresholds) (r : TrainingRecord) :
  Qltb (completionRate r) (inject_Z (AT_RISK_COMPLETION t)) = true
  <-> lowCompletion t r.
Proof. apply Qltb_lt. Qed.

Lemma lowScore_test (t : Thresholds) (r : TrainingRecord) :
  Qgtb (postAssessmentScore r) 0
  && Qltb (postAssessmentScore r) (inject_Z (AT_RISK_SCORE t)) = true
  <-> lowScore t r.
Proof. unfold lowScore. now rewrite andb_true_iff, Qgtb_gt, Qltb_lt. Qed.

(** The loop body builds one tagged reason per satisfied condition. *)
Lemma taggedReasons_reasonsOf (t : Thresholds) (r : TrainingRecord) :
  reasonsOf t r (ActionableInsights.taggedReasons t r).
Proof.
  unfold reasonsOf, ActionableInsights.taggedReasons,
    ActionableInsights.recordReasons, completionReason, scoreReason.
  pose proof (lowCompletion_test t r) as Hc.
  pose proof (lowScore_test t r) as Hs.
  destruct (Qltb (completionRate r) (inject_Z (AT_RISK_COMPLETION t)));
    destruct (Qgtb (postAssessmentScore r) 0
              && Qltb (postAssessmentScore r) (inject_Z (AT_RISK_SCORE t)));
    simpl.
  - left. split; [now apply Hc | split; [now apply Hs |]].
    now rewrite !string_append_assoc.
  - right; left. split; [now apply Hc | split].
    + intros H. apply Hs in H. discriminate.
    + now rewrite !string_append_assoc.
  - right; right; left. split; [| split; [now apply Hs |]].
    + intros H. apply Hc in H. discriminate.
    + now rewrite !string_append_assoc.
  - right; right; right. repeat split.
    + intros H. apply Hc in H. discriminate.
    + intros H. apply Hs in H. discriminate.
Qed.

(** The test [reasons.length > 0] is the disjunction of the two conditions. *)
Lemma recordReasons_flagged (t : Thresholds) (r : TrainingRecord) :
  (0 <? Z.of_nat (List.length (ActionableInsights.recordReasons t r))) = true
  <-> flagged t r.
Proof.
  unfold flagged, ActionableInsights.recordReasons.
  rewrite <- lowCompletion_test, <- lowScore_test.
  destruct (Qltb (completionRate r) (inject_Z (AT_RISK_COMPLETION t)));
    destruct (Qgtb (postAssessmentScore r) 0
              && Qltb (postAssessmentScore r) (inject_Z (AT_RISK_SCORE t)));
    simpl; intuition congruence.
Qed.

Lemma taggedReasons_unflagged (t : Thresholds) (r : TrainingRecord) :
  (0 <? Z.of_nat (List.length (ActionableInsights.recordReasons t r))) = false ->
  ActionableInsights.taggedReasons t r = [].
Proof.
  unfold ActionableInsights.taggedReasons.
  destruct (ActionableInsights.recordReasons t r); [reflexivity | discriminate].
Qed.

Lemma riskMap_snoc (data : list TrainingRecord) (t : Thresholds) (d : TrainingRecord) :
  ActionableInsights.riskMap (data ++ [d]) t
  = ActionableInsights.riskMap_step t (ActionableInsights.riskMap data t) d.
Proof. unfold ActionableInsights.riskMap. now rewrite fold_left_app. Qed.

Lemma riskMap_NoDup (data : list TrainingRecord) (t : Thresholds) :
  NoDup (map fst (ActionableInsights.riskMap data t)).
Proof.
  induction data as [|d data IH] using rev_ind; [constructor |].
  rewrite riskMap_snoc. unfold ActionableInsights.riskMap_step.
  destruct (0 <? _); [| exact IH].
  set (o := ActionableInsights.riskMap data t) in *.
  destruct (dict_get o (traineeName d)) as [s|] eqn:E.
  - rewrite E. now apply dict_set_NoDup.
  - rewrite dict_get_set_eq. now apply dict_set_NoDup, dict_set_NoDup.
Qed.

Lemma unflagged_no_reasons (t : Thresholds) (n : string) (data : list TrainingRecord) :
  find (flaggedFor t n) data = None ->
  flat_map (ActionableInsights.taggedReasons t) (recordsOf n data) = [].
Proof.
  unfold recordsOf, flaggedFor. induction data as [|d data IH]; simpl; [reflexivity |].
  destruct (String.eqb (traineeName d) n); simpl.
  - destruct (0 <? _) eqn:E; [discriminate |].
    intros H. now rewrite (taggedReasons_unflagged t d E), IH.
  - exact IH.
Qed.

Lemma riskMap_get (data : list TrainingRecord) (t : Thresholds) (n : string) :
  dict_get (ActionableInsights.riskMap data t) n = riskEntry_of t n data.
Proof.
  induction data as [|d data IH] using rev_ind; [reflexivity |].
  rewrite riskMap_snoc. unfold riskEntry_of in *.
  unfold recordsOf in *. rewrite find_app_split, filter_snoc. simpl find.
  unfold ActionableInsights.riskMap_step.
  set (o := ActionableInsights.riskMap data t) in *.
  assert (Hf : flaggedFor t n d
               = String.eqb (traineeName d) n
                 && (0 <? Z.of_nat (List.length (ActionableInsights.recordReasons t d))))
    by reflexivity.
  destruct (0 <? Z.of_nat (List.length (ActionableInsights.recordReasons t d)))
    eqn:Hflag.
  - destruct (String.eqb_spec (traineeName d) n) as [Hn | Hn];
      rewrite Hf; simpl andb.
    + subst n. destruct (find (flaggedFor t (traineeName d)) data) as [first|] eqn:F.
      * rewrite IH, IH, dict_get_set_eq. rewrite flat_map_app. simpl.
        now rewrite app_nil_r.
      * rewrite IH, dict_get_set_eq, dict_get_set_eq. rewrite flat_map_app.
        fold (recordsOf (traineeName d) data).
        rewrite (unflagged_no_reasons t _ data F). simpl.
        now rewrite app_nil_r.
    + destruct (dict_get o (traineeName d)) as [s|] eqn:E.
      * rewrite E, dict_get_set_neq by exact Hn. rewrite IH.
        now destruct (find (flaggedFor t n) data).
      * rewrite dict_get_set_eq, !dict_get_set_neq by exact Hn. rewrite IH.
        now destruct (find (flaggedFor t n) data).
  - rewrite Hf, andb_false_r, IH.
    destruct (find (flaggedFor t n) data) as [first|]; [| reflexivity].
    destruct (String.eqb (traineeName d) n); [| reflexivity].
    rewrite flat_map_app. simpl.
    now rewrite (taggedReasons_unflagged t d Hflag), !app_nil_r.
Qed.

Lemma flaggedFor_iff (t : Thresholds) (n : string) (r : TrainingRecord) :
  flaggedFor t n r = true <-> traineeName r = n /\ flagged t r.
Proof.
  unfold flaggedFor. now rewrite andb_true_iff, String.eqb_eq, recordReasons_flagged.
Qed.

(** An entry of the result is the entry of the name of its record. *)
Lemma atRiskTrainees_entry (data : list TrainingRecord) (t : Thresholds)
    (e : RiskEntry.t) :
  In e (ActionableInsights.atRiskTrainees data t)
  <-> riskEntry_of t (traineeName (RiskEntry.trainee e)) data = Some e.
Proof.
  unfold ActionableInsights.atRiskTrainees. rewrite <- riskMap_get. split.
  - intros H. apply in_map_iff in H. destruct H as ([n e'] & He & Hin).
    simpl in He. subst e'.
    apply dict_get_In in Hin; [| apply riskMap_NoDup].
    assert (Hn : traineeName (RiskEntry.trainee e) = n).
    { rewrite riskMap_get in Hin. unfold riskEntry_of in Hin.
      destruct (find (flaggedFor t n) data) as [first|] eqn:F; [| discriminate].
      inversion Hin; subst e. simpl.
      apply find_some in F. destruct F as [_ F].
      now apply flaggedFor_iff in F. }
    now rewrite Hn.
  - intros H. apply dict_get_In in H; [| apply riskMap_NoDup].
    apply (in_map snd) in H. exact H.
Qed.

Lemma atRiskTrainees_names (data : list TrainingRecord) (t : Thresholds) :
  map (fun e => traineeName (RiskEntry.trainee e))
      (ActionableInsights.atRiskTrainees data t)
  = map fst (ActionableInsights.riskMap data t).
Proof.
  unfold ActionableInsights.atRiskTrainees. rewrite map_map.
  apply map_ext_in. intros [n e] Hin. simpl.
  apply dict_get_In in Hin; [| apply riskMap_NoDup].
  rewrite riskMap_get in Hin. unfold riskEntry_of in Hin.
  destruct (find (flaggedFor t n) data) as [first|] eqn:F; [| discriminate].
  inversion Hin; subst e. simpl.
  apply find_some in F. destruct F as [_ F].
      now apply flaggedFor_iff in F.
Qed.

Lemma atRiskTrainees_NoDup (data : list TrainingRecord) (t : Thresholds) :
  NoDup (map (fun e => traineeName (RiskEntry.trainee e))
             (ActionableInsights.atRiskTrainees data t)).
Proof. rewrite atRiskTrainees_names. apply riskMap_NoDup. Qed.

Lemma atRiskTrainees_row_iff (data : list TrainingRecord) (t : Thresholds)
    (n : string) :
  (exists e, In e (ActionableInsights.atRiskTrainees data t)
             /\ traineeName (RiskEntry.trainee e) = n)
  <-> (exists r, In r data /\ traineeName r = n /\ flagged t r).
Proof.
  split.
  - intros (e & He & Hn). apply atRiskTrainees_entry in He. rewrite Hn in He.
    unfold riskEntry_of in He.
    destruct (find (flaggedFor t n) data) as [first|] eqn:F; [| discriminate].
    apply find_some in F. destruct F as [Hin Hf].
    apply flaggedFor_iff in Hf. exists first. tauto.
  - intros (r & Hin & Hn & Hf).
    destruct (find (flaggedFor t n) data) as [first|] eqn:F.
    + pose proof F as F'. apply find_some in F'. destruct F' as [_ Hfirst].
      apply flaggedFor_iff in Hfirst. destruct Hfirst as [Hfn _].
      exists {| RiskEntry.trainee := first;
                RiskEntry.reasons :=
                  flat_map (ActionableInsights.taggedReasons t) (recordsOf n data) |}.
      split; [| exact Hfn].
      apply atRiskTrainees_entry. simpl. rewrite Hfn.
      unfold riskEntry_of. now rewrite F.
    + apply (find_none _ _ F) in Hin.
      assert (flaggedFor t n r = true) by (apply flaggedFor_iff; tauto).
      congruence.
Qed.

Lemma atRiskTrainees_reasons (data : list TrainingRecord) (t : Thresholds)
    (e : RiskEntry.t) :
  In e (ActionableInsights.atRiskTrainees data t) ->
  exists parts,
    Forall2 (reasonsOf t) (recordsOf (traineeName (RiskEntry.trainee e)) data) parts
    /\ RiskEntry.reasons e = List.concat parts.
Proof.
  intros He. apply atRiskTrainees_entry in He. unfold riskEntry_of in He.
  set (rs := recordsOf (traineeName (RiskEntry.trainee e)) data) in *.
  destruct (find _ data) as [first|]; [| discriminate].
  exists (map (ActionableInsights.taggedReasons t) rs). split.
  - clear. clearbody rs.
    induction rs as [|r l IH]; simpl; constructor;
      [apply taggedReasons_reasonsOf | exact IH].
  - inversion He as [He']. simpl. apply flat_map_concat_map.
Qed.

Lemma atRiskTrainees_two_records (r1 r2 : TrainingRecord) :
  traineeName r2 = traineeName r1 ->
  completionRate r1 = 20%Q -> completionRate r2 = 90%Q ->
  ~ lowScore DEFAULT_THRESHOLDS r1 -> ~ lowScore DEFAULT_THRESHOLDS r2 ->
  ActionableInsights.atRiskTrainees [r1; r2] DEFAULT_THRESHOLDS
  = [ {| RiskEntry.trainee := r1;
         RiskEntry.reasons :=
           [("Completion < 30% on '" ++ courseTitle r1 ++ "'")%string] |} ].
Proof.
  intros Hn Hc1 Hc2 Hs1 Hs2.
  assert (S1 : Qgtb (postAssessmentScore r1) 0
               && Qltb (postAssessmentScore r1)
                    (inject_Z (AT_RISK_SCORE DEFAULT_THRESHOLDS)) = false).
  { apply not_true_iff_false. now rewrite lowScore_test. }
  assert (S2 : Qgtb (postAssessmentScore r2) 0
               && Qltb (postAssessmentScore r2)
                    (inject_Z (AT_RISK_SCORE DEFAULT_THRESHOLDS)) = false).
  { apply not_true_iff_false. now rewrite lowScore_test. }
  unfold ActionableInsights.atRiskTrainees, ActionableInsights.riskMap.
  simpl fold_left.
  unfold ActionableInsights.riskMap_step, ActionableInsights.taggedReasons,
    ActionableInsights.recordReasons.
  rewrite S1, S2, Hc1, Hc2, Hn. simpl.
  rewrite String.eqb_refl. reflexivity.
Qed.

(** C5. At-Risk Trainees: at most one row per trainee name; a trainee has a
    row exactly when one of their records has a completion rate below the
    completion threshold, or a positive post-assessment score below the score
    threshold; the reasons of a row are, record by record in input order, one
    course-tagged string per condition the record satisfies, so a record that
    satisfies none adds nothing. With the default thresholds, a trainee with
    a record at completion 20 and a record at completion 90, neither with a
    low score, has one row whose single reason names the first course. *)
Theorem atRiskTrainees_rows_and_reasons :
  forall (data : list TrainingRecord) (t : Thresholds),
    let out := ActionableInsights.atRiskTrainees data t in
    NoDup (map (fun e => traineeName (RiskEntry.trainee e)) out)
    /\ (forall n,
          (exists e, In e out /\ traineeName (RiskEntry.trainee e) = n)
          <-> (exists r, In r data /\ traineeName r = n /\ flagged t r))
    /\ (forall e, In e out ->
          exists parts,
            Forall2 (reasonsOf t)
              (recordsOf (traineeName (RiskEntry.trainee e)) data) parts
            /\ RiskEntry.reasons e = List.concat parts)
    /\ (forall r1 r2,
          traineeName r2 = traineeName r1 ->
          completionRate r1 = 20%Q -> completionRate r2 = 90%Q ->
          ~ lowScore DEFAULT_THRESHOLDS r1 -> ~ lowScore DEFAULT_THRESHOLDS r2 ->
          ActionableInsights.atRiskTrainees [r1; r2] DEFAULT_THRESHOLDS
          = [ {| RiskEntry.trainee := r1;
                 RiskEntry.reasons :=
                   [("Completion < 30% on '" ++ courseTitle r1 ++ "'")%string] |} ]).
Proof.
  intros data t out. subst out.
  split; [apply atRiskTrainees_NoDup |].
  split; [apply atRiskTrainees_row_iff |].
  split; [apply atRiskTrainees_reasons | apply atRiskTrainees_two_records].
Qed.

Lemma atRiskTrainees_rows_and_reasons_witness :
  ActionableInsights.atRiskTrainees
    [riskRecord "Safety" 20 0 "North"; riskRecord "Hygiene" 90 80 "North"]
    DEFAULT_THRESHOLDS
  = [ {| RiskEntry.trainee := riskRecord "Safety" 20 0 "North";
         RiskEntry.reasons := ["Completion < 30% on 'Safety'"] |} ].
Proof.
  destruct (atRiskTrainees_rows_and_reasons
              [riskRecord "Safety" 20 0 "North"; riskRecord "Hygiene" 90 80 "North"]
              DEFAULT_THRESHOLDS)
    as (_ & _ & _ & H).
  apply (H (riskRecord "Safety" 20 0 "North") (riskRecord "Hygiene" 90 80 "North"));
    try reflexivity;
    intros [H1 H2]; vm_compute in H1, H2; discriminate.
Defined.

Lemma find_first {A : Type} (p : A -> bool) (l : list A) (x : A) :
  find p l = Some x ->
  exists l1 l2, l = l1 ++ x :: l2 /\ p x = true
                /\ forall y, In y l1 -> p y = false.
Proof.
  induction l as [|a l IH]; simpl; [discriminate |].
  destruct (p a) eqn:E.
  - intros H. inversion H; subst. exists [], l. simpl. tauto.
  - intros H. destruct (IH H) as (l1 & l2 & -> & Hx & Hl1).
    exists (a :: l1), l2. simpl. repeat split; [assumption |].
    intros y [<- | Hy]; [assumption | now apply Hl1].
Qed.

Lemma find_firstFlagged (t : Thresholds) (n : string)
    (data : list TrainingRecord) (first : TrainingRecord) :
  find (flaggedFor t n) data = Some first -> firstFlagged t n data first.
Proof.
  intros H. apply find_first in H. destruct H as (l1 & l2 & -> & Hx & Hl1).
  apply flaggedFor_iff in Hx. exists l1, l2. repeat split; try tauto.
  intros r Hr Hfl. apply flaggedFor_iff in Hfl. rewrite (Hl1 r Hr) in Hfl.
  discriminate.
Qed.

Lemma atRiskTraineesData_identity (data : list TrainingRecord) (t : Thresholds)
    (row : AtRiskRow.t) :
  In row (ActionableInsights.atRiskTraineesData data t) ->
  exists first,
    firstFlagged t (AtRiskRow.traineeName row) data first
    /\ AtRiskRow.branch row = branch first
    /\ AtRiskRow.supervisor row = supervisor first
    /\ AtRiskRow.email row = email first.
Proof.
  unfold ActionableInsights.atRiskTraineesData. intros H.
  apply in_map_iff in H. destruct H as (e & <- & He).
  apply atRiskTrainees_entry in He. unfold riskEntry_of in He. simpl.
  destruct (find _ data) as [first|] eqn:F; [| discriminate].
  exists first. split.
  - now apply find_firstFlagged.
  - inversion He as [He']. simpl. repeat split.
Qed.

Lemma atRiskTrainees_later_records (data more : list TrainingRecord)
    (t : Thresholds) (e : RiskEntry.t) :
  In e (ActionableInsights.atRiskTrainees data t) ->
  exists e',
    In e' (ActionableInsights.atRiskTrainees (data ++ more) t)
    /\ RiskEntry.trainee e' = RiskEntry.trainee e
    /\ RiskEntry.reasons e'
       = RiskEntry.reasons e
         ++ flat_map (ActionableInsights.taggedReasons t)
              (recordsOf (traineeName (RiskEntry.trainee e)) more).
Proof.
  intros He. apply atRiskTrainees_entry in He. unfold riskEntry_of in He.
  remember (traineeName (RiskEntry.trainee e)) as n eqn:Hn.
  destruct (find (flaggedFor t n) data) as [first|] eqn:F; [| discriminate].
  injection He as He'.
  exists {| RiskEntry.trainee := first;
            RiskEntry.reasons :=
              flat_map (ActionableInsights.taggedReasons t)
                (recordsOf n (data ++ more)) |}.
  assert (Hfn : traineeName first = n).
  { apply find_some in F. destruct F as [_ F]. now apply flaggedFor_iff in F. }
  rewrite <- He'. simpl. split; [| split].
  - apply atRiskTrainees_entry. simpl. rewrite Hfn.
    unfold riskEntry_of. now rewrite find_app_split, F.
  - reflexivity.
  - unfold recordsOf. now rewrite filter_app, flat_map_app.
Qed.

(** C10. The identity fields of an at-risk row (branch, supervisor, email)
    are those of the trainee's first flagged record in input order; records
    that come later, whatever their branch, supervisor or email, leave the
    record of the entry as it is and only append their reasons. *)
Theorem atRisk_identity_from_first_flagged :
  forall (data : list TrainingRecord) (t : Thresholds),
    (forall row, In row (ActionableInsights.atRiskTraineesData data t) ->
       exists first,
         firstFlagged t (AtRiskRow.traineeName row) data first
         /\ AtRiskRow.branch row = branch first
         /\ AtRiskRow.supervisor row = supervisor first
         /\ AtRiskRow.email row = email first)
    /\ (forall more e, In e (ActionableInsights.atRiskTrainees data t) ->
          exists e',
            In e' (ActionableInsights.atRiskTrainees (data ++ more) t)
            /\ RiskEntry.trainee e' = RiskEntry.trainee e
            /\ RiskEntry.reasons e'
               = RiskEntry.reasons e
                 ++ flat_map (ActionableInsights.taggedReasons t)
                      (recordsOf (traineeName (RiskEntry.trainee e)) more)).
Proof.
  intros data t. split.
  - apply atRiskTraineesData_identity.
  - intros more e. apply atRiskTrainees_later_records.
Qed.

Lemma atRisk_identity_from_first_flagged_witness :
  exists first,
    firstFlagged DEFAULT_THRESHOLDS "T"
      [riskRecord "Safety" 90 0 "North"; riskRecord "Hygiene" 20 0 "South";
       riskRecord "Storage" 10 0 "East"] first
    /\ "South" = branch first /\ "S" = supervisor first
    /\ "t@x.com" = email first.
Proof.
  apply (proj1 (atRisk_identity_from_first_flagged
                  [riskRecord "Safety" 90 0 "North";
                   riskRecord "Hygiene" 20 0 "South";
                   riskRecord "Storage" 10 0 "East"] DEFAULT_THRESHOLDS)
               {| AtRiskRow.traineeName := "T"; AtRiskRow.branch := "South";
                  AtRiskRow.supervisor := "S";
                  AtRiskRow.reasons :=
                    "Completion < 30% on 'Hygiene'; Completion < 30% on 'Storage'";
                  AtRiskRow.email := "t@x.com" |}).
  vm_compute. left. reflexivity.
Defined.

(* ================================================================== *)
(** * Proofs: moving average *)
(* ================================================================== *)

Lemma skipn_nth_error {A : Type} (l : list A) (k : nat) (x : A) :
  nth_error l k = Some x -> skipn k l = x :: skipn (S k) l.
Proof.
  revert k. induction l as [|a l IH]; intros k H.
  - destruct k; discriminate.
  - destruct k as [|k]; simpl in *.
    + now inversion H.
    + now apply IH.
Qed.

(** The window of three that ends at index [i + 2]. *)
Lemma slice_window3 {A : Type} (l : list A) (i : nat) (a b c : A) :
  nth_error l i = Some a -> nth_error l (i + 1) = Some b ->
  nth_error l (i + 2) = Some c ->
  slice l (Z.of_nat (i + 2) - 3 + 1) (Z.of_nat (i + 2) + 1) = [a; b; c].
Proof.
  intros Ha Hb Hc. unfold slice.
  assert (Hlen : (i + 2 < List.length l)%nat)
    by (apply nth_error_Some; congruence).
  destruct (Z.ltb_spec (Z.of_nat (i + 2) - 3 + 1) 0) as [H | _]; [lia |].
  destruct (Z.ltb_spec (Z.of_nat (i + 2) + 1) 0) as [H | _]; [lia |].
  replace (Z.to_nat (Z.min (Z.of_nat (i + 2) - 3 + 1) (Z.of_nat (List.length l))))
    with i by lia.
  replace (Z.to_nat (Z.min (Z.of_nat (i + 2) + 1) (Z.of_nat (List.length l))
                     - Z.min (Z.of_nat (i + 2) - 3 + 1) (Z.of_nat (List.length l))))
    with 3%nat by lia.
  rewrite (skipn_nth_error l i a Ha).
  replace (i + 1)%nat with (S i) in Hb by lia.
  rewrite (skipn_nth_error l (S i) b Hb).
  replace (i + 2)%nat with (S (S i)) in Hc by lia.
  rewrite (skipn_nth_error l (S (S i)) c Hc).
  reflexivity.
Qed.

Lemma calculateMovingAverage_nth (series : list TrendPoint.t) (i : nat)
    (row : TrendRow.t) :
  nth_error (TrendAnalysis.calculateMovingAverage series 3) i = Some row ->
  exists p,
    nth_error series i = Some p
    /\ row = TrendAnalysis.withMovingAverage p
               (if (Z.of_nat i <? 2) || (Z.of_nat (List.length series) <? 3)
                then None
                else Some (reduce_sum TrendPoint.avgCompletion
                             (slice series (Z.of_nat i - 3 + 1) (Z.of_nat i + 1))
                           / inject_Z 3)%Q).
Proof.
  unfold TrendAnalysis.calculateMovingAverage.
  destruct (Z.of_nat (List.length series) <? 3) eqn:Hshort.
  - rewrite nth_error_map. destruct (nth_error series i) as [p|]; [| discriminate].
    simpl. intros H. exists p. rewrite orb_true_r. split; congruence.
  - rewrite mapi_nth_error. destruct (nth_error series i) as [p|]; [| discriminate].
    simpl. intros H. exists p. rewrite orb_false_r. split; [reflexivity |].
    change (3 - 1) with 2 in H. destruct (Z.of_nat i <? 2); congruence.
Qed.

Lemma movingAverage_length (series : list TrendPoint.t) :
  List.length (TrendAnalysis.calculateMovingAverage series 3) = List.length series.
Proof.
  unfold TrendAnalysis.calculateMovingAverage.
  destruct (Z.of_nat (List.length series) <? 3).
  - apply length_map.
  - apply mapi_from_length.
Qed.

Lemma movingAverage_first_two (series : list TrendPoint.t) (i : nat)
    (row : TrendRow.t) :
  (i < 2)%nat ->
  nth_error (TrendAnalysis.calculateMovingAverage series 3) i = Some row ->
  TrendRow.movingAverage row = None.
Proof.
  intros Hi H. apply calculateMovingAverage_nth in H.
  destruct H as (p & _ & ->).
  destruct (Z.ltb_spec (Z.of_nat i) 2) as [_ | H]; [reflexivity | lia].
Qed.

Lemma movingAverage_from_third (series : list TrendPoint.t) (i : nat)
    (row : TrendRow.t) (a b c : TrendPoint.t) :
  nth_error (TrendAnalysis.calculateMovingAverage series 3) (i + 2) = Some row ->
  nth_error series i = Some a -> nth_error series (i + 1) = Some b ->
  nth_error series (i + 2) = Some c ->
  sameAverage (TrendRow.movingAverage row)
    (Some ((TrendPoint.avgCompletion a + TrendPoint.avgCompletion b
            + TrendPoint.avgCompletion c) / 3)%Q).
Proof.
  intros H Ha Hb Hc. apply calculateMovingAverage_nth in H.
  destruct H as (p & _ & ->).
  assert (Hlen : (i + 2 < List.length series)%nat)
    by (apply nth_error_Some; congruence).
  destruct (Z.ltb_spec (Z.of_nat (i + 2)) 2) as [H | _]; [lia |].
  destruct (Z.ltb_spec (Z.of_nat (List.length series)) 3) as [H | _]; [lia |].
  simpl orb. cbv iota. rewrite (slice_window3 series i a b c Ha Hb Hc).
  simpl. unfold reduce_sum. simpl. field.
Qed.

Lemma movingAverage_keeps_buckets (series : list TrendPoint.t) (i : nat)
    (row : TrendRow.t) :
  nth_error (TrendAnalysis.calculateMovingAverage series 3) i = Some row ->
  exists p, nth_error series i = Some p
            /\ TrendRow.month row = TrendPoint.month p
            /\ TrendRow.avgCompletion row = TrendPoint.avgCompletion p
            /\ TrendRow.trainingHours row = TrendPoint.trainingHours p.
Proof.
  intros H. apply calculateMovingAverage_nth in H. destruct H as (p & Hp & ->).
  exists p. repeat split. exact Hp.
Qed.

Lemma movingAverage_five_months (series : list TrendPoint.t) :
  map TrendPoint.avgCompletion series = [50; 60; 70; 80; 90]%Q ->
  Forall2 sameAverage
    (map TrendRow.movingAverage (TrendAnalysis.calculateMovingAverage series 3))
    [None; None; Some 60%Q; Some 70%Q; Some 80%Q].
Proof.
  intros H.
  destruct series as [|[m1 c1 h1] [|[m2 c2 h2] [|[m3 c3 h3] [|[m4 c4 h4]
    [|[m5 c5 h5] [|]]]]]]; try discriminate.
  simpl in H. inversion H; subst.
  repeat constructor; vm_compute; reflexivity.
Qed.

(** C6. The three-point trailing moving average of a monthly series keeps
    the buckets in place, gives no value to the first two buckets and gives
    the bucket at every index [i + 2] the mean of the completion values at
    [i], [i + 1] and [i + 2]; the completion series 50, 60, 70, 80, 90 has
    the moving averages null, null, 60, 70, 80. *)
Theorem movingAverage_three_point :
  forall series : list TrendPoint.t,
    let out := TrendAnalysis.calculateMovingAverage series 3 in
    List.length out = List.length series
    /\ (forall i row, nth_error out i = Some row ->
          exists p, nth_error series i = Some p
                    /\ TrendRow.month row = TrendPoint.month p
                    /\ TrendRow.avgCompletion row = TrendPoint.avgCompletion p
                    /\ TrendRow.trainingHours row = TrendPoint.trainingHours p)
    /\ (forall i row, (i < 2)%nat -> nth_error out i = Some row ->
          TrendRow.movingAverage row = None)
    /\ (forall i row a b c,
          nth_error out (i + 2) = Some row ->
          nth_error series i = Some a -> nth_error series (i + 1) = Some b ->
          nth_error series (i + 2) = Some c ->
          sameAverage (TrendRow.movingAverage row)
            (Some ((TrendPoint.avgCompletion a + TrendPoint.avgCompletion b
                    + TrendPoint.avgCompletion c) / 3)%Q))
    /\ (map TrendPoint.avgCompletion series = [50; 60; 70; 80; 90]%Q ->
        Forall2 sameAverage (map TrendRow.movingAverage out)
          [None; None; Some 60%Q; Some 70%Q; Some 80%Q]).
Proof.
  intros series out. subst out.
  split; [apply movingAverage_length |].
  split; [apply movingAverage_keeps_buckets |].
  split; [apply movingAverage_first_two |].
  split; [apply movingAverage_from_third | apply movingAverage_five_months].
Qed.

Lemma movingAverage_three_point_witness :
  Forall2 sameAverage
    (map TrendRow.movingAverage
       (TrendAnalysis.calculateMovingAverage
          [bucket "Jan 2024" 50; bucket "Feb 2024" 60; bucket "Mar 2024" 70;
           bucket "Apr 2024" 80; bucket "May 2024" 90] 3))
    [None; None; Some 60%Q; Some 70%Q; Some 80%Q].
Proof.
  apply (movingAverage_three_point
           [bucket "Jan 2024" 50; bucket "Feb 2024" 60; bucket "Mar 2024" 70;
            bucket "Apr 2024" 80; bucket "May 2024" 90]).
  reflexivity.
Defined.

(* ================================================================== *)
(** * Proofs: group comparison KPIs *)
(* ================================================================== *)

Lemma reduce_sum_from {A : Type} (f : A -> Q) (l : list A) (acc : Q) :
  (fold_left (fun acc curr => acc + f curr) l acc == acc + Qsum (map f l))%Q.
Proof.
  revert acc. induction l as [|x l IH]; intros acc; simpl.
  - ring.
  - rewrite IH. ring.
Qed.

Lemma reduce_sum_Qsum {A : Type} (f : A -> Q) (l : list A) :
  (reduce_sum f l == Qsum (map f l))%Q.
Proof. unfold reduce_sum. rewrite reduce_sum_from. ring. Qed.

Lemma checked_div_nonzero (a b : Q) :
  ~ (b == 0)%Q -> checked_div a b = Some (a / b)%Q.
Proof.
  intros H. unfold checked_div. destruct (Qeq_bool b 0) eqn:E; [| reflexivity].
  apply Qeq_bool_iff in E. contradiction.
Qed.

Lemma inject_Z_length_nonzero (n : nat) :
  (0 < n)%nat -> ~ (inject_Z (Z.of_nat n) == 0)%Q.
Proof.
  intros Hn H. unfold Qeq in H. simpl in H. lia.
Qed.

Lemma calculateKpis_empty : ComparisonTool.calculateKpis [] = Some zeroKpis.
Proof. reflexivity. Qed.

(** On a non-empty subset every division has a non-zero divisor, and the
    improvement is what the guard and the formula say. *)
Lemma calculateKpis_nonempty (d : TrainingRecord) (data : list TrainingRecord) :
  exists k,
    ComparisonTool.calculateKpis (d :: data) = Some k
    /\ Kpis.improvement k
       = if Qgtb (reduce_sum preAssessmentScore (assessed (d :: data))) 0
         then ((reduce_sum postAssessmentScore (assessed (d :: data))
                - reduce_sum preAssessmentScore (assessed (d :: data)))
               / reduce_sum preAssessmentScore (assessed (d :: data)) * 100)%Q
         else 0%Q.
Proof.
  unfold ComparisonTool.calculateKpis.
  set (l := d :: data).
  assert (Hl : (0 < List.length l)%nat) by (simpl; lia).
  destruct (Z.eqb_spec (Z.of_nat (List.length l)) 0) as [H | _]; [lia |].
  rewrite (checked_div_nonzero _ _ (inject_Z_length_nonzero _ Hl)).
  cbn [ComparisonTool.bind]. fold (assessed l).
  set (completed := assessed l).
  assert (Havg : exists avg,
             (if 0 <? Z.of_nat (List.length completed)
              then checked_div (reduce_sum postAssessmentScore completed)
                     (inject_Z (Z.of_nat (List.length completed)))
              else Some 0%Q) = Some avg).
  { destruct (Z.ltb_spec 0 (Z.of_nat (List.length completed))) as [H | H].
    - rewrite checked_div_nonzero; [eauto |].
      apply inject_Z_length_nonzero. lia.
    - eauto. }
  destruct Havg as [avg ->]. cbn [ComparisonTool.bind].
  destruct (Qgtb (reduce_sum preAssessmentScore completed) 0) eqn:Hpre.
  - apply Qgtb_gt in Hpre. rewrite checked_div_nonzero.
    + cbn [ComparisonTool.bind]. eexists. split; reflexivity.
    + intros H. rewrite H in Hpre. now apply Qlt_irrefl in Hpre.
  - cbn [ComparisonTool.bind]. eexists. split; reflexivity.
Qed.

(** C7. The KPI computation never divides by zero: it returns a result for
    every subset. The result is the all-zero structure for the empty subset;
    the improvement is [(sum post - sum pre) / sum pre * 100], the sums taken
    over the records with a positive post-assessment score, when the sum of
    the pre scores is positive, and 0 when it is not. *)
Theorem calculateKpis_total_and_improvement :
  forall data : list TrainingRecord,
    exists k,
      ComparisonTool.calculateKpis data = Some k
      /\ (data = [] -> k = zeroKpis)
      /\ (let pre := Qsum (map preAssessmentScore (assessed data)) in
          let post := Qsum (map postAssessmentScore (assessed data)) in
          (0 < pre -> Kpis.improvement k == (post - pre) / pre * 100)%Q
          /\ (~ 0 < pre -> Kpis.improvement k == 0)%Q).
Proof.
  intros [|d data].
  - exists zeroKpis. split; [reflexivity | split; [reflexivity |]].
    simpl. split; [intros H; now apply Qlt_irrefl in H | reflexivity].
  - destruct (calculateKpis_nonempty d data) as (k & Hk & Himp).
    exists k. split; [exact Hk | split; [discriminate |]].
    cbv zeta. rewrite Himp. rewrite <- !reduce_sum_Qsum.
    destruct (Qgtb (reduce_sum preAssessmentScore (assessed (d :: data))) 0)
      eqn:Hpre.
    + split; [reflexivity |]. intros H. apply Qgtb_gt in Hpre. contradiction.
    + split; [| reflexivity]. intros H. apply Qgtb_gt in H. congruence.
Qed.

Lemma calculateKpis_total_and_improvement_witness :
  exists k,
    ComparisonTool.calculateKpis
      [kpiRecord 50 100; kpiRecord 100 100; kpiRecord 70 0] = Some k
    /\ (Kpis.improvement k == 100 / 3)%Q.
Proof.
  destruct (calculateKpis_total_and_improvement
              [kpiRecord 50 100; kpiRecord 100 100; kpiRecord 70 0])
    as (k & Hk & _ & Himp & _).
  exists k. split; [exact Hk |].
  rewrite Himp; reflexivity.
Defined.

(* ================================================================== *)
(** * Proofs: table view state *)
(* ================================================================== *)




(** The ceiling of a quotient of integers, in integer arithmetic. *)
Lemma Qceiling_div (n r : Z) :
  Qceiling (inject_Z n / inject_Z r) = - ((- n) / r).
Proof.
  unfold Qceiling. f_equal. rewrite Zdiv_Qdiv. apply Qfloor_comp.
  rewrite inject_Z_opp. unfold Qdiv. ring.
Qed.

Lemma ceiling_pages (n r : Z) :
  0 <= n -> 1 <= r ->
  let c := Qceiling (inject_Z n / inject_Z r) in
  (c - 1) * r < n <= c * r /\ (n = 0 -> c = 0) /\ (0 < n -> 1 <= c).
Proof.
  intros Hn Hr c. subst c. rewrite Qceiling_div.
  pose proof (Z.div_mod (- n) r ltac:(lia)) as Hdm.
  pose proof (Z.mod_pos_bound (- n) r ltac:(lia)) as Hm.
  set (q := (- n) / r) in *. set (m := (- n) mod r) in *.
  assert (H1 : (- q - 1) * r < n <= - q * r) by nia.
  split; [exact H1 |]. split; intros H; nia.
Qed.

Section TableFacts.
Variable StringToNumber : string -> option Q.
Variable ToString : value -> string.
Variable toLowerCase : string -> string.

Local Abbreviation sortedItems' := (sortedItems StringToNumber ToString toLowerCase).
Local Abbreviation filteredItems' := (filteredItems ToString toLowerCase).
Local Abbreviation pageCount' := (pageCount StringToNumber ToString toLowerCase).
Local Abbreviation actualCurrentPage' :=
  (actualCurrentPage StringToNumber ToString toLowerCase).
Local Abbreviation useDataTable' := (useDataTable StringToNumber ToString toLowerCase).
Local Abbreviation dispatch' := (dispatch StringToNumber ToString toLowerCase).
Local Abbreviation reachable' := (reachable StringToNumber ToString toLowerCase).
Local Abbreviation compareRows' := (compareRows StringToNumber).

(** ** Sorting *)






Lemma sortedItems_length (items : list Row) (st : HookState) :
  List.length (sortedItems' items st) = List.length (filteredItems' items st).
Proof.
  unfold sortedItems. destruct (key (sortConfig st)); [apply sort_length | reflexivity].
Qed.






(** ** Pages *)

Lemma pageCount_pagesFor (items : list Row) (rowsPerPage : Z) (st : HookState) :
  1 <= rowsPerPage ->
  pagesFor (Z.of_nat (List.length (filteredItems' items st))) rowsPerPage
           (pageCount' items rowsPerPage st).
Proof.
  intros Hr. unfold pageCount, pagesFor. rewrite sortedItems_length.
  set (n := Z.of_nat (List.length (filteredItems' items st))).
  destruct (ceiling_pages n rowsPerPage ltac:(lia) Hr) as (Hc & H0 & Hpos).
  cbv zeta in Hc, H0, Hpos.
  destruct (Z.eqb_spec (Qceiling (inject_Z n / inject_Z rowsPerPage)) 0) as [E | E].
  - split; [reflexivity |]. intros Hn. specialize (Hpos Hn). lia.
  - split; [intros Hn; specialize (H0 Hn); contradiction |]. intros _. exact Hc.
Qed.

Lemma pageCount_ge_1 (items : list Row) (rowsPerPage : Z) (st : HookState) :
  1 <= rowsPerPage -> 1 <= pageCount' items rowsPerPage st.
Proof.
  intros Hr. destruct (pageCount_pagesFor items rowsPerPage st Hr) as [H0 Hpos].
  set (n := Z.of_nat (List.length (filteredItems' items st))) in *.
  destruct (Z.eq_dec n 0) as [E | E]; [rewrite (H0 E); lia |].
  assert (Hn : 0 < n) by lia. specialize (Hpos Hn). nia.
Qed.

Lemma reachable_page_ge_1 (initialSortKey : option string) (rowsPerPage : Z)
    (st : HookState) :
  1 <= rowsPerPage -> reachable' initialSortKey rowsPerPage st ->
  1 <= currentPage st.
Proof.
  intros Hr H. induction H as [|st items ev _ IH]; [simpl; lia |].
  pose proof (pageCount_ge_1 items rowsPerPage st Hr) as Hp.
  destruct ev; simpl; try lia.
  unfold pageEffect, actualCurrentPage.
  destruct (negb _); simpl; lia.
Qed.

Lemma filteredItems_no_search (items : list Row) (st : HookState) :
  searchTerm st = "" -> filteredItems' items st = items.
Proof. intros H. unfold filteredItems. now rewrite H. Qed.

Lemma pageCount_no_search (items : list Row) (rowsPerPage : Z) (st : HookState) :
  searchTerm st = "" ->
  pageCount' items rowsPerPage st
  = let pages := Qceiling (inject_Z (Z.of_nat (List.length items))
                           / inject_Z rowsPerPage) in
    if pages =? 0 then 1 else pages.
Proof.
  intros H. unfold pageCount.
  now rewrite sortedItems_length, filteredItems_no_search.
Qed.
End TableFacts.



(** C9. For a page size of at least 1 the page count is the ceiling of the
    number of filtered rows over the page size, and 1 when no row is left,
    and the page the hook shows is between 1 and the page count in every
    state it can reach, whatever rows it is given. With 12 rows and a page
    size of 10 there are 2 pages; after [nextPage()] from page 1 the state
    holds page 2, and a render over 5 rows shows page 1. *)
Theorem table_page_count_and_clamp :
  forall (StringToNumber : string -> option Q) (ToString : value -> string)
         (toLowerCase : string -> string),
    (forall rowsPerPage initialSortKey st items,
        1 <= rowsPerPage ->
        reachable StringToNumber ToString toLowerCase initialSortKey rowsPerPage st ->
        let v := useDataTable StringToNumber ToString toLowerCase
                   items rowsPerPage st in
        pagesFor (TableView.totalItems v) rowsPerPage (TableView.pageCount v)
        /\ 1 <= TableView.currentPage v <= TableView.pageCount v)
    /\ (forall initialSortKey items12 items5,
          List.length items12 = 12%nat -> List.length items5 = 5%nat ->
          let st0 := initialState initialSortKey in
          let v0 := useDataTable StringToNumber ToString toLowerCase items12 10 st0 in
          let st1 := dispatch StringToNumber ToString toLowerCase
                       items12 10 NextPage st0 in
          let v1 := useDataTable StringToNumber ToString toLowerCase items5 10 st1 in
          TableView.pageCount v0 = 2 /\ TableView.currentPage v0 = 1
          /\ currentPage st1 = 2
          /\ TableView.pageCount v1 = 1 /\ TableView.currentPage v1 = 1).
Proof.
  intros StringToNumber ToString toLowerCase. split.
  - intros rowsPerPage initialSortKey st items Hr Hst v. subst v. simpl.
    split; [now apply pageCount_pagesFor |].
    pose proof (pageCount_ge_1 StringToNumber ToString toLowerCase
                  items rowsPerPage st Hr).
    pose proof (reachable_page_ge_1 StringToNumber ToString toLowerCase
                  initialSortKey rowsPerPage st Hr Hst).
    unfold actualCurrentPage. lia.
  - intros initialSortKey items12 items5 H12 H5 st0 v0 st1 v1.
    assert (P0 : pageCount StringToNumber ToString toLowerCase items12 10 st0 = 2).
    { rewrite pageCount_no_search by reflexivity. rewrite H12. reflexivity. }
    assert (C1 : currentPage st1 = 2).
    { subst st1. simpl. rewrite P0. reflexivity. }
    assert (P1 : pageCount StringToNumber ToString toLowerCase items5 10 st1 = 1).
    { rewrite pageCount_no_search by reflexivity. rewrite H5. reflexivity. }
    subst v0 v1. simpl. unfold actualCurrentPage. rewrite P0, P1, C1.
    repeat split.
Qed.

Lemma table_page_count_and_clamp_witness :
  TableView.pageCount
    (useDataTable (fun _ => None) (fun _ => "") (fun s => s)
       (numberedRows 12) 10 (initialState (Some "rank"))) = 2
  /\ TableView.currentPage
       (useDataTable (fun _ => None) (fun _ => "") (fun s => s) (numberedRows 5) 10
          (dispatch (fun _ => None) (fun _ => "") (fun s => s)
             (numberedRows 12) 10 NextPage (initialState (Some "rank")))) = 1
  /\ 1 <= TableView.currentPage
            (useDataTable (fun _ => None) (fun _ => "") (fun s => s)
               (numberedRows 5) 10 (initialState (Some "rank")))
       <= 1.
Proof.
  destruct (table_page_count_and_clamp (fun _ => None) (fun _ => "") (fun s => s))
    as [Hinv Hscen].
  destruct (Hscen (Some "rank") (numberedRows 12) (numberedRows 5)
              eq_refl eq_refl) as (H1 & _ & _ & _ & H2).
  split; [exact H1 | split; [exact H2 |]].
  destruct (Hinv 10 (Some "rank") (initialState (Some "rank")) (numberedRows 5)
              ltac:(lia) (reachable_init _ _ _ _ _)) as [_ H].
  exact H.
Defined.

(* ================================================================== *)
(** * Proofs: sets of strings and grouping loops *)
(* ================================================================== *)

Lemma includes_false (arr : list string) (x : string) :
  includes arr x = false <-> ~ In x arr.
Proof. rewrite <- includes_In. now destruct (includes arr x). Qed.

Lemma Set_add_In (s : list string) (x y : string) :
  In y (Set_add s x) <-> y = x \/ In y s.
Proof.
  unfold Set_add. destruct (includes s x) eqn:E.
  - apply includes_In in E. split; [now right | intros [-> | H]; assumption].
  - rewrite in_app_iff. simpl. intuition.
Qed.

Lemma Set_add_NoDup (s : list string) (x : string) :
  NoDup s -> NoDup (Set_add s x).
Proof.
  intros H. unfold Set_add. destruct (includes s x) eqn:E; [exact H |].
  apply includes_false in E.
  apply (Permutation_NoDup (l := x :: s)).
  - apply Permutation_cons_append.
  - now constructor.
Qed.

Lemma Set_of_snoc (l : list string) (x : string) :
  Set_of (l ++ [x]) = Set_add (Set_of l) x.
Proof. unfold Set_of. now rewrite fold_left_app. Qed.

Lemma Set_of_NoDup (l : list string) : NoDup (Set_of l).
Proof.
  induction l as [|x l IH] using rev_ind; [constructor |].
  rewrite Set_of_snoc. now apply Set_add_NoDup.
Qed.

Lemma Set_of_In (l : list string) (y : string) : In y (Set_of l) <-> In y l.
Proof.
  induction l as [|x l IH] using rev_ind; [reflexivity |].
  rewrite Set_of_snoc, Set_add_In, in_app_iff, IH. simpl. intuition.
Qed.

Lemma Set_of_length_le (l : list string) :
  (List.length (Set_of l) <= List.length l)%nat.
Proof.
  apply NoDup_incl_length; [apply Set_of_NoDup |].
  intros y. apply Set_of_In.
Qed.

Section GroupFacts.
Context {A V : Type}.
Variable guard : A -> bool.
Variable keyOf : A -> string.
Variable init : A -> V.
Variable update : A -> V -> V.

Lemma upsert_get_eq (o : Dict V) (k : string) (i : V) (u : V -> V) :
  dict_get (upsert o k i u) k
  = Some (u match dict_get o k with Some v => v | None => i end).
Proof.
  unfold upsert. destruct (dict_get o k) as [v|] eqn:E.
  - now rewrite E, dict_get_set_eq.
  - now rewrite dict_get_set_eq, dict_get_set_eq.
Qed.

Lemma upsert_get_neq (o : Dict V) (k k' : string) (i : V) (u : V -> V) :
  k <> k' -> dict_get (upsert o k i u) k' = dict_get o k'.
Proof.
  intros H. unfold upsert. destruct (dict_get o k) as [v|] eqn:E.
  - now rewrite E, dict_get_set_neq.
  - now rewrite dict_get_set_eq, !dict_get_set_neq.
Qed.

Lemma upsert_keys (o : Dict V) (k : string) (i : V) (u : V -> V) :
  map fst (upsert o k i u) = Set_add (map fst o) k.
Proof.
  unfold upsert, Set_add. destruct (dict_get o k) as [v|] eqn:E.
  - rewrite E, dict_keys_set, E.
    destruct (includes (map fst o) k) eqn:I; [reflexivity |].
    apply includes_false, dict_get_None in I. congruence.
  - rewrite dict_get_set_eq, dict_keys_set, dict_get_set_eq, dict_keys_set, E.
    apply dict_get_None, includes_false in E. now rewrite E.
Qed.

Lemma groupBy_snoc (data : list A) (d : A) :
  groupBy guard keyOf init update (data ++ [d])
  = if guard d
    then upsert (groupBy guard keyOf init update data) (keyOf d) (init d) (update d)
    else groupBy guard keyOf init update data.
Proof. unfold groupBy. now rewrite fold_left_app. Qed.

(** The keys of the result: the keys of the grouped records, each once, in
    the order of their first record. *)
Lemma groupBy_keys (data : list A) :
  map fst (groupBy guard keyOf init update data)
  = Set_of (map keyOf (filter guard data)).
Proof.
  induction data as [|d data IH] using rev_ind; [reflexivity |].
  rewrite groupBy_snoc, filter_snoc. destruct (guard d); [| exact IH].
  rewrite upsert_keys, IH, map_app. simpl map. now rewrite Set_of_snoc.
Qed.

Lemma groupBy_NoDup (data : list A) :
  NoDup (map fst (groupBy guard keyOf init update data)).
Proof. rewrite groupBy_keys. apply Set_of_NoDup. Qed.

(** The value under a key: the fold of [update] over the records of the
    group, from the initial value that its first record makes. *)
Lemma groupBy_get (data : list A) (k : string) :
  dict_get (groupBy guard keyOf init update data) k
  = match groupOf guard keyOf k data with
    | [] => None
    | d0 :: g => Some (fold_left (fun v d => update d v) (d0 :: g) (init d0))
    end.
Proof.
  unfold groupOf. induction data as [|d data IH] using rev_ind; [reflexivity |].
  rewrite groupBy_snoc, filter_snoc.
  destruct (guard d) eqn:G; simpl andb; [| exact IH].
  destruct (String.eqb_spec (keyOf d) k) as [Hk | Hk].
  - subst k. rewrite upsert_get_eq, IH.
    destruct (filter _ data) as [|d0 g]; [reflexivity |].
    simpl. f_equal. now rewrite fold_left_app.
  - rewrite upsert_get_neq by exact Hk. exact IH.
Qed.

Lemma groupBy_entry (data : list A) (k : string) (v : V) :
  In (k, v) (groupBy guard keyOf init update data)
  <-> dict_get (groupBy guard keyOf init update data) k = Some v.
Proof. apply dict_get_In, groupBy_NoDup. Qed.

Lemma groupOf_head (data : list A) (k : string) (d0 : A) (g : list A) :
  groupOf guard keyOf k data = d0 :: g ->
  In d0 data /\ guard d0 = true /\ keyOf d0 = k.
Proof.
  intros H.
  assert (Hin : In d0 (groupOf guard keyOf k data)) by (rewrite H; now left).
  apply filter_In in Hin. destruct Hin as [Hin Hg].
  apply andb_true_iff in Hg. destruct Hg as [Hg Hk].
  apply String.eqb_eq in Hk. auto.
Qed.
End GroupFacts.

(* ================================================================== *)
(** * Proofs: more on the leaderboards *)
(* ================================================================== *)

Lemma fold_left_ext_eq {A B : Type} (f g : B -> A -> B) (l : list A) (acc : B) :
  (forall b x, f b x = g b x) -> fold_left f l acc = fold_left g l acc.
Proof.
  intros H. revert acc. induction l as [|x l IH]; intros acc; simpl.
  - reflexivity.
  - now rewrite H, IH.
Qed.

Lemma fold_left_Qplus_map {A : Type} (f : A -> Q) (l : list A) (acc : Q) :
  fold_left (fun a x => (a + f x)%Q) l acc = fold_left Qplus (map f l) acc.
Proof.
  revert acc. induction l as [|x l IH]; intros acc; simpl; [reflexivity | apply IH].
Qed.

Lemma branchRates_groupBy (data : list TrainingRecord) :
  Leaderboard.branchRates data
  = groupBy (fun d => truthy (branch d)) branch (fun _ => rateInit) rateUpdate data.
Proof.
  unfold Leaderboard.branchRates, groupBy. apply fold_left_ext_eq.
  intros o d. unfold Leaderboard.branchRates_step.
  now destruct (truthy (branch d)).
Qed.


Lemma traineeScores_groupBy (data : list TrainingRecord) :
  Leaderboard.traineeScores data
  = groupBy countedTrainee email scoreInit scoreUpdate data.
Proof.
  unfold Leaderboard.traineeScores, groupBy. apply fold_left_ext_eq.
  intros o d. unfold Leaderboard.traineeScores_step, countedTrainee.
  now destruct (Qgtb (postAssessmentScore d) 0 && truthy (email d)).
Qed.

(** What the bucket of a group holds after the loop. *)
Lemma rateUpdate_fold (g : list TrainingRecord) (v : GroupRate.t) :
  fold_left (fun v d => rateUpdate d v) g v
  = {| GroupRate.totalRate :=
         fold_left Qplus (map completionRate g) (GroupRate.totalRate v);
       GroupRate.count := GroupRate.count v + Z.of_nat (List.length g);
       GroupRate.trainees :=
         fold_left Set_add (map traineeName g) (GroupRate.trainees v) |}.
Proof.
  revert v. induction g as [|d g IH]; intros [t c s].
  - simpl. f_equal. lia.
  - simpl fold_left at 1. rewrite IH. simpl. f_equal. lia.
Qed.

Lemma scoreUpdate_fold_count (g : list TrainingRecord) (v : TraineeScore.t) :
  TraineeScore.count (fold_left (fun v d => scoreUpdate d v) g v)
  = TraineeScore.count v + Z.of_nat (List.length g).
Proof.
  revert v. induction g as [|d g IH]; intros v; simpl fold_left.
  - simpl. lia.
  - rewrite IH. simpl. lia.
Qed.

Section RankedGroups.
Variable guard : TrainingRecord -> bool.
Variable keyOf : TrainingRecord -> string.

Local Abbreviation rates :=
  (groupBy guard keyOf (fun _ => rateInit) rateUpdate).




Lemma rankGroups_length (o : Dict GroupRate.t) :
  List.length (Leaderboard.rankGroups o) = List.length o.
Proof.
  unfold Leaderboard.rankGroups, mapi.
  now rewrite mapi_from_length, sort_length, length_map.
Qed.

Lemma rankGroups_row (o : Dict GroupRate.t) (row : GroupRow.t) :
  In row (Leaderboard.rankGroups o) ->
  exists g, In (GroupRow.name row, g) o
            /\ GroupRow.avgRate row
               = parseFloat_toFixed
                   (GroupRate.totalRate g / inject_Z (GroupRate.count g)) 1
            /\ GroupRow.traineeCount row = Set_size (GroupRate.trainees g).
Proof.
  unfold Leaderboard.rankGroups. intros H.
  apply mapi_In in H. destruct H as (r0 & i & Hr0 & ->).
  apply sort_In in Hr0. apply in_map_iff in Hr0.
  destruct Hr0 as ([k g] & <- & Hin). exists g. simpl. auto.
Qed.



(** The row of a group: the rounded mean of the completion rates of its
    records and the number of their distinct trainee names. *)
Lemma ranked_row (data : list TrainingRecord) (row : GroupRow.t) :
  In row (Leaderboard.rankGroups (rates data)) ->
  let records := groupOf guard keyOf (GroupRow.name row) data in
  records <> []
  /\ GroupRow.avgRate row
     = parseFloat_toFixed (mean (map completionRate records)) 1
  /\ exists names, distinctNames records names
                   /\ GroupRow.traineeCount row = Z.of_nat (List.length names).
Proof.
  intros H records. apply rankGroups_row in H.
  destruct H as (g & Hin & Havg & Hcount).
  apply groupBy_entry in Hin. rewrite groupBy_get in Hin. fold records in Hin.
  destruct records as [|d0 rest] eqn:E; [discriminate |].
  rewrite rateUpdate_fold in Hin. injection Hin as Hg. subst g.
  cbn [GroupRate.totalRate GroupRate.count GroupRate.trainees rateInit]
    in Havg, Hcount.
  split; [discriminate | split].
  - rewrite Havg. unfold mean. rewrite length_map. reflexivity.
  - exists (Set_of (map traineeName (d0 :: rest))). split; [split |].
    + apply Set_of_NoDup.
    + intros n. rewrite Set_of_In, in_map_iff. split.
      * intros (d & Hn & Hd). exists d. auto.
      * intros (d & Hd & Hn). exists d. auto.
    + exact Hcount.
Qed.
End RankedGroups.

Lemma Zsum_map_add {A : Type} (f g : A -> Z) (l : list A) :
  Zsum (map (fun k => f k + g k) l) = Zsum (map f l) + Zsum (map g l).
Proof. induction l as [|x l IH]; simpl; lia. Qed.

Lemma Zsum_indicator_out (x : string) (keys : list string) :
  ~ In x keys ->
  Zsum (map (fun k => if String.eqb x k then 1 else 0) keys) = 0.
Proof.
  induction keys as [|k keys IH]; simpl; [reflexivity |].
  intros H. destruct (String.eqb_spec x k) as [-> | _]; [elim H; now left |].
  rewrite IH; [reflexivity | tauto].
Qed.

Lemma Zsum_indicator (x : string) (keys : list string) :
  NoDup keys -> In x keys ->
  Zsum (map (fun k => if String.eqb x k then 1 else 0) keys) = 1.
Proof.
  induction 1 as [|k keys Hk Hnd IH]; simpl; [intros [] |].
  intros [-> | Hin].
  - rewrite String.eqb_refl, Zsum_indicator_out by exact Hk. reflexivity.
  - destruct (String.eqb_spec x k) as [-> | _]; [contradiction |].
    now rewrite IH.
Qed.


(** A grouping loop puts every record that passes its guard in exactly one
    group: the sizes of the groups add up to the number of such records. *)
Lemma groupOf_partition {A : Type} (guard : A -> bool) (keyOf : A -> string)
    (keys : list string) (data : list A) :
  NoDup keys ->
  (forall d, In d data -> guard d = true -> In (keyOf d) keys) ->
  Zsum (map (fun k => Z.of_nat (List.length (groupOf guard keyOf k data))) keys)
  = Z.of_nat (List.length (filter guard data)).
Proof.
  intros Hnd. induction data as [|d data IH]; intros Hkeys.
  - simpl. induction keys as [|k keys IHk]; simpl; [reflexivity |].
    inversion Hnd; subst. now rewrite IHk.
  - assert (IH' : Zsum (map (fun k => Z.of_nat
                               (List.length (groupOf guard keyOf k data))) keys)
                  = Z.of_nat (List.length (filter guard data))).
    { apply IH. intros x Hx. apply Hkeys. now right. }
    unfold groupOf in *. simpl filter. destruct (guard d) eqn:G; simpl andb.
    + rewrite (map_ext _
                 (fun k => (if String.eqb (keyOf d) k then 1 else 0)
                           + Z.of_nat (List.length
                               (filter (fun d0 => guard d0 && String.eqb (keyOf d0) k)
                                       data)))).
      * rewrite Zsum_map_add, IH', Zsum_indicator; [simpl List.length; lia | exact Hnd |].
        apply Hkeys; [now left | exact G].
      * intros k. destruct (String.eqb (keyOf d) k); simpl List.length; lia.
    + exact IH'.
Qed.

(** ** Top Trainees: counts and names *)

Lemma topTrainees_row_counts (data : list TrainingRecord) (row : TraineeRow.t) :
  In row (Leaderboard.topTrainees data) ->
  exists first rest,
    groupOf countedTrainee email (TraineeRow.email row) data = first :: rest
    /\ TraineeRow.name row = traineeName first
    /\ TraineeRow.courseCount row = Z.of_nat (List.length (first :: rest)).
Proof.
  unfold Leaderboard.topTrainees. intros H.
  apply mapi_In in H. destruct H as (r0 & i & Hr0 & ->).
  apply sort_In in Hr0. apply in_map_iff in Hr0.
  destruct Hr0 as ([e s] & <- & Hin). unfold Object_entries in Hin.
  rewrite traineeScores_groupBy in Hin.
  apply groupBy_entry in Hin. rewrite groupBy_get in Hin. simpl.
  destruct (groupOf countedTrainee email e data) as [|first rest]; [discriminate |].
  exists first, rest. split; [reflexivity |].
  assert (Hs : s = fold_left (fun v d => scoreUpdate d v) (first :: rest)
                     (scoreInit first)) by congruence.
  split.
  - rewrite Hs. clear. simpl fold_left.
    assert (G : forall v, TraineeScore.name
                            (fold_left (fun v d => scoreUpdate d v) rest v)
                          = TraineeScore.name v).
    { induction rest as [|d rest IH]; intros v; simpl; [reflexivity |].
      now rewrite IH. }
    rewrite G. reflexivity.
  - rewrite Hs, scoreUpdate_fold_count. reflexivity.
Qed.








(* ================================================================== *)
(** * Proofs: sorting within a class of elements *)
(* ================================================================== *)

Section SortOn.
Context {A : Type}.
Variable comparefn : A -> A -> Q.
Variable D : A -> Prop.
Variable before : A -> A -> Prop.
Hypothesis before_trans : forall x y z,
  D x -> D y -> D z -> before x y -> before y z -> before x z.
Hypothesis moved : forall pivot e,
  D pivot -> D e -> Qltb (comparefn pivot e) 0 = true -> before pivot e.
Hypothesis stays : forall pivot e,
  D pivot -> D e -> Qltb (comparefn pivot e) 0 = false -> before e pivot.

Lemma sort_insert_ordered_on (x : A) (p : list A) :
  D x -> Forall D p ->
  ordered_rev before p -> ordered_rev before (sort_insert comparefn x p).
Proof.
  intros Dx Dp H. induction H as [|e p Hall Hp IH]; simpl.
  - constructor; constructor.
  - inversion Dp as [|? ? De Dp']; subst.
    destruct (Qltb (comparefn x e) 0) eqn:E.
    + constructor; [| apply IH, Dp'].
      apply Forall_forall. intros z Hz.
      apply (Permutation_in _ (sort_insert_perm comparefn x p)) in Hz.
      destruct Hz as [<- | Hz]; [now apply moved |].
      rewrite Forall_forall in Hall. now apply Hall.
    + constructor; [| now constructor].
      constructor; [now apply stays |].
      rewrite Forall_forall in Hall, Dp' |- *. intros z Hz.
      apply (before_trans z e x); auto.
Qed.

Lemma sort_fold_ordered_on (l acc : list A) :
  Forall D l -> Forall D acc -> ordered_rev before acc ->
  ordered_rev before (fold_left (fun p x => sort_insert comparefn x p) l acc).
Proof.
  revert acc. induction l as [|x l IH]; intros acc Dl Dacc Hacc; simpl.
  - exact Hacc.
  - inversion Dl as [|? ? Dx Dl']; subst. apply IH.
    + exact Dl'.
    + apply (Permutation_Forall (Permutation_sym (sort_insert_perm comparefn x acc))).
      now constructor.
    + now apply sort_insert_ordered_on.
Qed.

Lemma sort_ordered_on (l : list A) :
  Forall D l ->
  forall i j x y, (i < j)%nat ->
    nth_error (sort comparefn l) i = Some x ->
    nth_error (sort comparefn l) j = Some y ->
    before x y.
Proof.
  intros Dl i j x y Hij Hx Hy. unfold sort in Hx, Hy.
  set (p := fold_left (fun p x => sort_insert comparefn x p) l []) in *.
  assert (Hp : ordered_rev before p)
    by (apply sort_fold_ordered_on; [exact Dl | constructor | constructor]).
  assert (Hj : (j < List.length p)%nat).
  { rewrite <- length_rev. apply nth_error_Some. congruence. }
  rewrite nth_error_rev in Hx, Hy.
  destruct (Nat.ltb_spec i (List.length p)) as [Hi | Hi]; [| discriminate].
  destruct (Nat.ltb_spec j (List.length p)) as [_ | Hj']; [| discriminate].
  apply (ordered_rev_nth before p Hp (List.length p - S j) (List.length p - S i));
    [lia | assumption | assumption].
Qed.
End SortOn.

(* ================================================================== *)
(** * Proofs: pages of the table *)
(* ================================================================== *)

Lemma slice_nonneg {A : Type} (arr : list A) (s e : Z) :
  0 <= s <= e ->
  slice arr s e = firstn (Z.to_nat (e - s)) (skipn (Z.to_nat s) arr).
Proof.
  intros H. unfold slice.
  destruct (Z.ltb_spec s 0) as [? | _]; [lia |].
  destruct (Z.ltb_spec e 0) as [? | _]; [lia |].
  destruct (Z_le_gt_dec s (Z.of_nat (List.length arr))) as [Hs | Hs].
  - rewrite (Z.min_l s) by lia.
    destruct (Z_le_gt_dec e (Z.of_nat (List.length arr))) as [He | He].
    + rewrite Z.min_l by lia. reflexivity.
    + rewrite Z.min_r by lia.
      rewrite !firstn_all2; [reflexivity | |]; rewrite length_skipn; lia.
  - rewrite (Z.min_r s), (Z.min_r e) by lia.
    rewrite !skipn_all2 by lia. now rewrite !firstn_nil.
Qed.

Lemma firstn_skipn_add {A : Type} (a b : nat) (l : list A) :
  firstn a l ++ firstn b (skipn a l) = firstn (a + b) l.
Proof.
  revert l. induction a as [|a IH]; intros l; [reflexivity |].
  destruct l as [|x l]; simpl.
  - now rewrite firstn_nil.
  - now rewrite IH.
Qed.

(** Consecutive windows of [r] elements, put end to end. *)
Lemma firstn_chunks {A : Type} (l : list A) (r m : nat) :
  List.concat (map (fun k => firstn r (skipn (k * r) l)) (seq 0 m))
  = firstn (m * r) l.
Proof.
  induction m as [|m IH]; [reflexivity |].
  rewrite seq_S, map_app, concat_app, IH. simpl List.concat.
  rewrite app_nil_r, firstn_skipn_add. f_equal. lia.
Qed.

Section PageFacts.
Variable StringToNumber : string -> option Q.
Variable ToString : value -> string.
Variable toLowerCase : string -> string.

Local Abbreviation sortedItems' := (sortedItems StringToNumber ToString toLowerCase).
Local Abbreviation filteredItems' := (filteredItems ToString toLowerCase).
Local Abbreviation pageCount' := (pageCount StringToNumber ToString toLowerCase).
Local Abbreviation actualCurrentPage' :=
  (actualCurrentPage StringToNumber ToString toLowerCase).
Local Abbreviation paginatedItems' :=
  (paginatedItems StringToNumber ToString toLowerCase).
Local Abbreviation useDataTable' := (useDataTable StringToNumber ToString toLowerCase).
Local Abbreviation pageEffect' := (pageEffect StringToNumber ToString toLowerCase).

(** The pages end at or after the last row, and the last page starts before
    it. *)
Lemma pageCount_bounds (items : list Row) (rowsPerPage : Z) (st : HookState) :
  1 <= rowsPerPage ->
  let count := Z.of_nat (List.length (sortedItems' items st)) in
  let pages := pageCount' items rowsPerPage st in
  1 <= pages /\ count <= pages * rowsPerPage
  /\ (pages - 1) * rowsPerPage <= count
  /\ (0 < count -> (pages - 1) * rowsPerPage < count).
Proof.
  intros Hr count pages.
  pose proof (pageCount_ge_1 StringToNumber ToString toLowerCase
                items rowsPerPage st Hr) as H1.
  destruct (pageCount_pagesFor StringToNumber ToString toLowerCase
              items rowsPerPage st Hr) as [H0 Hpos].
  rewrite <- (sortedItems_length StringToNumber) in H0, Hpos.
  fold count pages in H0, Hpos, H1.
  destruct (Z.eq_dec count 0) as [E | E].
  - rewrite (H0 E), E. lia.
  - assert (Hc : 0 < count) by (subst count; lia). specialize (Hpos Hc). lia.
Qed.

Lemma paginatedItems_window_eq (items : list Row) (rowsPerPage : Z) (st : HookState) :
  1 <= rowsPerPage -> 1 <= currentPage st ->
  paginatedItems' items rowsPerPage st
  = firstn (Z.to_nat rowsPerPage)
      (skipn (Z.to_nat ((actualCurrentPage' items rowsPerPage st - 1) * rowsPerPage))
             (sortedItems' items st)).
Proof.
  intros Hr Hc. unfold paginatedItems.
  destruct (pageCount_bounds items rowsPerPage st Hr) as (H1 & _).
  assert (Ha : 1 <= actualCurrentPage' items rowsPerPage st)
    by (unfold actualCurrentPage; lia).
  rewrite slice_nonneg by nia. do 2 f_equal. lia.
Qed.
End PageFacts.

Lemma useDataTable_page_length (StringToNumber : string -> option Q)
    (ToString : value -> string) (toLowerCase : string -> string)
    (items : list Row) (rowsPerPage : Z) (st : HookState) :
  1 <= rowsPerPage -> 1 <= currentPage st ->
  let v := useDataTable StringToNumber ToString toLowerCase items rowsPerPage st in
  Z.of_nat (List.length (TableView.paginatedItems v))
  = Z.min rowsPerPage
      (Z.of_nat (List.length (TableView.sortedItems v))
       - (TableView.currentPage v - 1) * rowsPerPage).
Proof.
  intros Hr Hc v. subst v.
  cbn [TableView.paginatedItems TableView.sortedItems TableView.currentPage
       useDataTable].
  rewrite (paginatedItems_window_eq StringToNumber ToString toLowerCase
             items rowsPerPage st Hr Hc).
  destruct (pageCount_bounds StringToNumber ToString toLowerCase
              items rowsPerPage st Hr) as (H1 & Hhi & Hlo & Hpos).
  cbv zeta in H1, Hhi, Hlo, Hpos.
  set (l := sortedItems StringToNumber ToString toLowerCase items st) in *.
  set (a := actualCurrentPage StringToNumber ToString toLowerCase
              items rowsPerPage st).
  assert (Ha : 1 <= a <= pageCount StringToNumber ToString toLowerCase
                           items rowsPerPage st)
    by (subst a; unfold actualCurrentPage; lia).
  assert (Hs : 0 <= (a - 1) * rowsPerPage <= Z.of_nat (List.length l)) by nia.
  rewrite length_firstn, length_skipn. lia.
Qed.

(** X4. For a page size of at least 1 and a current page of at least 1, the
    rows of the page are the rows of the sorted list from index
    [(page - 1) * rowsPerPage] on, where [page] is the page the hook
    returns; there are [rowsPerPage] of them, or as many as are left on the
    last page, and at least one whenever the sorted list has a row. *)
Theorem paginatedItems_window :
  forall (StringToNumber : string -> option Q) (ToString : value -> string)
         (toLowerCase : string -> string) items rowsPerPage st,
    1 <= rowsPerPage -> 1 <= currentPage st ->
    let v := useDataTable StringToNumber ToString toLowerCase items rowsPerPage st in
    let start := (TableView.currentPage v - 1) * rowsPerPage in
    Z.of_nat (List.length (TableView.paginatedItems v))
    = Z.min rowsPerPage (Z.of_nat (List.length (TableView.sortedItems v)) - start)
    /\ (forall i, (i < Z.to_nat rowsPerPage)%nat ->
          nth_error (TableView.paginatedItems v) i
          = nth_error (TableView.sortedItems v) (Z.to_nat start + i))
    /\ (TableView.sortedItems v <> [] -> TableView.paginatedItems v <> []).
Proof.
  intros S2N ToStr lower items rowsPerPage st Hr Hc v start. subst v start.
  cbn [TableView.paginatedItems TableView.sortedItems TableView.currentPage
       useDataTable].
  rewrite (paginatedItems_window_eq S2N ToStr lower items rowsPerPage st Hr Hc).
  destruct (pageCount_bounds S2N ToStr lower items rowsPerPage st Hr)
    as (H1 & Hhi & Hlo & Hpos).
  cbv zeta in H1, Hhi, Hlo, Hpos.
  set (l := sortedItems S2N ToStr lower items st) in *.
  set (a := actualCurrentPage S2N ToStr lower items rowsPerPage st).
  assert (Ha : 1 <= a <= pageCount S2N ToStr lower items rowsPerPage st)
    by (subst a; unfold actualCurrentPage; lia).
  assert (Hs : 0 <= (a - 1) * rowsPerPage <= Z.of_nat (List.length l)) by nia.
  assert (Hlen : Z.of_nat (List.length
                   (firstn (Z.to_nat rowsPerPage)
                      (skipn (Z.to_nat ((a - 1) * rowsPerPage)) l)))
                 = Z.min rowsPerPage
                     (Z.of_nat (List.length l) - (a - 1) * rowsPerPage)).
  { rewrite length_firstn, length_skipn. lia. }
  split; [exact Hlen | split].
  - intros i Hi. rewrite nth_error_firstn, nth_error_skipn.
    destruct (Nat.ltb_spec i (Z.to_nat rowsPerPage)); [reflexivity | lia].
  - intros Hne E. rewrite E in Hlen. simpl List.length in Hlen.
    destruct l as [|x l']; [now apply Hne |].
    assert (Hc0 : 0 < Z.of_nat (List.length (x :: l'))) by (simpl; lia).
    specialize (Hpos Hc0). nia.
Qed.

Lemma paginatedItems_window_witness :
  List.length
    (TableView.paginatedItems
       (useDataTable (fun _ => None) (fun _ => "") (fun s => s) (numberedRows 12) 5
          {| searchTerm := ""; sortConfig := {| key := None; direction := ascending |};
             currentPage := 7 |})) = 2%nat.
Proof.
  destruct (paginatedItems_window (fun _ => None) (fun _ => "") (fun s => s)
              (numberedRows 12) 5
              {| searchTerm := ""; sortConfig := {| key := None; direction := ascending |};
                 currentPage := 7 |} ltac:(lia) ltac:(simpl; lia)) as (H & _).
  apply Nat2Z.inj. rewrite H. reflexivity.
Defined.

(** X5. For a page size of at least 1, the pages 1 to [pageCount], put end
    to end, are the sorted rows: every row is on exactly one page. *)
Theorem pages_cover_sortedItems :
  forall (StringToNumber : string -> option Q) (ToString : value -> string)
         (toLowerCase : string -> string) items rowsPerPage st,
    1 <= rowsPerPage ->
    List.concat
      (map (fun p => paginatedItems StringToNumber ToString toLowerCase
                       items rowsPerPage (setCurrentPage st (Z.of_nat p)))
           (seq 1 (Z.to_nat (pageCount StringToNumber ToString toLowerCase
                               items rowsPerPage st))))
    = sortedItems StringToNumber ToString toLowerCase items st.
Proof.
  intros S2N ToStr lower items rowsPerPage st Hr.
  destruct (pageCount_bounds S2N ToStr lower items rowsPerPage st Hr)
    as (H1 & Hhi & _). cbv zeta in H1, Hhi.
  set (l := sortedItems S2N ToStr lower items st) in *.
  set (pages := pageCount S2N ToStr lower items rowsPerPage st) in *.
  rewrite <- seq_shift, map_map.
  rewrite (map_ext_in _
             (fun k => firstn (Z.to_nat rowsPerPage)
                         (skipn (k * Z.to_nat rowsPerPage) l))).
  - rewrite firstn_chunks. apply firstn_all2. nia.
  - intros k Hk. apply in_seq in Hk.
    rewrite (paginatedItems_window_eq S2N ToStr lower items rowsPerPage
               (setCurrentPage st (Z.of_nat (S k))) Hr)
      by (cbn [currentPage setCurrentPage]; lia).
    change (sortedItems S2N ToStr lower items (setCurrentPage st (Z.of_nat (S k))))
      with l.
    unfold actualCurrentPage.
    change (pageCount S2N ToStr lower items rowsPerPage
              (setCurrentPage st (Z.of_nat (S k)))) with pages.
    cbn [currentPage setCurrentPage]. do 2 f_equal.
    rewrite Z.min_l by lia. nia.
Qed.

Lemma pages_cover_sortedItems_witness :
  List.concat
    (map (fun p => paginatedItems (fun _ => None) (fun _ => "") (fun s => s)
                     (numberedRows 12) 5
                     (setCurrentPage (initialState None) (Z.of_nat p)))
         (seq 1 (Z.to_nat (pageCount (fun _ => None) (fun _ => "") (fun s => s)
                             (numberedRows 12) 5 (initialState None)))))
  = numberedRows 12.
Proof.
  apply (pages_cover_sortedItems (fun _ => None) (fun _ => "") (fun s => s)
           (numberedRows 12) 5 (initialState None)). lia.
Defined.

(* ================================================================== *)
(** * Proofs: more on the table *)
(* ================================================================== *)

Lemma filteredItems_In (ToString : value -> string) (toLowerCase : string -> string)
    (items : list Row) (st : HookState) (row : Row) :
  In row (filteredItems ToString toLowerCase items st) -> In row items.
Proof.
  unfold filteredItems. destruct (negb (truthy (searchTerm st))); [tauto |].
  intros H. now apply filter_In in H.
Qed.

(** X6. When every row holds a number, null or undefined under the sort
    key, the rows with a number come in the order of the numbers: never
    decreasing for the ascending direction, never increasing for the
    descending one. *)
Theorem sortedItems_numeric_order :
  forall (StringToNumber : string -> option Q) (ToString : value -> string)
         (toLowerCase : string -> string) items st k,
    key (sortConfig st) = Some k ->
    (forall row, In row items ->
       nullish (row_get row k) = true \/ exists q, row_get row k = VNumber q) ->
    forall i j a b x y, (i < j)%nat ->
      nth_error (sortedItems StringToNumber ToString toLowerCase items st) i = Some a ->
      nth_error (sortedItems StringToNumber ToString toLowerCase items st) j = Some b ->
      row_get a k = VNumber x -> row_get b k = VNumber y ->
      match direction (sortConfig st) with
      | ascending => (x <= y)%Q
      | descending => (y <= x)%Q
      end.
Proof.
  intros S2N ToStr lower items st k Hk Hcol i j a b x y Hij Ha Hb Hx Hy.
  unfold sortedItems in Ha, Hb. rewrite Hk in Ha, Hb.
  set (dir := direction (sortConfig st)) in *.
  set (ord := fun p q : Q =>
                match dir with ascending => (p <= q)%Q | descending => (q <= p)%Q end).
  set (D := fun row : Row =>
              nullish (row_get row k) = true \/ exists q, row_get row k = VNumber q).
  set (before := fun r s : Row =>
                   nullish (row_get s k) = true
                   \/ exists p q, row_get r k = VNumber p /\ row_get s k = VNumber q
                                  /\ ord p q).
  assert (Hbefore : before a b).
  { eapply (sort_ordered_on (compareRows S2N k dir) D before);
      [| | | | exact Hij | exact Ha | exact Hb].
    - intros r s t _ _ _ Hrs [Ht | (q & u & Hq & Hu & Hqu)]; [now left |].
      destruct Hrs as [Hs | (p & q' & Hp & Hq' & Hpq)];
        [rewrite Hq in Hs; discriminate |].
      right. exists p, u. split; [exact Hp | split; [exact Hu |]].
      assert (q' = q) by congruence. subst q'.
      unfold ord in *. destruct dir; eapply Qle_trans; eassumption.
    - intros pivot e Dp De Hlt. unfold compareRows in Hlt.
      destruct Dp as [Hp | (p & Hp)]; [rewrite Hp in Hlt; discriminate |].
      destruct De as [He | (q & Hq)]; [now left |].
      right. exists p, q. split; [exact Hp | split; [exact Hq |]].
      rewrite Hp, Hq in Hlt. simpl in Hlt. unfold ord.
      destruct (Qltb p q) eqn:E1.
      + apply Qltb_lt in E1. destruct dir; simpl in Hlt;
          [now apply Qlt_le_weak | discriminate].
      + destruct (Qltb q p) eqn:E2; [| discriminate].
        apply Qltb_lt in E2. destruct dir; simpl in Hlt;
          [discriminate | now apply Qlt_le_weak].
    - intros pivot e Dp De Hge. unfold compareRows in Hge.
      destruct Dp as [Hp | (p & Hp)]; [now left |].
      destruct De as [He | (q & Hq)].
      + rewrite Hp, He in Hge. discriminate.
      + right. exists q, p. split; [exact Hq | split; [exact Hp |]].
        rewrite Hp, Hq in Hge. simpl in Hge. unfold ord.
        destruct (Qltb p q) eqn:E1.
        * apply Qltb_lt in E1. destruct dir; simpl in Hge;
            [discriminate | now apply Qlt_le_weak].
        * apply Qltb_ge in E1. destruct (Qltb q p) eqn:E2.
          -- apply Qltb_lt in E2. destruct dir; simpl in Hge;
               [now apply Qlt_le_weak | discriminate].
          -- apply Qltb_ge in E2. destruct dir; assumption.
    - apply Forall_forall. intros row Hrow. apply Hcol.
      eapply filteredItems_In, Hrow. }
  destruct Hbefore as [Hn | (p & q & Hp & Hq & Hpq)].
  - rewrite Hy in Hn. discriminate.
  - assert (p = x) by congruence. assert (q = y) by congruence. subst p q.
    exact Hpq.
Qed.

Lemma sortedItems_numeric_order_witness :
  (inject_Z 1 <= inject_Z 3)%Q.
Proof.
  apply (sortedItems_numeric_order (fun _ => None) (fun _ => "") (fun s => s)
           (rev (numberedRows 3))
           {| searchTerm := "";
              sortConfig := {| key := Some "rank"%string; direction := ascending |};
              currentPage := 1 |}
           "rank"%string eq_refl
           (fun row H =>
              match H with
              | or_introl E => or_intror (ex_intro _ _ (f_equal (fun r => row_get r "rank") (eq_sym E)))
              | or_intror (or_introl E) =>
                  or_intror (ex_intro _ _ (f_equal (fun r => row_get r "rank") (eq_sym E)))
              | or_intror (or_intror (or_introl E)) =>
                  or_intror (ex_intro _ _ (f_equal (fun r => row_get r "rank") (eq_sym E)))
              | or_intror (or_intror (or_intror F)) => match F with end
              end)
           0%nat 2%nat (numberedRow 1) (numberedRow 3) (inject_Z 1) (inject_Z 3));
    [lia | reflexivity | reflexivity | reflexivity | reflexivity].
Defined.

(** X7. The sorted rows are the filtered rows in another order: sorting
    drops no row and repeats none, [totalItems] is their number, and
    without a sort key the order is the one of the filtered rows. The
    filtered rows are rows of the input, all of them when the search term is
    empty. *)
Theorem sortedItems_rearranges_filteredItems :
  forall (StringToNumber : string -> option Q) (ToString : value -> string)
         (toLowerCase : string -> string) items rowsPerPage st,
    let v := useDataTable StringToNumber ToString toLowerCase items rowsPerPage st in
    Permutation (TableView.sortedItems v) (filteredItems ToString toLowerCase items st)
    /\ TableView.totalItems v = Z.of_nat (List.length (TableView.sortedItems v))
    /\ (key (sortConfig st) = None ->
        TableView.sortedItems v = filteredItems ToString toLowerCase items st)
    /\ (forall row, In row (TableView.sortedItems v) -> In row items)
    /\ (searchTerm st = "" -> Permutation (TableView.sortedItems v) items).
Proof.
  intros S2N ToStr lower items rowsPerPage st v. subst v.
  cbn [TableView.sortedItems TableView.totalItems useDataTable].
  assert (P : Permutation (sortedItems S2N ToStr lower items st)
                          (filteredItems ToStr lower items st)).
  { unfold sortedItems. destruct (key (sortConfig st));
      [apply sort_perm | apply Permutation_refl]. }
  split; [exact P | split; [| split; [| split]]].
  - now rewrite (Permutation_length P).
  - intros H. unfold sortedItems. now rewrite H.
  - intros row Hrow. eapply filteredItems_In, Permutation_in; eassumption.
  - intros H. rewrite (filteredItems_no_search ToStr lower items st H) in P.
    exact P.
Qed.

Lemma sortedItems_rearranges_filteredItems_witness :
  Permutation
    (sortedItems (fun _ => None) (fun _ => "") (fun s => s) scoreRows
       (initialState (Some "avgScore"%string)))
    scoreRows.
Proof.
  destruct (sortedItems_rearranges_filteredItems (fun _ => None) (fun _ => "")
              (fun s => s) scoreRows 10 (initialState (Some "avgScore"%string)))
    as (_ & _ & _ & _ & H).
  apply H. reflexivity.
Defined.

(** X8. From a page between 1 and the page count, [nextPage], [prevPage]
    and [setPage] lead to a page between 1 and the page count. [nextPage]
    changes nothing on the last page and [prevPage] nothing on page 1;
    anywhere else each undoes the other. [setPage] goes to the page asked
    for when it exists, to page 1 for a smaller number and to the last page
    for a larger one. *)
Theorem page_handlers_stay_in_range :
  forall pages st,
    1 <= pages -> 1 <= currentPage st <= pages ->
    1 <= currentPage (nextPage pages st) <= pages
    /\ 1 <= currentPage (prevPage st) <= pages
    /\ (currentPage st = pages -> nextPage pages st = st)
    /\ (currentPage st = 1 -> prevPage st = st)
    /\ (currentPage st < pages -> prevPage (nextPage pages st) = st)
    /\ (1 < currentPage st -> nextPage pages (prevPage st) = st)
    /\ (forall page,
          currentPage (setPage pages page st)
          = if page <? 1 then 1 else if pages <? page then pages else page).
Proof.
  intros pages [term cfg page0] Hp Hc. simpl in Hc.
  unfold nextPage, prevPage, setPage, setCurrentPage. simpl.
  repeat split; try lia.
  - intros H. f_equal. lia.
  - intros H. f_equal. lia.
  - intros H. f_equal. lia.
  - intros H. f_equal. lia.
  - intros page. destruct (Z.ltb_spec page 1); [lia |].
    destruct (Z.ltb_spec pages page); lia.
Qed.

Lemma page_handlers_stay_in_range_witness :
  prevPage (nextPage 3 (initialState None)) = initialState None.
Proof.
  destruct (page_handlers_stay_in_range 3 (initialState None)
              ltac:(lia) ltac:(simpl; lia)) as (_ & _ & _ & _ & H & _).
  apply H. simpl. lia.
Defined.

(** X9. The effect that writes the clamped page back changes nothing of
    what the hook returns; after it the state holds the page that the hook
    returns, and a second run changes nothing. *)
Theorem pageEffect_keeps_the_view :
  forall (StringToNumber : string -> option Q) (ToString : value -> string)
         (toLowerCase : string -> string) items rowsPerPage st,
    let st' := pageEffect StringToNumber ToString toLowerCase items rowsPerPage st in
    useDataTable StringToNumber ToString toLowerCase items rowsPerPage st'
    = useDataTable StringToNumber ToString toLowerCase items rowsPerPage st
    /\ currentPage st'
       = TableView.currentPage
           (useDataTable StringToNumber ToString toLowerCase items rowsPerPage st)
    /\ pageEffect StringToNumber ToString toLowerCase items rowsPerPage st' = st'.
Proof.
  intros S2N ToStr lower items rowsPerPage st st'.
  set (a := actualCurrentPage S2N ToStr lower items rowsPerPage st).
  assert (Hst' : st' = setCurrentPage st a).
  { subst st'. unfold pageEffect. fold a.
    destruct (Z.eqb_spec (currentPage st) a) as [E | E]; simpl negb; cbv iota;
      [| reflexivity].
    rewrite <- E. now destruct st. }
  assert (Ha : actualCurrentPage S2N ToStr lower items rowsPerPage
                 (setCurrentPage st a) = a).
  { subst a. unfold actualCurrentPage. cbn [currentPage setCurrentPage].
    change (pageCount S2N ToStr lower items rowsPerPage
              (setCurrentPage st
                 (Z.min (currentPage st)
                    (pageCount S2N ToStr lower items rowsPerPage st))))
      with (pageCount S2N ToStr lower items rowsPerPage st).
    lia. }
  rewrite Hst'. split; [| split; [reflexivity |]].
  - unfold useDataTable, paginatedItems. rewrite Ha. reflexivity.
  - unfold pageEffect. rewrite Ha. cbn [currentPage setCurrentPage].
    rewrite Z.eqb_refl. reflexivity.
Qed.

(** X10. The footer of the table counts pages of ten rows. With a page
    size of 10 the range it prints is the range of the rows on the page.
    With a smaller page size and more rows than one page holds, the first
    page holds [rowsPerPage] rows while the footer prints the range from 1
    to the smaller of 10 and the number of rows. *)
Theorem footer_range_assumes_ten_rows :
  forall (StringToNumber : string -> option Q) (ToString : value -> string)
         (toLowerCase : string -> string) items st,
    1 <= currentPage st ->
    (let v := useDataTable StringToNumber ToString toLowerCase items 10 st in
     0 < TableView.totalItems v ->
     showingFrom v = (TableView.currentPage v - 1) * 10 + 1
     /\ showingTo v - showingFrom v + 1
        = Z.of_nat (List.length (TableView.paginatedItems v)))
    /\ (forall rowsPerPage,
          let v := useDataTable StringToNumber ToString toLowerCase
                     items rowsPerPage st in
          1 <= rowsPerPage < 10 -> currentPage st = 1 ->
          rowsPerPage < TableView.totalItems v ->
          Z.of_nat (List.length (TableView.paginatedItems v)) = rowsPerPage
          /\ showingFrom v = 1
          /\ showingTo v = Z.min 10 (TableView.totalItems v)
          /\ rowsPerPage < showingTo v - showingFrom v + 1).
Proof.
  intros S2N ToStr lower items st Hc. split.
  - intros v Htotal.
    pose proof (useDataTable_page_length S2N ToStr lower items 10 st
                  ltac:(lia) Hc) as Hlen. cbv zeta in Hlen. fold v in Hlen.
    destruct (pageCount_bounds S2N ToStr lower items 10 st ltac:(lia))
      as (H1 & Hhi & Hlo & Hpos). cbv zeta in H1, Hhi, Hlo, Hpos.
    assert (Ht : TableView.totalItems v
                 = Z.of_nat (List.length (TableView.sortedItems v))).
    { subst v. cbn [TableView.totalItems TableView.sortedItems useDataTable].
      now rewrite (sortedItems_length S2N). }
    assert (Ha : 1 <= TableView.currentPage v
                 <= pageCount S2N ToStr lower items 10 st).
    { subst v. cbn [TableView.currentPage useDataTable].
      unfold actualCurrentPage. lia. }
    change (TableView.sortedItems v) with (sortedItems S2N ToStr lower items st)
      in Ht, Hlen.
    unfold showingFrom, showingTo. rewrite Hlen, Ht in *.
    specialize (Hpos Htotal). lia.
  - intros rowsPerPage v Hr Hc1 Htotal.
    pose proof (useDataTable_page_length S2N ToStr lower items rowsPerPage st
                  ltac:(lia) Hc) as Hlen. cbv zeta in Hlen. fold v in Hlen.
    destruct (pageCount_bounds S2N ToStr lower items rowsPerPage st ltac:(lia))
      as (H1 & _). cbv zeta in H1.
    assert (Ht : TableView.totalItems v
                 = Z.of_nat (List.length (TableView.sortedItems v))).
    { subst v. cbn [TableView.totalItems TableView.sortedItems useDataTable].
      now rewrite (sortedItems_length S2N). }
    assert (Ha : TableView.currentPage v = 1).
    { subst v. cbn [TableView.currentPage useDataTable].
      unfold actualCurrentPage. lia. }
    unfold showingFrom, showingTo. rewrite Ha in *. rewrite Hlen. lia.
Qed.

Lemma footer_range_assumes_ten_rows_witness :
  let v := useDataTable (fun _ => None) (fun _ => "") (fun s => s)
             (numberedRows 12) 5 (initialState None) in
  Z.of_nat (List.length (TableView.paginatedItems v)) = 5
  /\ showingFrom v = 1 /\ showingTo v = 10.
Proof.
  destruct (footer_range_assumes_ten_rows (fun _ => None) (fun _ => "") (fun s => s)
              (numberedRows 12) (initialState None) ltac:(simpl; lia)) as [_ H].
  destruct (H 5 ltac:(lia) eq_refl ltac:(simpl; lia)) as (H1 & H2 & H3 & _).
  intros v. split; [exact H1 | split; [exact H2 | exact H3]].
Defined.

(* ================================================================== *)
(** * Proofs: course and improvement insights *)
(* ================================================================== *)




Lemma groupOf_all {A : Type} (keyOf : A -> string) (k : string) (data : list A) :
  groupOf (fun _ => true) keyOf k data
  = filter (fun d => String.eqb (keyOf d) k) data.
Proof. reflexivity. Qed.



(** ** Ranked lists *)

Lemma NoDup_map_filter {A B : Type} (keyOf : A -> B) (keep : A -> bool) :
  forall entries : list A,
    NoDup (map keyOf entries) -> NoDup (map keyOf (filter keep entries)).
Proof.
  intros l. set (p := keep). set (f := keyOf).
  induction l as [|x l IH]; simpl; [constructor |].
  intros Hnd. inversion Hnd as [|? ? Hx Hl]; subst.
  destruct (p x); [| now apply IH].
  simpl. constructor; [| now apply IH].
  intros Hin. apply Hx. apply in_map_iff in Hin.
  destruct Hin as (y & Hy & Hin). apply filter_In in Hin.
  apply in_map_iff. exists y. tauto.
Qed.

Lemma In_firstn {A : Type} (n : nat) (l : list A) (x : A) :
  In x (firstn n l) -> In x l.
Proof.
  intros H. rewrite <- (firstn_skipn n l). apply in_or_app. now left.
Qed.


Lemma slice_0 {A : Type} (l : list A) (n : Z) :
  0 <= n -> slice l 0 n = firstn (Z.to_nat n) l.
Proof.
  intros H. rewrite slice_nonneg by lia. simpl skipn. f_equal. lia.
Qed.

Section Ranked.
Context {R : Type}.
Variable score : R -> Q.
Variable withRank : R -> Z -> R.
Hypothesis score_withRank : forall r i, score (withRank r i) = score r.

Lemma sort_descending (l : list R) :
  forall i j a b, (i < j)%nat ->
    nth_error (sort (fun a b => (score b - score a)%Q) l) i = Some a ->
    nth_error (sort (fun a b => (score b - score a)%Q) l) j = Some b ->
    (score b <= score a)%Q.
Proof.
  intros i j a b Hij Ha Hb.
  eapply (sort_ordered (fun a b => (score b - score a)%Q)
            (fun x y => (score y <= score x)%Q));
    [| | | exact Hij | exact Ha | exact Hb].
  - intros x y z Hxy Hyz. eapply Qle_trans; eassumption.
  - intros pivot e H. apply Qltb_lt in H. lra.
  - intros pivot e H. apply Qltb_ge in H. lra.
Qed.


End Ranked.


(** ** Top Improvers *)











(** ** Top Performing Courses *)









(* ================================================================== *)
(** * Proofs: more on the trend analysis *)
(* ================================================================== *)

Lemma Qsum_bounds (lo hi : Q) (l : list Q) :
  (forall x, In x l -> (lo <= x <= hi)%Q) ->
  (inject_Z (Z.of_nat (List.length l)) * lo <= Qsum l
   /\ Qsum l <= inject_Z (Z.of_nat (List.length l)) * hi)%Q.
Proof.
  induction l as [|x l IH]; intros H.
  - change (inject_Z (Z.of_nat (List.length (@nil Q)))) with 0%Q.
    change (Qsum []) with 0%Q. split; lra.
  - destruct IH as [IH1 IH2]; [intros y Hy; apply H; now right |].
    destruct (H x (or_introl eq_refl)) as [Hx1 Hx2].
    assert (E : (inject_Z (Z.of_nat (List.length (x :: l)))
                 == inject_Z (Z.of_nat (List.length l)) + 1)%Q).
    { simpl List.length. rewrite Nat2Z.inj_succ, <- Z.add_1_r, inject_Z_plus.
      reflexivity. }
    rewrite E. simpl Qsum. split; nra.
Qed.

(** The mean of [n > 0] numbers between two bounds lies between them. *)
Lemma mean_bounds (lo hi sum : Q) (l : list Q) (n : Z) :
  0 < n -> Z.of_nat (List.length l) = n -> (sum == Qsum l)%Q ->
  (forall x, In x l -> (lo <= x <= hi)%Q) ->
  (lo <= sum / inject_Z n <= hi)%Q.
Proof.
  intros Hn Hlen Hsum Hl. destruct (Qsum_bounds lo hi l Hl) as [H1 H2].
  rewrite Hlen in H1, H2. rewrite <- Hsum in H1, H2.
  assert (Hpos : (0 < inject_Z n)%Q).
  { change 0%Q with (inject_Z 0). rewrite <- Zlt_Qlt. exact Hn. }
  split.
  - apply Qle_shift_div_l; [exact Hpos | lra].
  - apply Qle_shift_div_r; [exact Hpos | lra].
Qed.

Lemma calculateMovingAverage_nth_general (data : list TrendPoint.t) (w : Z)
    (i : nat) (row : TrendRow.t) :
  1 <= w ->
  nth_error (TrendAnalysis.calculateMovingAverage data w) i = Some row ->
  exists p,
    nth_error data i = Some p
    /\ row = TrendAnalysis.withMovingAverage p
               (if Z.of_nat i <? w - 1 then None
                else Some (reduce_sum TrendPoint.avgCompletion
                             (firstn (Z.to_nat w)
                                (skipn (i + 1 - Z.to_nat w) data))
                           / inject_Z w)%Q).
Proof.
  intros Hw. unfold TrendAnalysis.calculateMovingAverage.
  destruct (Z.ltb_spec (Z.of_nat (List.length data)) w) as [Hshort | Hlong].
  - rewrite nth_error_map. destruct (nth_error data i) as [p|] eqn:E;
      [| discriminate].
    simpl. intros H. exists p. split; [reflexivity |].
    assert (Hi : (i < List.length data)%nat) by (apply nth_error_Some; congruence).
    destruct (Z.ltb_spec (Z.of_nat i) (w - 1)); [congruence | lia].
  - rewrite mapi_nth_error. destruct (nth_error data i) as [p|]; [| discriminate].
    simpl. intros H. exists p. split; [reflexivity |].
    destruct (Z.ltb_spec (Z.of_nat i) (w - 1)) as [Hi | Hi]; [congruence |].
    rewrite slice_nonneg in H by lia.
    replace (Z.to_nat (Z.of_nat i + 1 - (Z.of_nat i - w + 1))) with (Z.to_nat w)
      in H by lia.
    replace (Z.to_nat (Z.of_nat i - w + 1)) with (i + 1 - Z.to_nat w)%nat
      in H by lia.
    congruence.
Qed.

(** X14. For any window size [w >= 1], [calculateMovingAverage] keeps the
    length of the series and the fields of every bucket; the moving average
    is null at the indices below [w - 1] and, from index [w - 1] on, the
    sum of the mean-completion values of the [w] buckets that end at the
    index, divided by [w]. A moving average lies between any two bounds
    that hold of all the values of the series. *)
Theorem calculateMovingAverage_any_window :
  forall (data : list TrendPoint.t) (w : Z),
    1 <= w ->
    let out := TrendAnalysis.calculateMovingAverage data w in
    List.length out = List.length data
    /\ (forall i row, nth_error out i = Some row ->
          exists p,
            nth_error data i = Some p
            /\ TrendRow.month row = TrendPoint.month p
            /\ TrendRow.avgCompletion row = TrendPoint.avgCompletion p
            /\ TrendRow.trainingHours row = TrendPoint.trainingHours p
            /\ (Z.of_nat i < w - 1 -> TrendRow.movingAverage row = None)
            /\ (w - 1 <= Z.of_nat i ->
                let window :=
                  firstn (Z.to_nat w) (skipn (i + 1 - Z.to_nat w) data) in
                Z.of_nat (List.length window) = w
                /\ TrendRow.movingAverage row
                   = Some (reduce_sum TrendPoint.avgCompletion window
                           / inject_Z w)%Q))
    /\ (forall lo hi : Q,
          (forall p, In p data ->
             (lo <= TrendPoint.avgCompletion p <= hi)%Q) ->
          forall row m, In row out -> TrendRow.movingAverage row = Some m ->
                        (lo <= m <= hi)%Q).
Proof.
  intros data w Hw out. subst out.
  assert (Hwin : forall i, (i < List.length data)%nat -> w - 1 <= Z.of_nat i ->
            Z.of_nat (List.length (firstn (Z.to_nat w)
                                     (skipn (i + 1 - Z.to_nat w) data))) = w).
  { intros i Hi Hge. rewrite length_firstn, length_skipn. lia. }
  split; [| split].
  - unfold TrendAnalysis.calculateMovingAverage.
    destruct (Z.of_nat (List.length data) <? w);
      [apply length_map | apply mapi_from_length].
  - intros i row H.
    apply (calculateMovingAverage_nth_general data w i row Hw) in H.
    destruct H as (p & Hp & ->). exists p.
    assert (Hi : (i < List.length data)%nat) by (apply nth_error_Some; congruence).
    split; [exact Hp | split; [reflexivity | split; [reflexivity |
      split; [reflexivity | split]]]].
    + intros Hlt. destruct (Z.ltb_spec (Z.of_nat i) (w - 1)); [reflexivity | lia].
    + intros Hge window. split; [now apply Hwin |].
      destruct (Z.ltb_spec (Z.of_nat i) (w - 1)); [lia | reflexivity].
  - intros lo hi Hb row m Hrow Hm.
    apply In_nth_error in Hrow. destruct Hrow as [i Hi].
    apply (calculateMovingAverage_nth_general data w i row Hw) in Hi.
    destruct Hi as (p & Hp & ->).
    assert (Hlen : (i < List.length data)%nat) by (apply nth_error_Some; congruence).
    simpl in Hm.
    destruct (Z.ltb_spec (Z.of_nat i) (w - 1)) as [? | Hge]; [discriminate |].
    injection Hm as <-.
    apply (mean_bounds lo hi _
             (map TrendPoint.avgCompletion
                (firstn (Z.to_nat w) (skipn (i + 1 - Z.to_nat w) data)))).
    + lia.
    + rewrite length_map. now apply Hwin.
    + apply reduce_sum_Qsum.
    + intros x Hx. apply in_map_iff in Hx. destruct Hx as (q & <- & Hq).
      apply Hb. apply In_firstn in Hq.
      rewrite <- (firstn_skipn (i + 1 - Z.to_nat w) data).
      apply in_or_app. now right.
Qed.

Lemma calculateMovingAverage_any_window_witness :
  (50 <= (0 + 50 + 70) / 2 <= 90)%Q.
Proof.
  assert (Hb : forall p,
             In p [bucket "Jan 2024" 50; bucket "Feb 2024" 70; bucket "Mar 2024" 90] ->
             (50 <= TrendPoint.avgCompletion p <= 90)%Q).
  { intros p [<- | [<- | [<- | []]]]; simpl; split;
      apply Qle_bool_imp_le; reflexivity. }
  destruct (calculateMovingAverage_any_window
              [bucket "Jan 2024" 50; bucket "Feb 2024" 70; bucket "Mar 2024" 90] 2
              ltac:(lia)) as (_ & _ & H).
  apply (H 50%Q 90%Q Hb
           (TrendAnalysis.withMovingAverage (bucket "Feb 2024" 70)
              (Some ((0 + 50 + 70) / 2)%Q))).
  - right. left. reflexivity.
  - reflexivity.
Defined.

(** ** Sums over groups *)

Lemma Qsum_app (l1 l2 : list Q) : (Qsum (l1 ++ l2) == Qsum l1 + Qsum l2)%Q.
Proof. induction l1 as [|x l1 IH]; simpl; [ring | rewrite IH; ring]. Qed.

Lemma Qsum_perm (l l' : list Q) : Permutation l l' -> (Qsum l == Qsum l')%Q.
Proof.
  induction 1 as [| x l l' _ IH | x y l | l l' l'' _ IH1 _ IH2]; simpl.
  - reflexivity.
  - now rewrite IH.
  - ring.
  - now rewrite IH1.
Qed.

Lemma Qsum_map_add {A : Type} (f g : A -> Q) (l : list A) :
  (Qsum (map (fun k => f k + g k) l) == Qsum (map f l) + Qsum (map g l))%Q.
Proof. induction l as [|x l IH]; simpl; [ring | rewrite IH; ring]. Qed.

Lemma Qsum_map_eq {A : Type} (f g : A -> Q) (l : list A) :
  (forall k, In k l -> (f k == g k)%Q) ->
  (Qsum (map f l) == Qsum (map g l))%Q.
Proof.
  induction l as [|x l IH]; intros H; simpl; [reflexivity |].
  rewrite (H x (or_introl eq_refl)), IH; [reflexivity |].
  intros k Hk. apply H. now right.
Qed.

Lemma Qsum_zero {A : Type} (l : list A) : (Qsum (map (fun _ => 0) l) == 0)%Q.
Proof. induction l as [|x l IH]; simpl; [reflexivity | rewrite IH; ring]. Qed.

Lemma Qsum_indicator (x : string) (c : Q) (keys : list string) :
  NoDup keys -> In x keys ->
  (Qsum (map (fun k => if String.eqb x k then c else 0) keys) == c)%Q.
Proof.
  induction 1 as [|k keys Hk Hnd IH]; simpl; [intros [] |].
  intros [-> | Hin].
  - rewrite String.eqb_refl.
    rewrite (Qsum_map_eq _ (fun _ => 0%Q)); [rewrite Qsum_zero; ring |].
    intros k' Hk'. destruct (String.eqb_spec x k') as [-> | _];
      [contradiction | reflexivity].
  - destruct (String.eqb_spec x k) as [-> | _]; [contradiction |].
    rewrite IH by exact Hin. ring.
Qed.

Lemma fold_left_Qplus_Qsum (l : list Q) (acc : Q) :
  (fold_left Qplus l acc == acc + Qsum l)%Q.
Proof.
  revert acc. induction l as [|x l IH]; intros acc; simpl; [ring |].
  rewrite IH. ring.
Qed.

(** Every record that passes the guard of a grouping loop adds to exactly
    one group: the sums of the groups add up to the sum over the records. *)
Lemma groupOf_Qsum {A : Type} (guard : A -> bool) (keyOf : A -> string)
    (h : A -> Q) (keys : list string) (data : list A) :
  NoDup keys ->
  (forall d, In d data -> guard d = true -> In (keyOf d) keys) ->
  (Qsum (map (fun k => Qsum (map h (groupOf guard keyOf k data))) keys)
   == Qsum (map h (filter guard data)))%Q.
Proof.
  intros Hnd. induction data as [|d data IH]; intros Hkeys.
  - simpl. apply Qsum_zero.
  - assert (IH' : (Qsum (map (fun k => Qsum (map h (groupOf guard keyOf k data))) keys)
                   == Qsum (map h (filter guard data)))%Q).
    { apply IH. intros x Hx. apply Hkeys. now right. }
    unfold groupOf in *. simpl filter. destruct (guard d) eqn:G; simpl andb.
    + rewrite (Qsum_map_eq _
                 (fun k => (if String.eqb (keyOf d) k then h d else 0)
                           + Qsum (map h (filter
                                            (fun d0 => guard d0 && String.eqb (keyOf d0) k)
                                            data)))%Q).
      * rewrite Qsum_map_add, IH', Qsum_indicator;
          [reflexivity | exact Hnd | apply Hkeys; [now left | exact G]].
      * intros k _. destruct (String.eqb (keyOf d) k); simpl; ring.
    + exact IH'.
Qed.

(** ** The monthly buckets *)

Section MonthFacts.
Variable monthLabel : Date -> string.
Variable monthTime : string -> option Z.

Local Abbreviation labelOf := (fun d : TrainingRecord => monthLabel (completionDate d)).
Local Abbreviation trends data :=
  (fold_left (TrendAnalysis.trends_step monthLabel) data []).

Lemma trends_groupBy (data : list TrainingRecord) :
  trends data
  = groupBy (fun _ => true) labelOf (fun _ => newMonthTotals) addToMonth data.
Proof. reflexivity. Qed.

Lemma trends_keys (data : list TrainingRecord) :
  map fst (trends data) = Set_of (map labelOf data).
Proof.
  rewrite trends_groupBy, groupBy_keys.
  now rewrite (filter_all (fun _ => true)) by reflexivity.
Qed.

Lemma addToMonth_fold (g : list TrainingRecord) (v : MonthTotals.t) :
  fold_left (fun v d => addToMonth d v) g v
  = {| MonthTotals.totalCompletion :=
         fold_left Qplus (map completionRate g) (MonthTotals.totalCompletion v);
       MonthTotals.count := MonthTotals.count v + Z.of_nat (List.length g);
       MonthTotals.totalHours :=
         fold_left Qplus (map trainingHours g) (MonthTotals.totalHours v) |}.
Proof.
  revert v. induction g as [|d g IH]; intros [tc c th].
  - simpl. f_equal. lia.
  - simpl fold_left. rewrite IH. simpl. f_equal. lia.
Qed.

Lemma trends_entry (data : list TrainingRecord) (k : string) (v : MonthTotals.t) :
  In (k, v) (trends data) ->
  monthRecords monthLabel k data <> []
  /\ v = {| MonthTotals.totalCompletion :=
              fold_left Qplus (map completionRate (monthRecords monthLabel k data)) 0%Q;
            MonthTotals.count :=
              Z.of_nat (List.length (monthRecords monthLabel k data));
            MonthTotals.totalHours :=
              fold_left Qplus (map trainingHours (monthRecords monthLabel k data)) 0%Q |}.
Proof.
  intros Hin. rewrite trends_groupBy in Hin.
  apply groupBy_entry in Hin. rewrite groupBy_get, groupOf_all in Hin.
  unfold monthRecords.
  destruct (filter (fun d => String.eqb (monthLabel (completionDate d)) k) data)
    as [|d0 g];
    [discriminate |].
  rewrite addToMonth_fold in Hin. split; [discriminate |]. now injection Hin.
Qed.

Lemma sortedTrends_perm (data : list TrainingRecord) :
  Permutation (TrendAnalysis.sortedTrends monthLabel monthTime data)
              (map (TrendAnalysis.trendPoint) (trends data)).
Proof. apply sort_perm. Qed.

Lemma monthlyData_fields (data : list TrainingRecord) :
  map TrendRow.month (TrendAnalysis.monthlyData monthLabel monthTime data)
  = map TrendPoint.month (TrendAnalysis.sortedTrends monthLabel monthTime data)
  /\ map TrendRow.trainingHours (TrendAnalysis.monthlyData monthLabel monthTime data)
     = map TrendPoint.trainingHours
         (TrendAnalysis.sortedTrends monthLabel monthTime data).
Proof.
  unfold TrendAnalysis.monthlyData, TrendAnalysis.calculateMovingAverage.
  destruct (Z.of_nat (List.length _) <? 3).
  - rewrite !map_map. split; reflexivity.
  - split; apply mapi_map; intros x i; now destruct (i <? 3 - 1).
Qed.

Lemma monthlyData_row (data : list TrainingRecord) (row : TrendRow.t) :
  In row (TrendAnalysis.monthlyData monthLabel monthTime data) ->
  exists v, In (TrendRow.month row, v) (trends data)
            /\ TrendRow.avgCompletion row
               = (MonthTotals.totalCompletion v / inject_Z (MonthTotals.count v))%Q
            /\ TrendRow.trainingHours row = MonthTotals.totalHours v.
Proof.
  intros H. apply In_nth_error in H. destruct H as [i Hi].
  apply movingAverage_keeps_buckets in Hi.
  destruct Hi as (p & Hp & Hm & Hc & Hh). apply nth_error_In in Hp.
  apply (Permutation_in _ (sortedTrends_perm data)) in Hp.
  apply in_map_iff in Hp. destruct Hp as ([k v] & <- & Hin).
  exists v. rewrite Hm, Hc, Hh. simpl. auto.
Qed.
End MonthFacts.

(** X15. The monthly trend has one row for every distinct month label of
    the records and no other. A row holds the mean completion rate and the
    total training hours of the records of its month; the hours of all rows
    add up to the hours of all records. When the time of every month
    label is a number, the rows are in the order of these times. *)
Theorem monthlyData_by_month :
  forall (monthLabel : Date -> string) (monthTime : string -> option Z)
         (data : list TrainingRecord),
    let out := TrendAnalysis.monthlyData monthLabel monthTime data in
    Permutation (map TrendRow.month out)
                (Set_of (map (fun d => monthLabel (completionDate d)) data))
    /\ (forall row, In row out ->
          let records := monthRecords monthLabel (TrendRow.month row) data in
          records <> []
          /\ TrendRow.avgCompletion row = mean (map completionRate records)
          /\ TrendRow.trainingHours row
             = fold_left Qplus (map trainingHours records) 0%Q)
    /\ (Qsum (map TrendRow.trainingHours out) == Qsum (map trainingHours data))%Q
    /\ ((forall d, In d data ->
           monthTime (monthLabel (completionDate d)) <> None) ->
        forall i j a b, (i < j)%nat ->
          nth_error out i = Some a -> nth_error out j = Some b ->
          exists ta tb, monthTime (TrendRow.month a) = Some ta
                        /\ monthTime (TrendRow.month b) = Some tb
                        /\ ta <= tb).
Proof.
  intros monthLabel monthTime data out. subst out.
  destruct (monthlyData_fields monthLabel monthTime data) as [Hmonths Hhours].
  pose proof (sortedTrends_perm monthLabel monthTime data) as Hperm.
  split; [| split; [| split]].
  - rewrite Hmonths, <- trends_keys.
    eapply Permutation_trans; [apply Permutation_map, Hperm |].
    rewrite map_map. erewrite map_ext; [apply Permutation_refl |]. now intros [k v].
  - intros row Hrow records. subst records.
    apply monthlyData_row in Hrow. destruct Hrow as (v & Hin & Hc & Hh).
    apply trends_entry in Hin. destruct Hin as [Hne ->].
    split; [exact Hne | split; [| exact Hh]].
    rewrite Hc. cbn [MonthTotals.totalCompletion MonthTotals.count].
    unfold mean. rewrite length_map. reflexivity.
  - rewrite Hhours.
    rewrite (Qsum_perm _ _ (Permutation_map TrendPoint.trainingHours Hperm)).
    rewrite map_map.
    rewrite (Qsum_map_eq _
               (fun entry => Qsum (map trainingHours
                                     (groupOf (fun _ => true)
                                        (fun d => monthLabel (completionDate d))
                                        (fst entry) data)))).
    + rewrite <- (map_map fst
                    (fun k => Qsum (map trainingHours
                                      (groupOf (fun _ => true)
                                         (fun d => monthLabel (completionDate d))
                                         k data)))).
      rewrite groupOf_Qsum.
      * now rewrite (filter_all (fun _ => true)) by reflexivity.
      * rewrite trends_keys. apply Set_of_NoDup.
      * intros d Hd _. rewrite trends_keys. apply Set_of_In.
        apply in_map_iff. exists d. auto.
    + intros [k v] Hin. apply trends_entry in Hin. destruct Hin as [_ ->].
      simpl. rewrite fold_left_Qplus_Qsum. unfold monthRecords. rewrite groupOf_all.
      ring.
  - intros Htimes i j a b Hij Ha Hb.
    apply movingAverage_keeps_buckets in Ha, Hb.
    destruct Ha as (pa & Hpa & -> & _), Hb as (pb & Hpb & -> & _).
    unfold TrendAnalysis.sortedTrends in Hpa, Hpb.
    eapply (sort_ordered_on (TrendAnalysis.byMonth monthTime)
              (fun p => monthTime (TrendPoint.month p) <> None)
              (fun x y => exists tx ty,
                   monthTime (TrendPoint.month x) = Some tx
                   /\ monthTime (TrendPoint.month y) = Some ty /\ tx <= ty));
      [| | | | exact Hij | exact Hpa | exact Hpb].
    + intros x y z _ _ _ (tx & ty & Hx & Hy & Hxy) (ty' & tz & Hy' & Hz & Hyz).
      exists tx, tz. split; [exact Hx | split; [exact Hz |]].
      assert (ty' = ty) by congruence. lia.
    + intros pivot e Dp De H. unfold TrendAnalysis.byMonth in H.
      destruct (monthTime (TrendPoint.month pivot)) as [tp|]; [| now elim Dp].
      destruct (monthTime (TrendPoint.month e)) as [te|]; [| now elim De].
      exists tp, te. split; [reflexivity | split; [reflexivity |]].
      apply Qltb_lt in H. change 0%Q with (inject_Z 0) in H.
      rewrite <- Zlt_Qlt in H. lia.
    + intros pivot e Dp De H. unfold TrendAnalysis.byMonth in H.
      destruct (monthTime (TrendPoint.month pivot)) as [tp|]; [| now elim Dp].
      destruct (monthTime (TrendPoint.month e)) as [te|]; [| now elim De].
      exists te, tp. split; [reflexivity | split; [reflexivity |]].
      apply Qltb_ge in H. change 0%Q with (inject_Z 0) in H.
      rewrite <- Zle_Qle in H. lia.
    + apply Forall_forall. intros p Hp. apply in_map_iff in Hp.
      destruct Hp as ([k v] & <- & Hin). simpl.
      assert (Hk : In k (map fst (fold_left (TrendAnalysis.trends_step monthLabel)
                                    data [])))
        by (apply in_map_iff; exists (k, v); auto).
      rewrite trends_keys in Hk. apply (proj1 (Set_of_In _ _)) in Hk.
      apply in_map_iff in Hk. destruct Hk as (d & <- & Hd). now apply Htimes.
Qed.


Lemma monthlyData_by_month_witness :
  exists row,
    TrendAnalysis.monthlyData (fun _ => "Jan 2024"%string) (fun _ => Some 0) sampleData
    = [row]
    /\ TrendRow.trainingHours row = (0 + 2 + 1 + 3 + 1)%Q.
Proof.
  destruct (monthlyData_by_month (fun _ => "Jan 2024"%string) (fun _ => Some 0)
              sampleData) as (_ & H & _).
  eexists. split; [reflexivity |].
  match goal with
  | |- TrendRow.trainingHours ?r = _ =>
      destruct (H r (or_introl eq_refl)) as (_ & _ & Hh)
  end.
  exact Hh.
Defined.

(* ================================================================== *)
(** * Proofs: the KPIs of a group *)
(* ================================================================== *)

Lemma calculateKpis_fields (d : TrainingRecord) (data : list TrainingRecord) :
  let l := d :: data in
  ComparisonTool.calculateKpis l
  = Some {| Kpis.totalLearners := Set_size (Set_of (map traineeName l));
            Kpis.avgCompletion :=
              (reduce_sum completionRate l / inject_Z (Z.of_nat (List.length l)))%Q;
            Kpis.avgPostScore :=
              match assessed l with
              | [] => 0%Q
              | _ :: _ =>
                  (reduce_sum postAssessmentScore (assessed l)
                   / inject_Z (Z.of_nat (List.length (assessed l))))%Q
              end;
            Kpis.improvement :=
              if Qgtb (reduce_sum preAssessmentScore (assessed l)) 0
              then ((reduce_sum postAssessmentScore (assessed l)
                     - reduce_sum preAssessmentScore (assessed l))
                    / reduce_sum preAssessmentScore (assessed l) * 100)%Q
              else 0%Q;
            Kpis.totalHours := reduce_sum trainingHours l;
            Kpis.recordCount := Z.of_nat (List.length l) |}.
Proof.
  intros l. unfold ComparisonTool.calculateKpis.
  assert (Hl : (0 < List.length l)%nat) by (simpl; lia).
  destruct (Z.eqb_spec (Z.of_nat (List.length l)) 0) as [H | _]; [lia |].
  rewrite (checked_div_nonzero _ _ (inject_Z_length_nonzero _ Hl)).
  cbn [ComparisonTool.bind]. fold (assessed l).
  set (completed := assessed l).
  assert (Havg :
            (if 0 <? Z.of_nat (List.length completed)
             then checked_div (reduce_sum postAssessmentScore completed)
                    (inject_Z (Z.of_nat (List.length completed)))
             else Some 0%Q)
            = Some match completed with
                   | [] => 0%Q
                   | _ :: _ =>
                       (reduce_sum postAssessmentScore completed
                        / inject_Z (Z.of_nat (List.length completed)))%Q
                   end).
  { destruct completed as [|c0 cs]; [reflexivity |].
    destruct (Z.ltb_spec 0 (Z.of_nat (List.length (c0 :: cs)))) as [_ | H];
      [| simpl in H; lia].
    apply checked_div_nonzero, inject_Z_length_nonzero. simpl. lia. }
  rewrite Havg. cbn [ComparisonTool.bind].
  destruct (Qgtb (reduce_sum preAssessmentScore completed) 0) eqn:Hpre.
  - apply Qgtb_gt in Hpre. rewrite checked_div_nonzero; [reflexivity |].
    intros H. rewrite H in Hpre. now apply Qlt_irrefl in Hpre.
  - reflexivity.
Qed.

(** X16. For a non-empty list of records the KPIs are: the number of
    records, the number of distinct trainee names (between 1 and the number
    of records), the mean completion rate, the total of the training hours
    and the mean of the positive post-assessment scores, 0 when there is
    none. The mean completion rate lies between any two bounds that hold
    of the completion rate of every record. *)
Theorem calculateKpis_fields_of_nonempty :
  forall data : list TrainingRecord,
    data <> [] ->
    exists k,
      ComparisonTool.calculateKpis data = Some k
      /\ Kpis.recordCount k = Z.of_nat (List.length data)
      /\ (exists names, distinctNames data names
                        /\ Kpis.totalLearners k = Z.of_nat (List.length names))
      /\ 1 <= Kpis.totalLearners k <= Kpis.recordCount k
      /\ (Kpis.avgCompletion k
          == Qsum (map completionRate data)
             / inject_Z (Z.of_nat (List.length data)))%Q
      /\ (Kpis.totalHours k == Qsum (map trainingHours data))%Q
      /\ (assessed data = [] -> Kpis.avgPostScore k = 0%Q)
      /\ (assessed data <> [] ->
          Kpis.avgPostScore k
          == Qsum (map postAssessmentScore (assessed data))
             / inject_Z (Z.of_nat (List.length (assessed data))))%Q
      /\ (forall lo hi : Q,
            (forall r, In r data -> (lo <= completionRate r <= hi)%Q) ->
            (lo <= Kpis.avgCompletion k <= hi)%Q).
Proof.
  intros [|d data] Hne; [now elim Hne |].
  pose proof (calculateKpis_fields d data) as Hk. cbv zeta in Hk.
  set (l := d :: data) in *.
  eexists. split; [exact Hk |].
  cbn [Kpis.recordCount Kpis.totalLearners Kpis.avgCompletion Kpis.totalHours
       Kpis.avgPostScore].
  assert (Hlen : (0 < List.length (Set_of (map traineeName l)))%nat).
  { destruct (Set_of (map traineeName l)) as [|n ns] eqn:E; [| simpl; lia].
    assert (Hin : In (traineeName d) (Set_of (map traineeName l)))
      by (apply Set_of_In; now left).
    rewrite E in Hin. destruct Hin. }
  pose proof (Set_of_length_le (map traineeName l)) as Hle.
  rewrite length_map in Hle.
  split; [reflexivity | split; [| split; [| split; [| split; [| split;
    [| split]]]]]].
  - exists (Set_of (map traineeName l)). split; [split |].
    + apply Set_of_NoDup.
    + intros n. rewrite Set_of_In, in_map_iff. split.
      * intros (r & Hn & Hr). exists r. auto.
      * intros (r & Hr & Hn). exists r. auto.
    + reflexivity.
  - unfold Set_size. lia.
  - now rewrite reduce_sum_Qsum.
  - apply reduce_sum_Qsum.
  - intros E. now rewrite E.
  - intros Hs. destruct (assessed l) as [|s0 ss] eqn:E; [now elim Hs |].
    now rewrite reduce_sum_Qsum.
  - intros lo hi Hb.
    apply (mean_bounds lo hi _ (map completionRate l)).
    + lia.
    + now rewrite length_map.
    + apply reduce_sum_Qsum.
    + intros x Hx. apply in_map_iff in Hx. destruct Hx as (r & <- & Hr).
      now apply Hb.
Qed.

Lemma calculateKpis_fields_of_nonempty_witness :
  exists k,
    ComparisonTool.calculateKpis sampleData = Some k
    /\ Kpis.recordCount k = 4
    /\ 1 <= Kpis.totalLearners k <= 4.
Proof.
  destruct (calculateKpis_fields_of_nonempty sampleData ltac:(discriminate))
    as (k & Hk & Hcount & _ & Hlearners & _).
  exists k. split; [exact Hk | split; [exact Hcount |]].
  rewrite Hcount in Hlearners. exact Hlearners.
Defined.

(** ** Groups *)

Lemma filterData_In (allData : list TrainingRecord) (group : GroupState.t)
    (r : TrainingRecord) :
  In r (ComparisonGroups.filterData allData group)
  <-> In r allData
      /\ exists c, GroupState.category group = Some c
                   /\ GroupState.value group <> ""
                   /\ ComparisonGroups.field c r = GroupState.value group.
Proof.
  unfold ComparisonGroups.filterData.
  destruct (GroupState.category group) as [c|].
  - destruct (truthy (GroupState.value group)) eqn:T; simpl negb; cbv iota.
    + apply truthy_nonempty in T. rewrite filter_In, String.eqb_eq. split.
      * intros [Hr Hf]. split; [exact Hr |]. exists c. auto.
      * intros (Hr & c' & Hc & _ & Hf). injection Hc as <-. auto.
    + split; [intros [] |]. intros (_ & c' & _ & Hv & _).
      apply truthy_nonempty in Hv. congruence.
  - split; [intros [] |]. intros (_ & c' & Hc & _). discriminate.
Qed.

(** X17. The records of a comparison group are the records whose field of
    the chosen category equals the chosen value, in input order; there is
    none while the category or the value is empty, so none after a change
    of category. The KPIs of the group count these records, and they are
    the all-zero structure exactly when there is no such record. Every
    non-empty value that the tool offers for a category, from the options
    of the dashboard, selects at least one record. *)
Theorem comparison_group_records :
  forall (allData : list TrainingRecord) (group : GroupState.t),
    let records := ComparisonGroups.filterData allData group in
    (forall r, In r records
               <-> In r allData
                   /\ exists c, GroupState.category group = Some c
                                /\ GroupState.value group <> ""
                                /\ ComparisonGroups.field c r
                                   = GroupState.value group)
    /\ (forall c, ComparisonGroups.filterData allData
                    (ComparisonGroups.handleCategoryChange c) = [])
    /\ (exists k, ComparisonTool.calculateKpis records = Some k
                  /\ Kpis.recordCount k = Z.of_nat (List.length records)
                  /\ (k = zeroKpis <-> records = []))
    /\ (forall c v,
          In v (ComparisonGroups.getOptionsForCategory (filterOptions allData)
                  (Some c)) ->
          v <> "" ->
          ComparisonGroups.filterData allData
            (ComparisonGroups.handleValueChange v
               (ComparisonGroups.handleCategoryChange (Some c))) <> []).
Proof.
  intros allData group records. subst records.
  split; [intros r; apply filterData_In | split; [| split]].
  - intros [c|]; reflexivity.
  - destruct (ComparisonGroups.filterData allData group) as [|d rest] eqn:E.
    + exists zeroKpis. split; [reflexivity | split; [reflexivity | tauto]].
    + pose proof (calculateKpis_fields d rest) as Hk. cbv zeta in Hk.
      eexists. split; [exact Hk | split; [reflexivity |]].
      split; [| discriminate].
      intros H. apply (f_equal Kpis.recordCount) in H.
      cbn [Kpis.recordCount zeroKpis] in H. simpl List.length in H. lia.
  - intros c v Hv Hne.
    unfold ComparisonGroups.getOptionsForCategory in Hv.
    apply filter_In in Hv. destruct Hv as [Hv _].
    assert (Hr : exists r, In r allData /\ ComparisonGroups.field c r = v).
    { destruct c; cbn [filterOptions FilterOptions.branches
                         FilterOptions.districtHeads FilterOptions.supervisors] in Hv;
        apply (proj1 (Set_of_In _ _)) in Hv; apply in_map_iff in Hv;
        destruct Hv as (r & Hf & Hr); exists r; auto. }
    destruct Hr as (r & Hr & Hf).
    assert (Hin : In r (ComparisonGroups.filterData allData
                          (ComparisonGroups.handleValueChange v
                             (ComparisonGroups.handleCategoryChange (Some c))))).
    { apply filterData_In. split; [exact Hr |]. exists c. simpl. auto. }
    intros E. rewrite E in Hin. destruct Hin.
Qed.

Lemma comparison_group_records_witness :
  ComparisonGroups.filterData sampleData
    (ComparisonGroups.handleValueChange "North"
       (ComparisonGroups.handleCategoryChange (Some ComparisonCategory.branch)))
  <> [].
Proof.
  destruct (comparison_group_records sampleData
              (ComparisonGroups.handleCategoryChange None)) as (_ & _ & _ & H).
  apply H; [left; reflexivity | discriminate].
Defined.

(* ================================================================== *)
(** * Proofs: filter options and date bounds *)
(* ================================================================== *)

Lemma dimension_all (values : list string) (v : string) :
  In v values ->
  ((List.length (Set_of values) =? 0)%nat || includes (Set_of values) v) = true.
Proof.
  intros H. apply orb_true_iff. right. apply includes_In, Set_of_In, H.
Qed.

Lemma filter_all_In {A : Type} (keep : A -> bool) (l : list A) :
  (forall x, In x l -> keep x = true) -> filter keep l = l.
Proof.
  induction l as [|x l IH]; intros H; [reflexivity |].
  simpl. rewrite (H x (or_introl eq_refl)), IH; [reflexivity |].
  intros y Hy. apply H. now right.
Qed.

Lemma filteredData_only (allData : list TrainingRecord) (f : Filters)
    (r : TrainingRecord) :
  In r (filteredData allData f) <-> In r allData /\ filterItem f r = true.
Proof. apply filter_In. Qed.

(** X18. The filter options hold every value once. Selecting every
    option of every dimension keeps all the records, and every branch,
    district head, supervisor and course that is offered selects at least
    one record when it is the only selection. *)
Theorem filterOptions_cover_the_data :
  forall allData : list TrainingRecord,
    let o := filterOptions allData in
    (NoDup (FilterOptions.branches o) /\ NoDup (FilterOptions.districtHeads o)
     /\ NoDup (FilterOptions.supervisors o) /\ NoDup (FilterOptions.courses o))
    /\ (forall r, In r allData ->
          In (branch r) (FilterOptions.branches o)
          /\ In (districtHead r) (FilterOptions.districtHeads o)
          /\ In (supervisor r) (FilterOptions.supervisors o)
          /\ In (courseTitle r) (FilterOptions.courses o)
          /\ In (CourseType_value (courseType r)) (FilterOptions.courseTypes o))
    /\ filteredData allData (everyOption o) = allData
    /\ (forall v,
          (In v (FilterOptions.branches o) ->
           filteredData allData
             {| branchFilter := [v]; districtHeadFilter := [];
                supervisorFilter := []; courseFilter := []; courseTypeFilter := [];
                timePeriodFilter := {| tp_start := None; tp_end := None |} |} <> [])
          /\ (In v (FilterOptions.districtHeads o) ->
              filteredData allData
                {| branchFilter := []; districtHeadFilter := [v];
                   supervisorFilter := []; courseFilter := []; courseTypeFilter := [];
                   timePeriodFilter := {| tp_start := None; tp_end := None |} |} <> [])
          /\ (In v (FilterOptions.supervisors o) ->
              filteredData allData
                {| branchFilter := []; districtHeadFilter := [];
                   supervisorFilter := [v]; courseFilter := []; courseTypeFilter := [];
                   timePeriodFilter := {| tp_start := None; tp_end := None |} |} <> [])
          /\ (In v (FilterOptions.courses o) ->
              filteredData allData
                {| branchFilter := []; districtHeadFilter := [];
                   supervisorFilter := []; courseFilter := [v]; courseTypeFilter := [];
                   timePeriodFilter := {| tp_start := None; tp_end := None |} |} <> [])).
Proof.
  intros allData o. subst o.
  assert (Hcover : forall r, In r allData ->
            In (branch r) (Set_of (map branch allData))
            /\ In (districtHead r) (Set_of (map districtHead allData))
            /\ In (supervisor r) (Set_of (map supervisor allData))
            /\ In (courseTitle r) (Set_of (map courseTitle allData))
            /\ In (CourseType_value (courseType r))
                  [CourseType_value Mandatory; CourseType_value Optional]).
  { intros r Hr. repeat split; try (apply Set_of_In, in_map, Hr).
    destruct (courseType r); simpl; auto. }
  split; [| split; [exact Hcover | split]].
  - cbn [filterOptions FilterOptions.branches FilterOptions.districtHeads
         FilterOptions.supervisors FilterOptions.courses].
    repeat split; apply Set_of_NoDup.
  - unfold filteredData. apply filter_all_In.
    intros x Hx. destruct (Hcover x Hx) as (Hb & Hd & Hs & Hc & Ht).
    unfold filterItem, everyOption. cbv zeta.
    cbn [branchFilter districtHeadFilter supervisorFilter courseFilter
         courseTypeFilter timePeriodFilter tp_start tp_end filterOptions
         FilterOptions.branches FilterOptions.districtHeads
         FilterOptions.supervisors FilterOptions.courses
         FilterOptions.courseTypes].
    apply includes_In in Hb, Hd, Hs, Hc, Ht.
    rewrite Hb, Hd, Hs, Hc, Ht, !orb_true_r. reflexivity.
  - intros v.
    cbn [filterOptions FilterOptions.branches FilterOptions.districtHeads
         FilterOptions.supervisors FilterOptions.courses].
    repeat split; intros Hv; apply (proj1 (Set_of_In _ _)) in Hv;
      apply in_map_iff in Hv; destruct Hv as (r & Hf & Hr);
      intros E;
      match type of E with
      | filteredData _ ?f = [] =>
          assert (Hin : In r (filteredData allData f));
            [apply filteredData_only; split; [exact Hr |];
             unfold filterItem; cbv zeta;
             cbn [branchFilter districtHeadFilter supervisorFilter courseFilter
                  courseTypeFilter timePeriodFilter tp_start tp_end];
             simpl; rewrite Hf, String.eqb_refl; reflexivity
            | rewrite E in Hin; destruct Hin]
      end.
Qed.

Lemma filterOptions_cover_the_data_witness :
  filteredData sampleData
    {| branchFilter := ["North"%string]; districtHeadFilter := [];
       supervisorFilter := []; courseFilter := []; courseTypeFilter := [];
       timePeriodFilter := {| tp_start := None; tp_end := None |} |} <> [].
Proof.
  destruct (filterOptions_cover_the_data sampleData) as (_ & _ & _ & H).
  destruct (H "North"%string) as (Hb & _). apply Hb. left. reflexivity.
Defined.

(** X19. A date bound that is an invalid date, and a start bound after the
    end bound, leave no record; with any date bound set, no record with an
    invalid completion date is left. *)
Theorem filteredData_date_bound_edges :
  forall (allData : list TrainingRecord) (f : Filters),
    (forall s, tp_start (timePeriodFilter f) = Some s -> getTime s = None ->
               filteredData allData f = [])
    /\ (forall e, tp_end (timePeriodFilter f) = Some e -> getTime e = None ->
                  filteredData allData f = [])
    /\ (forall s e ts te,
          tp_start (timePeriodFilter f) = Some s ->
          tp_end (timePeriodFilter f) = Some e ->
          getTime s = Some ts -> getTime e = Some te -> te < ts ->
          filteredData allData f = [])
    /\ (forall r, In r (filteredData allData f) ->
          tp_start (timePeriodFilter f) <> None
          \/ tp_end (timePeriodFilter f) <> None ->
          getTime (completionDate r) <> None).
Proof.
  intros allData f.
  assert (Hnone : forall p : TrainingRecord -> bool,
            (forall r, p r = false) -> filter p allData = []).
  { intros p Hp. induction allData as [|r l IH]; [reflexivity |].
    simpl. now rewrite Hp. }
  split; [| split; [| split]].
  - intros s Hs Ht. apply Hnone. intros r. unfold filterItem. cbv zeta.
    rewrite Hs. unfold date_ge. rewrite Ht.
    destruct (getTime (completionDate r)); rewrite !andb_false_r;
      try rewrite andb_false_l; reflexivity.
  - intros e He Ht. apply Hnone. intros r. unfold filterItem. cbv zeta.
    rewrite He. unfold date_le. rewrite Ht.
    destruct (getTime (completionDate r)); now rewrite !andb_false_r.
  - intros s e ts te Hs He Hts Hte Hlt. apply Hnone. intros r.
    unfold filterItem. cbv zeta. rewrite Hs, He. unfold date_ge, date_le.
    rewrite Hts, Hte. destruct (getTime (completionDate r)) as [t|].
    + destruct (Z.leb_spec ts t); destruct (Z.leb_spec t te);
        rewrite ?andb_false_r; try reflexivity; lia.
    + now rewrite !andb_false_r.
  - intros r Hr Hset E. apply filteredData_only in Hr. destruct Hr as [_ Hr].
    unfold filterItem in Hr. cbv zeta in Hr.
    unfold date_ge, date_le in Hr. rewrite E in Hr.
    destruct (tp_start (timePeriodFilter f)) as [s|];
      [now rewrite !andb_false_r in Hr |].
    destruct (tp_end (timePeriodFilter f)) as [e|];
      [now rewrite !andb_false_r in Hr |].
    destruct Hset as [H | H]; now elim H.
Qed.

Lemma filteredData_date_bound_edges_witness :
  filteredData sampleData
    {| branchFilter := []; districtHeadFilter := []; supervisorFilter := [];
       courseFilter := []; courseTypeFilter := [];
       timePeriodFilter := {| tp_start := Some (MkDate (Some 5));
                              tp_end := Some (MkDate (Some 1)) |} |} = [].
Proof.
  destruct (filteredData_date_bound_edges sampleData
              {| branchFilter := []; districtHeadFilter := []; supervisorFilter := [];
                 courseFilter := []; courseTypeFilter := [];
                 timePeriodFilter := {| tp_start := Some (MkDate (Some 5));
                                        tp_end := Some (MkDate (Some 1)) |} |})
    as (_ & _ & H & _).
  apply (H (MkDate (Some 5)) (MkDate (Some 1)) 5 1); reflexivity.
Defined.

(* ================================================================== *)
(** * Proofs: course analysis *)
(* ================================================================== *)

Lemma filter_Boolean_Some {A B : Type} (f : A -> B) (g : A -> option B)
    (l : list A) :
  (forall x, In x l -> g x = Some (f x)) ->
  filter_Boolean (map g l) = map f l.
Proof.
  induction l as [|x l IH]; intros H; [reflexivity |].
  unfold filter_Boolean in *. simpl. rewrite (H x (or_introl eq_refl)).
  simpl. f_equal. apply IH. intros y Hy. apply H. now right.
Qed.

Lemma reduce_sum_mean {A : Type} (f : A -> Q) (l : list A) :
  (reduce_sum f l / inject_Z (Z.of_nat (List.length l)))%Q = mean (map f l).
Proof.
  unfold reduce_sum, mean. now rewrite fold_left_Qplus_map, length_map.
Qed.




Section FirstFive.
Context {R : Type}.
Variable score : R -> Q.

End FirstFive.



(** ** Clicks on the charts *)

Lemma isAlreadyFiltered_iff (selection : list string) (clicked : string) :
  CourseAnalysis.isAlreadyFiltered selection clicked = true
  <-> selection = [clicked].
Proof.
  unfold CourseAnalysis.isAlreadyFiltered.
  destruct selection as [|a [|b l]]; simpl.
  - split; discriminate.
  - rewrite String.eqb_eq. split; congruence.
  - split; discriminate.
Qed.

(** X21. A click on a course, or on a course type, sets the selection of
    that dimension to the clicked value alone, unless the selection is
    already the clicked value alone: then it clears it. The other
    dimensions and the date bounds are kept, and a click without a name
    changes nothing. From an empty course selection the click narrows the
    filtered records to the records of the course and a second click
    restores them; from a selection of several courses two clicks leave
    no course selected. *)
Theorem chart_click_toggles_selection :
  forall (allData : list TrainingRecord) (f : Filters) (clicked : string),
    CourseAnalysis.handleCourseClick "" f = f
    /\ CourseAnalysis.handleCourseTypeClick "" f = f
    /\ (clicked <> "" ->
        let f1 := CourseAnalysis.handleCourseClick clicked f in
        let t1 := CourseAnalysis.handleCourseTypeClick clicked f in
        courseFilter f1 = (if list_eq_dec string_dec (courseFilter f) [clicked]
                           then [] else [clicked])
        /\ courseTypeFilter t1
           = (if list_eq_dec string_dec (courseTypeFilter f) [clicked]
              then [] else [clicked])
        /\ CourseAnalysis.withCourseFilter f1 (courseFilter f) = f
        /\ CourseAnalysis.withCourseTypeFilter t1 (courseTypeFilter f) = f
        /\ (courseFilter f = [] ->
            filteredData allData f1
            = filter (fun r => String.eqb (courseTitle r) clicked)
                     (filteredData allData f)
            /\ CourseAnalysis.handleCourseClick clicked f1 = f)
        /\ (courseFilter f <> [clicked] ->
            courseFilter (CourseAnalysis.handleCourseClick clicked f1) = [])).
Proof.
  intros allData f clicked. split; [reflexivity | split; [reflexivity |]].
  intros Hne f1 t1. subst f1 t1.
  unfold CourseAnalysis.handleCourseClick, CourseAnalysis.handleCourseTypeClick.
  apply truthy_nonempty in Hne. rewrite Hne. simpl negb. cbv iota.
  assert (Hc : forall sel,
             (if CourseAnalysis.isAlreadyFiltered sel clicked
              then @nil string else [clicked])
             = if list_eq_dec string_dec sel [clicked] then [] else [clicked]).
  { intros sel. destruct (list_eq_dec string_dec sel [clicked]) as [E | E].
    - apply isAlreadyFiltered_iff in E. now rewrite E.
    - destruct (CourseAnalysis.isAlreadyFiltered sel clicked) eqn:E';
        [apply isAlreadyFiltered_iff in E'; contradiction | reflexivity]. }
  split; [| split; [| split; [| split; [| split]]]].
  - rewrite <- Hc.
    now destruct (CourseAnalysis.isAlreadyFiltered (courseFilter f) clicked).
  - rewrite <- Hc.
    now destruct (CourseAnalysis.isAlreadyFiltered (courseTypeFilter f) clicked).
  - destruct f.
    now destruct (CourseAnalysis.isAlreadyFiltered _ clicked).
  - destruct f.
    now destruct (CourseAnalysis.isAlreadyFiltered _ clicked).
  - intros Hempty. rewrite Hempty.
    change (CourseAnalysis.isAlreadyFiltered [] clicked) with false.
    cbv iota. split.
    + unfold filteredData. induction allData as [|r l IH]; [reflexivity |].
      assert (Hr : filterItem (CourseAnalysis.withCourseFilter f [clicked]) r
                   = filterItem f r && String.eqb (courseTitle r) clicked).
      { unfold filterItem. cbv zeta.
        cbn [CourseAnalysis.withCourseFilter branchFilter districtHeadFilter
             supervisorFilter courseFilter courseTypeFilter timePeriodFilter].
        rewrite Hempty. simpl. rewrite orb_false_r.
        destruct (String.eqb (courseTitle r) clicked).
        - now rewrite !andb_true_r.
        - rewrite !andb_false_r. reflexivity. }
      simpl filter. rewrite Hr.
      destruct (filterItem f r); simpl;
        destruct (String.eqb (courseTitle r) clicked); simpl; rewrite IH;
        reflexivity.
    + cbn [CourseAnalysis.withCourseFilter courseFilter].
      assert (Ht : CourseAnalysis.isAlreadyFiltered [clicked] clicked = true)
        by now apply isAlreadyFiltered_iff.
      rewrite Ht. destruct f. simpl in Hempty. subst. reflexivity.
  - intros Hsel.
    destruct (CourseAnalysis.isAlreadyFiltered (courseFilter f) clicked) eqn:E;
      [apply isAlreadyFiltered_iff in E; contradiction |].
    cbn [CourseAnalysis.withCourseFilter courseFilter].
    assert (Ht : CourseAnalysis.isAlreadyFiltered [clicked] clicked = true)
      by now apply isAlreadyFiltered_iff.
    rewrite Ht. reflexivity.
Qed.

Lemma chart_click_toggles_selection_witness :
  filteredData sampleData (CourseAnalysis.handleCourseClick "Safety" initialFilters)
  = filter (fun r => String.eqb (courseTitle r) "Safety")
           (filteredData sampleData initialFilters)
  /\ CourseAnalysis.handleCourseClick "Safety"
       (CourseAnalysis.handleCourseClick "Safety" initialFilters)
     = initialFilters.
Proof.
  destruct (chart_click_toggles_selection sampleData initialFilters "Safety")
    as (_ & _ & H).
  destruct (H ltac:(discriminate)) as (_ & _ & _ & _ & Hclick & _).
  apply Hclick. reflexivity.
Defined.

(** ** Course types *)

Lemma nodup_length_le (l : list Z) :
  (List.length (nodup Z.eq_dec l) <= List.length l)%nat.
Proof.
  induction l as [|x l IH]; simpl; [lia |].
  destruct (in_dec Z.eq_dec x l); simpl; lia.
Qed.

Lemma filter_by_type_length (data : list TrainingRecord) :
  (List.length (filter (fun d => match courseType d with
                                 | Mandatory => true
                                 | Optional => false
                                 end) data)
   + List.length (filter (fun d => match courseType d with
                                   | Optional => true
                                   | Mandatory => false
                                   end) data)
   = List.length data)%nat.
Proof.
  induction data as [|d l IH]; [reflexivity |].
  simpl. destruct (courseType d); simpl; lia.
Qed.

(** X22. The course type distribution has a row for "Mandatory" and a row
    for "Optional", in this order. Each counts at most the records of its
    type, and exactly these records when no two records share an id; the
    two counts then add up to the number of records. *)
Theorem courseTypeData_counts :
  forall data : list TrainingRecord,
    exists mandatoryCount optionalCount,
      CourseAnalysis.courseTypeData data
      = [ {| CourseTypeCount.name := "Mandatory";
             CourseTypeCount.trainingRecords := mandatoryCount |};
          {| CourseTypeCount.name := "Optional";
             CourseTypeCount.trainingRecords := optionalCount |} ]
      /\ 0 <= mandatoryCount /\ 0 <= optionalCount
      /\ mandatoryCount + optionalCount <= Z.of_nat (List.length data)
      /\ (NoDup (map id data) ->
          mandatoryCount
          = Z.of_nat (List.length
                        (filter (fun d => CourseType_value (courseType d)
                                          =? "Mandatory")%string data))
          /\ optionalCount
             = Z.of_nat (List.length
                           (filter (fun d => CourseType_value (courseType d)
                                             =? "Optional")%string data))
          /\ mandatoryCount + optionalCount = Z.of_nat (List.length data)).
Proof.
  intros data. unfold CourseAnalysis.courseTypeData. cbv zeta.
  set (isM := fun d => match courseType d with
                       | Mandatory => true | Optional => false end).
  set (isO := fun d => match courseType d with
                       | Optional => true | Mandatory => false end).
  eexists. eexists. split; [reflexivity |].
  pose proof (nodup_length_le (map id (filter isM data))) as HM.
  pose proof (nodup_length_le (map id (filter isO data))) as HO.
  rewrite length_map in HM, HO.
  pose proof (filter_by_type_length data) as Hsum. fold isM isO in Hsum.
  unfold Set_size_of_numbers.
  split; [lia | split; [lia | split; [lia |]]].
  intros Hnd.
  rewrite (nodup_fixed_point Z.eq_dec (NoDup_map_filter id isM data Hnd)).
  rewrite (nodup_fixed_point Z.eq_dec (NoDup_map_filter id isO data Hnd)).
  rewrite !length_map.
  assert (EM : filter (fun d => (CourseType_value (courseType d) =? "Mandatory")%string)
                 data = filter isM data).
  { apply filter_ext. intros d. unfold isM. destruct (courseType d); reflexivity. }
  assert (EO : filter (fun d => (CourseType_value (courseType d) =? "Optional")%string)
                 data = filter isO data).
  { apply filter_ext. intros d. unfold isO. destruct (courseType d); reflexivity. }
  rewrite EM, EO. repeat split. lia.
Qed.

Lemma courseTypeData_counts_witness :
  exists mandatoryCount optionalCount,
    CourseAnalysis.courseTypeData [kpiRecord 50 60]
    = [ {| CourseTypeCount.name := "Mandatory";
           CourseTypeCount.trainingRecords := mandatoryCount |};
        {| CourseTypeCount.name := "Optional";
           CourseTypeCount.trainingRecords := optionalCount |} ]
    /\ mandatoryCount + optionalCount = 1.
Proof.
  destruct (courseTypeData_counts [kpiRecord 50 60])
    as (m & o & E & _ & _ & _ & H).
  exists m, o. split; [exact E |].
  destruct H as (_ & _ & H); [repeat constructor; intros [] | exact H].
Defined.

(* ================================================================== *)
(** * Proofs: learner performance *)
(* ================================================================== *)

Lemma completed_filter (allData : list TrainingRecord) (e : string) :
  truthy e = true ->
  filter (fun d => String.eqb (email d) e && Qgtb (postAssessmentScore d) 0) allData
  = filter (scoredFor e) allData.
Proof.
  intros _. apply filter_ext. intros d. unfold scoredFor. apply andb_comm.
Qed.

Lemma counted_filter (allData : list TrainingRecord) (e : string) :
  truthy e = true ->
  groupOf countedTrainee email e allData = filter (scoredFor e) allData.
Proof.
  intros He. unfold groupOf. apply filter_ext. intros d.
  unfold countedTrainee, scoredFor.
  destruct (String.eqb_spec (email d) e) as [-> | _].
  - rewrite He. now rewrite !andb_true_r.
  - now rewrite !andb_false_r.
Qed.

(** X23. The average score of a learner is 0 when the learner has no record
    with a positive post-assessment score (and when no email is selected),
    and the mean of these positive scores otherwise, which is positive. The
    learner performance page and the Top Trainees leaderboard agree on
    the same records: the average score of a Top Trainees row is the
    average score of the learner with the email of the row, rounded to
    one decimal, and its course count the number of completed courses of
    that learner. *)
Theorem learnerAverageScore_agrees_with_topTrainees :
  forall (allData : list TrainingRecord),
    LearnerPerformance.learnerAverageScore allData "" = 0%Q
    /\ (forall e,
          LearnerPerformance.completedCoursesData allData e = [] ->
          LearnerPerformance.learnerAverageScore allData e = 0%Q)
    /\ (forall e,
          LearnerPerformance.completedCoursesData allData e <> [] ->
          e <> ""
          /\ LearnerPerformance.learnerAverageScore allData e
             = mean (map postAssessmentScore (filter (scoredFor e) allData))
          /\ (0 < LearnerPerformance.learnerAverageScore allData e)%Q)
    /\ (forall row, In row (Leaderboard.topTrainees allData) ->
          TraineeRow.avgScore row
          = parseFloat_toFixed
              (LearnerPerformance.learnerAverageScore allData (TraineeRow.email row)) 1
          /\ TraineeRow.courseCount row
             = Z.of_nat (List.length
                           (LearnerPerformance.completedCoursesData allData
                              (TraineeRow.email row)))).
Proof.
  intros allData.
  assert (Havg : forall e, truthy e = true ->
            filter (scoredFor e) allData <> [] ->
            LearnerPerformance.learnerAverageScore allData e
            = mean (map postAssessmentScore (filter (scoredFor e) allData))).
  { intros e He Hne. unfold LearnerPerformance.learnerAverageScore. cbv zeta.
    unfold LearnerPerformance.completedCoursesData. rewrite He. simpl negb. cbv iota.
    rewrite (completed_filter allData e He).
    destruct (Z.eqb_spec
                (Z.of_nat (List.length
                   (map (fun d =>
                           {| CompletedCourse.courseTitle := courseTitle d;
                              CompletedCourse.completionDate := completionDate d;
                              CompletedCourse.postAssessmentScore :=
                                postAssessmentScore d |})
                        (filter (scoredFor e) allData)))) 0) as [E | _].
    - rewrite length_map in E.
      destruct (filter (scoredFor e) allData); [now elim Hne | simpl in E; lia].
    - rewrite reduce_sum_mean, map_map. reflexivity. }
  split; [reflexivity | split; [| split]].
  - intros e E. unfold LearnerPerformance.learnerAverageScore. cbv zeta.
    now rewrite E.
  - intros e Hne. unfold LearnerPerformance.completedCoursesData in Hne.
    destruct (truthy e) eqn:He; simpl negb in Hne; cbv iota in Hne;
      [| now elim Hne].
    rewrite (completed_filter allData e He) in Hne.
    assert (Hne' : filter (scoredFor e) allData <> []).
    { intros E. rewrite E in Hne. now apply Hne. }
    split; [now apply truthy_nonempty | split; [now apply Havg |]].
    rewrite (Havg e He Hne'). unfold mean.
    set (F := filter (scoredFor e) allData) in *.
    assert (Hpos : forall d, In d F -> (0 < postAssessmentScore d)%Q).
    { intros d Hd. apply filter_In in Hd. destruct Hd as [_ Hd].
      unfold scoredFor in Hd. apply andb_true_iff in Hd. now apply Qgtb_gt. }
    assert (Hsum : forall l acc, (forall d, In d l -> (0 < postAssessmentScore d)%Q) ->
               (0 <= acc)%Q -> l <> [] ->
               (0 < fold_left Qplus (map postAssessmentScore l) acc)%Q).
    { clear. intros l. induction l as [|d l IH]; intros acc Hl Hacc Hne;
        [now elim Hne |].
      simpl. pose proof (Hl d (or_introl eq_refl)) as Hd.
      destruct l as [|d' l'].
      - simpl. lra.
      - apply IH; [intros x Hx; apply Hl; now right | lra | discriminate]. }
    apply Qlt_shift_div_l.
    + rewrite length_map. destruct F; [now elim Hne' |].
      change 0%Q with (inject_Z 0). rewrite <- Zlt_Qlt. simpl List.length. lia.
    + rewrite Qmult_0_l. apply Hsum; [exact Hpos | lra | exact Hne'].
  - intros row Hrow.
    pose proof (topTrainees_row_counts allData row Hrow) as Hcount.
    apply topTrainees_row in Hrow. destruct Hrow as (s & Hs & _ & Hscore).
    unfold traineeScore_of in Hs.
    destruct (filter (scoredFor (TraineeRow.email row)) allData) as [|d0 rest] eqn:EF;
      [discriminate |].
    destruct (truthy (TraineeRow.email row)) eqn:He; [| discriminate].
    injection Hs as <-.
    cbn [TraineeScore.totalScore TraineeScore.count] in Hscore.
    split.
    + rewrite Hscore, (Havg _ He) by (rewrite EF; discriminate).
      rewrite EF. unfold mean. rewrite length_map. reflexivity.
    + destruct Hcount as (first & rest' & Hg & _ & Hc). rewrite Hc, <- Hg.
      rewrite (counted_filter allData _ He).
      unfold LearnerPerformance.completedCoursesData. rewrite He. simpl negb.
      cbv iota. rewrite length_map, (completed_filter allData _ He). reflexivity.
Qed.

Lemma learnerAverageScore_agrees_with_topTrainees_witness :
  "ann@x.com"%string <> ""%string
  /\ (0 < LearnerPerformance.learnerAverageScore sampleData "ann@x.com")%Q.
Proof.
  destruct (learnerAverageScore_agrees_with_topTrainees sampleData)
    as (_ & _ & H & _).
  destruct (H "ann@x.com"%string ltac:(discriminate)) as (H1 & _ & H2).
  split; [exact H1 | exact H2].
Defined.

(* ================================================================== *)
(** * Proofs: loading the sheet *)
(* ================================================================== *)

Lemma split_char_nonempty (sep : ascii) (s : string) : split_char sep s <> [].
Proof.
  destruct s as [|c rest]; simpl; [discriminate |].
  destruct (Ascii.eqb c sep); [discriminate |].
  destruct (split_char sep rest); discriminate.
Qed.



Lemma split_char_no_sep (sep : ascii) (s piece : string) :
  In piece (split_char sep s) -> count_char sep piece = 0%nat.
Proof.
  revert piece. induction s as [|c rest IH]; intros piece; simpl.
  - intros [<- | []]. reflexivity.
  - destruct (Ascii.eqb c sep) eqn:Ec.
    + intros [<- | H]; [reflexivity | now apply IH].
    + destruct (split_char sep rest) as [|first others] eqn:E;
        [now apply split_char_nonempty in E |].
      intros [<- | H].
      * simpl. rewrite Ec. apply IH. now left.
      * apply IH. now right.
Qed.

Section SheetFacts.
Variable trim : string -> string.
Variable parseFloat : string -> option Q.
Variable parseDate : string -> Date.
Variable now : Z -> Z.





End SheetFacts.





(* ================================================================== *)
(** * Proofs: the multi-select filter *)
(* ================================================================== *)

(** X26. Choosing an option in a multi-select changes whether that option
    is selected and nothing else; it keeps a selection without
    repetitions so, and choosing an option that was not selected twice
    gives the selection back. With a selection without repetitions among
    options without repetitions, "select all" clears the selection when
    every option is selected and selects every option otherwise. *)
Theorem multiSelect_toggles :
  forall (options selected : list string) (option : string),
    (In option (MultiSelectFilter.handleSelect selected option)
     <-> ~ In option selected)
    /\ (forall x, x <> option ->
          (In x (MultiSelectFilter.handleSelect selected option) <-> In x selected))
    /\ (NoDup selected -> NoDup (MultiSelectFilter.handleSelect selected option))
    /\ (NoDup selected -> ~ In option selected ->
        MultiSelectFilter.handleSelect
          (MultiSelectFilter.handleSelect selected option) option = selected)
    /\ (NoDup selected -> NoDup options -> incl selected options ->
        (incl options selected ->
         MultiSelectFilter.handleSelectAll options selected = [])
        /\ (~ incl options selected ->
            MultiSelectFilter.handleSelectAll options selected = options)).
Proof.
  intros options selected option. unfold MultiSelectFilter.handleSelect.
  split; [| split; [| split; [| split]]].
  - destruct (includes selected option) eqn:E.
    + apply includes_In in E. rewrite filter_In, String.eqb_refl. simpl.
      split; [intros [_ H]; discriminate | intros H; contradiction].
    + apply includes_false in E. rewrite in_app_iff. simpl. tauto.
  - intros x Hx. destruct (includes selected option) eqn:E.
    + rewrite filter_In. destruct (String.eqb_spec x option); [contradiction |].
      simpl. tauto.
    + rewrite in_app_iff. simpl. split; [intros [H | [H | []]] | tauto];
        [exact H | now elim Hx].
  - intros Hnd. destruct (includes selected option) eqn:E.
    + now apply NoDup_filter.
    + apply includes_false in E.
      apply (Permutation_NoDup (l := option :: selected));
        [apply Permutation_cons_append | now constructor].
  - intros Hnd Hnot. apply includes_false in Hnot. rewrite Hnot.
    assert (Hin : includes (selected ++ [option]) option = true)
      by (apply includes_In, in_or_app; right; now left).
    rewrite Hin, filter_app. simpl. rewrite String.eqb_refl. simpl.
    rewrite app_nil_r. apply filter_all_In.
    intros x Hx. apply includes_false in Hnot.
    destruct (String.eqb_spec x option) as [-> | _]; [contradiction | reflexivity].
  - intros Hs Ho Hincl. unfold MultiSelectFilter.handleSelectAll. split.
    + intros Hall.
      pose proof (NoDup_incl_length Hs Hincl). pose proof (NoDup_incl_length Ho Hall).
      destruct (Nat.eqb_spec (List.length selected) (List.length options));
        [reflexivity | lia].
    + intros Hnot.
      destruct (Nat.eqb_spec (List.length selected) (List.length options)) as [E | _];
        [| reflexivity].
      elim Hnot. apply (NoDup_length_incl Hs); [lia | exact Hincl].
Qed.

Lemma multiSelect_toggles_witness :
  MultiSelectFilter.handleSelect
    (MultiSelectFilter.handleSelect ["North"]%string "South") "South"
  = ["North"]%string
  /\ MultiSelectFilter.handleSelectAll ["North"; "South"]%string ["North"]%string
     = ["North"; "South"]%string.
Proof.
  destruct (multiSelect_toggles ["North"; "South"]%string ["North"]%string
              "South"%string) as (_ & _ & _ & Htwice & Hall).
  split.
  - apply Htwice; [repeat constructor; intros [] |].
    intros [H | []]. discriminate.
  - apply Hall.
    + repeat constructor; intros [].
    + repeat constructor; simpl; intuition discriminate.
    + intros x [<- | []]. now left.
    + intros H. destruct (H "South"%string) as [E | []];
        [right; now left | discriminate].
Defined.

(* ================================================================== *)
(** * Proofs: the overview *)
(* ================================================================== *)

Lemma inactive_count (data : list TrainingRecord) :
  Set_size (Set_of (map traineeName data))
  - Set_size (Set_of (map traineeName
                        (filter (fun d => Qgtb (completionRate d) 0) data)))
  = Z.of_nat (List.length (filter (inactiveIn data)
                             (Set_of (map traineeName data))))
  /\ (List.length (Set_of (map traineeName
                             (filter (fun d => Qgtb (completionRate d) 0) data)))
      <= List.length (Set_of (map traineeName data)))%nat.
Proof.
  set (N := Set_of (map traineeName data)).
  set (A := Set_of (map traineeName
                      (filter (fun d => Qgtb (completionRate d) 0) data))).
  assert (HA : forall n, In n A
                         <-> exists d, In d data /\ traineeName d = n
                                       /\ Qgtb (completionRate d) 0 = true).
  { intros n. unfold A. rewrite Set_of_In, in_map_iff. split.
    - intros (d & Hn & Hd). apply filter_In in Hd. exists d. tauto.
    - intros (d & Hd & Hn & Hc). exists d. split; [exact Hn |].
      apply filter_In. auto. }
  assert (Hsub : forall n, In n A -> In n N).
  { intros n Hn. apply HA in Hn. destruct Hn as (d & Hd & <- & _).
    unfold N. apply Set_of_In, in_map, Hd. }
  assert (Hext : filter (inactiveIn data) N
                 = filter (fun n => negb (includes A n)) N).
  { apply filter_ext. intros n. unfold inactiveIn. f_equal.
    destruct (includes A n) eqn:E.
    - apply includes_In, HA in E. destruct E as (d & Hd & Hn & Hc).
      apply existsb_exists. exists d. split; [exact Hd |].
      rewrite Hc, andb_true_r. now apply String.eqb_eq.
    - apply includes_false in E. apply not_true_is_false. intros H.
      apply existsb_exists in H. destruct H as (d & Hd & H).
      apply andb_true_iff in H. destruct H as [Hn Hc].
      apply String.eqb_eq in Hn. apply E, HA. exists d. auto. }
  assert (Hlen : List.length (filter (includes A) N) = List.length A).
  { apply Permutation_length, NoDup_Permutation.
    - apply NoDup_filter, Set_of_NoDup.
    - apply Set_of_NoDup.
    - intros n. rewrite filter_In, includes_In. split; [tauto |].
      intros H. split; [now apply Hsub | exact H]. }
  pose proof (filter_length (includes A) N) as Hsum.
  rewrite Hext. unfold Set_size. split; lia.
Qed.

(** X27. The overview of no record is all zeros. Otherwise the total
    learners, the average completion and the improvement are those of the
    comparison KPIs of the same records, the last two rounded to the
    nearest integer. The active learners are at most the total learners,
    and the inactive learners are the distinct trainees without any record
    of a positive completion rate. When the records are all the records,
    the change against the company average is shown in the neutral
    colour. *)
Theorem overview_stats_agree_with_kpis :
  forall (toFixed1 : Q -> string) (data allData : list TrainingRecord),
    let s := Overview.stats toFixed1 data allData in
    (data = [] ->
     OverviewStats.totalLearners s = 0 /\ OverviewStats.avgCompletion s = 0
     /\ OverviewStats.activeLearners s = 0 /\ OverviewStats.improvement s = 0
     /\ OverviewStats.changeText s = "N/A"%string)
    /\ (data <> [] ->
        exists k,
          ComparisonTool.calculateKpis data = Some k
          /\ OverviewStats.totalLearners s = Kpis.totalLearners k
          /\ OverviewStats.avgCompletion s = Math_round (Kpis.avgCompletion k)
          /\ OverviewStats.improvement s = Math_round (Kpis.improvement k))
    /\ 0 <= OverviewStats.activeLearners s <= OverviewStats.totalLearners s
    /\ OverviewStats.inactiveLearners s
       = Z.of_nat (List.length (filter (inactiveIn data)
                                  (Set_of (map traineeName data))))
    /\ (data = allData -> OverviewStats.changeColor s = text_gray).
Proof.
  intros toFixed1 data allData s. subst s.
  destruct data as [|d data].
  - split; [intros _; repeat split | split; [intros H; now elim H |]].
    split; [simpl; lia | split; [reflexivity | reflexivity]].
  - set (l := d :: data).
    assert (Hs : (Z.of_nat (List.length l) =? 0) = false)
      by (apply Z.eqb_neq; simpl; lia).
    unfold Overview.stats. rewrite Hs. cbv zeta.
    cbn [OverviewStats.totalLearners OverviewStats.avgCompletion
         OverviewStats.activeLearners OverviewStats.inactiveLearners
         OverviewStats.improvement OverviewStats.changeText
         OverviewStats.changeColor].
    destruct (inactive_count l) as [Hinactive Hle].
    split; [intros H; discriminate | split; [| split; [| split]]].
    + intros _. pose proof (calculateKpis_fields d data) as Hk. cbv zeta in Hk.
      eexists. split; [exact Hk |]. repeat split.
    + unfold Set_size. lia.
    + exact Hinactive.
    + intros <-. unfold Overview.companyAvgs. rewrite Hs.
      set (avg := (reduce_sum completionRate l
                   / inject_Z (Z.of_nat (List.length l)))%Q).
      assert (H1 : Qgtb (avg - avg) (1 # 10) = false).
      { apply Qltb_ge. lra. }
      assert (H2 : Qltb (avg - avg) (- (1 # 10)) = false).
      { apply Qltb_ge. lra. }
      now rewrite H1, H2.
Qed.

Lemma overview_stats_agree_with_kpis_witness :
  OverviewStats.changeColor (Overview.stats (fun _ => ""%string) sampleData sampleData)
  = text_gray.
Proof.
  destruct (overview_stats_agree_with_kpis (fun _ => ""%string) sampleData sampleData)
    as (_ & _ & _ & _ & H).
  apply H. reflexivity.
Defined.

(** X28. For [days >= 1] the trend of a key has no point or between 2 and
    [days] points. With at least two records and [days >= 2] it holds the
    values of the key of the last [days] records, or of all of them when
    there are fewer, in the order of the sort by completion date, which is
    the order of the dates when every date is valid. *)
Theorem getTrendData_points :
  forall (A : Type) (time : A -> option Z) (key : A -> Q)
         (records : list A) (days : Z),
    1 <= days ->
    let out := Overview.getTrendData time key records days in
    let sorted := sort (Overview.byDate time) records in
    (out = [] \/ 2 <= Z.of_nat (List.length out) <= days)
    /\ ((List.length records < 2)%nat -> out = [])
    /\ ((2 <= List.length records)%nat -> 2 <= days ->
        out = map key (skipn (List.length records - Z.to_nat days) sorted)
        /\ List.length out = Nat.min (Z.to_nat days) (List.length records))
    /\ Permutation sorted records
    /\ ((forall r, In r records -> time r <> None) ->
        forall i j a b, (i < j)%nat ->
          nth_error sorted i = Some a -> nth_error sorted j = Some b ->
          exists ta tb, time a = Some ta /\ time b = Some tb /\ ta <= tb).
Proof.
  intros A time key records days Hdays out sorted. subst out.
  unfold Overview.getTrendData. fold sorted. cbv zeta.
  assert (Hlen : List.length sorted = List.length records)
    by apply sort_length.
  assert (Hslice : slice sorted (- days) (Z.of_nat (List.length sorted))
                   = skipn (List.length records - Z.to_nat days) sorted).
  { unfold slice. destruct (Z.ltb_spec (- days) 0) as [_ | H]; [| lia].
    destruct (Z.ltb_spec (Z.of_nat (List.length sorted)) 0) as [H | _]; [lia |].
    rewrite Z.min_id.
    replace (Z.to_nat (Z.max (Z.of_nat (List.length sorted) + - days) 0))
      with (List.length records - Z.to_nat days)%nat by lia.
    apply firstn_all2. rewrite length_skipn. lia. }
  rewrite Hslice, Hlen.
  assert (Hout : List.length (map key (skipn (List.length records - Z.to_nat days)
                                         sorted))
                 = Nat.min (Z.to_nat days) (List.length records)).
  { rewrite length_map, length_skipn. lia. }
  split; [| split; [| split; [| split]]].
  - destruct (Z.ltb_spec (Z.of_nat (List.length records)) 2); [now left |].
    destruct (Z.ltb_spec 1 (Z.of_nat (List.length
                (map key (skipn (List.length records - Z.to_nat days) sorted)))));
      [right; lia | now left].
  - intros H. destruct (Z.ltb_spec (Z.of_nat (List.length records)) 2);
      [reflexivity | lia].
  - intros Hn Hd. destruct (Z.ltb_spec (Z.of_nat (List.length records)) 2); [lia |].
    destruct (Z.ltb_spec 1 (Z.of_nat (List.length
                (map key (skipn (List.length records - Z.to_nat days) sorted)))));
      [split; [reflexivity | exact Hout] | lia].
  - apply sort_perm.
  - intros Hvalid i j a b Hij Ha Hb.
    eapply (sort_ordered_on (Overview.byDate time)
              (fun r => time r <> None)
              (fun x y => exists tx ty, time x = Some tx /\ time y = Some ty
                                        /\ tx <= ty));
      [| | | | exact Hij | exact Ha | exact Hb].
    + intros x y z _ _ _ (tx & ty & Hx & Hy & Hxy) (ty' & tz & Hy' & Hz & Hyz).
      exists tx, tz. split; [exact Hx | split; [exact Hz |]].
      assert (ty' = ty) by congruence. lia.
    + intros pivot e Dp De H. unfold Overview.byDate in H.
      destruct (time pivot) as [tp|]; [| now elim Dp].
      destruct (time e) as [te|]; [| now elim De].
      exists tp, te. split; [reflexivity | split; [reflexivity |]].
      apply Qltb_lt in H. change 0%Q with (inject_Z 0) in H.
      rewrite <- Zlt_Qlt in H. lia.
    + intros pivot e Dp De H. unfold Overview.byDate in H.
      destruct (time pivot) as [tp|]; [| now elim Dp].
      destruct (time e) as [te|]; [| now elim De].
      exists te, tp. split; [reflexivity | split; [reflexivity |]].
      apply Qltb_ge in H. change 0%Q with (inject_Z 0) in H.
      rewrite <- Zle_Qle in H. lia.
    + apply Forall_forall. exact Hvalid.
Qed.

Lemma getTrendData_points_witness :
  List.length (Overview.getTrendData (fun d => getTime (completionDate d))
                 completionRate sampleData 3) = 3%nat.
Proof.
  destruct (getTrendData_points TrainingRecord
              (fun d => getTime (completionDate d)) completionRate sampleData 3
              ltac:(lia)) as (_ & _ & H & _).
  destruct (H ltac:(simpl; lia) ltac:(lia)) as [_ Hlen]. exact Hlen.
Defined.

(* ================================================================== *)
(** * Proofs: branch comparison *)
(* ================================================================== *)

Lemma branchMap_groupBy (data : list TrainingRecord) :
  BranchComparison.branchMap data
  = groupBy (fun d => truthy (branch d)) branch
      (fun _ => BranchComparison.newBranchStats) BranchComparison.addToBranch data.
Proof.
  unfold BranchComparison.branchMap, groupBy. apply fold_left_ext_eq.
  intros o d. unfold BranchComparison.branchMap_step.
  now destruct (truthy (branch d)).
Qed.

Lemma addToBranch_fold (g : list TrainingRecord) (v : BranchStats.t) :
  fold_left (fun v d => BranchComparison.addToBranch d v) g v
  = {| BranchStats.completionTotal :=
         fold_left Qplus (map completionRate g) (BranchStats.completionTotal v);
       BranchStats.scoreTotal :=
         fold_left Qplus (map averageQuizScore g) (BranchStats.scoreTotal v);
       BranchStats.recordCount :=
         BranchStats.recordCount v + Z.of_nat (List.length g) |}.
Proof.
  revert v. induction g as [|d g IH]; intros [ct st rc].
  - simpl. f_equal. lia.
  - simpl fold_left. rewrite IH. simpl. f_equal. lia.
Qed.

Section BranchFacts.
Variable displayNameOf : string -> string.

Lemma branchDatum_of_entry (data : list TrainingRecord)
    (entry : string * BranchStats.t) :
  In entry (BranchComparison.branchMap data) ->
  let b := BranchComparison.branchDatum displayNameOf entry in
  let records := branchRecords (BranchDatum.name b) data in
  BranchDatum.name b = fst entry
  /\ records <> []
  /\ BranchDatum.recordCount b = Z.of_nat (List.length records)
  /\ BranchDatum.completionRate b = mean (map completionRate records)
  /\ BranchDatum.quizScore b = mean (map averageQuizScore records)
  /\ BranchDatum.displayName b = displayNameOf (BranchDatum.name b).
Proof.
  destruct entry as [k v]. intros Hin. rewrite branchMap_groupBy in Hin.
  apply groupBy_entry in Hin. rewrite groupBy_get in Hin.
  cbv zeta. unfold branchRecords.
  change (BranchDatum.name (BranchComparison.branchDatum displayNameOf (k, v)))
    with k.
  destruct (groupOf (fun d => truthy (branch d)) branch k data) as [|d0 g];
    [discriminate |].
  assert (Hv : v = fold_left (fun v d => BranchComparison.addToBranch d v)
                     (d0 :: g) BranchComparison.newBranchStats) by congruence.
  rewrite addToBranch_fold in Hv. subst v.
  unfold BranchComparison.branchDatum.
  cbn [BranchStats.completionTotal BranchStats.scoreTotal BranchStats.recordCount
       BranchComparison.newBranchStats BranchDatum.name BranchDatum.displayName
       BranchDatum.completionRate BranchDatum.quizScore BranchDatum.recordCount
       fst].
  replace (0 <? 0 + Z.of_nat (List.length (d0 :: g))) with true
    by (symmetry; apply Z.ltb_lt; simpl List.length; lia).
  split; [reflexivity | split; [discriminate | split; [reflexivity |]]].
  split; [| split; [| reflexivity]]; unfold mean; rewrite length_map; reflexivity.
Qed.

Lemma sortedData_names (data : list TrainingRecord)
    (sortBy : BranchComparison.SortBy) :
  Permutation
    (map BranchDatum.name (BranchComparison.sortedData displayNameOf data sortBy))
    (Set_of (map branch (filter (fun d => truthy (branch d)) data))).
Proof.
  unfold BranchComparison.sortedData.
  eapply Permutation_trans; [apply Permutation_map, sort_perm |].
  rewrite map_map. unfold Object_entries.
  rewrite <- (groupBy_keys (fun d => truthy (branch d)) branch
                (fun _ => BranchComparison.newBranchStats)
                BranchComparison.addToBranch data), <- branchMap_groupBy.
  erewrite map_ext; [apply Permutation_refl |]. now intros [k v].
Qed.

Lemma sortedData_name_iff (data : list TrainingRecord)
    (sortBy : BranchComparison.SortBy) (n : string) :
  In n (map BranchDatum.name (BranchComparison.sortedData displayNameOf data sortBy))
  <-> n <> "" /\ exists d, In d data /\ branch d = n.
Proof.
  split.
  - intros H. apply (Permutation_in _ (sortedData_names data sortBy)) in H.
    apply (proj1 (Set_of_In _ _)) in H. apply in_map_iff in H.
    destruct H as (d & <- & Hd). apply filter_In in Hd. destruct Hd as [Hd Ht].
    split; [now apply truthy_nonempty | eauto].
  - intros (Hne & d & Hd & <-).
    apply (Permutation_in _ (Permutation_sym (sortedData_names data sortBy))).
    apply Set_of_In, in_map, filter_In. split; [exact Hd |].
    now apply truthy_nonempty.
Qed.
End BranchFacts.

(** X29. The branch comparison has one row for every distinct non-empty
    branch and no other. A row holds the number of records of the branch
    and the means of their completion rates and of their quiz scores; the
    rows are in descending order of the chosen column. "Top 5" shows the
    first five rows and "Bottom 5" the last five; with five branches or
    fewer both show every row. The Top Branches leaderboard shows, for
    the same branch, the completion rate of the comparison rounded to
    one decimal. *)
Theorem branchData_views :
  forall (displayNameOf : string -> string) (data : list TrainingRecord)
         (sortBy : BranchComparison.SortBy),
    let rows := BranchComparison.branchData displayNameOf data
                  BranchComparison.all sortBy in
    NoDup (map BranchDatum.name rows)
    /\ (forall n, In n (map BranchDatum.name rows)
                  <-> n <> "" /\ exists d, In d data /\ branch d = n)
    /\ (forall b, In b rows ->
          let records := branchRecords (BranchDatum.name b) data in
          records <> []
          /\ BranchDatum.recordCount b = Z.of_nat (List.length records)
          /\ BranchDatum.completionRate b = mean (map completionRate records)
          /\ BranchDatum.quizScore b = mean (map averageQuizScore records))
    /\ (forall i j a b, (i < j)%nat ->
          nth_error rows i = Some a -> nth_error rows j = Some b ->
          (BranchComparison.sortValue sortBy b
           <= BranchComparison.sortValue sortBy a)%Q)
    /\ BranchComparison.branchData displayNameOf data BranchComparison.top5 sortBy
       = firstn 5 rows
    /\ BranchComparison.branchData displayNameOf data BranchComparison.bottom5 sortBy
       = skipn (List.length rows - 5) rows
    /\ ((List.length rows <= 5)%nat ->
        BranchComparison.branchData displayNameOf data BranchComparison.top5 sortBy
        = rows
        /\ BranchComparison.branchData displayNameOf data
             BranchComparison.bottom5 sortBy = rows)
    /\ (forall row, In row (Leaderboard.topBranches data) ->
          exists b, In b rows
                    /\ BranchDatum.name b = GroupRow.name row
                    /\ GroupRow.avgRate row
                       = parseFloat_toFixed (BranchDatum.completionRate b) 1).
Proof.
  intros displayNameOf data sortBy rows. subst rows.
  cbn [BranchComparison.branchData].
  set (rows := BranchComparison.sortedData displayNameOf data sortBy).
  assert (Htop : slice rows 0 5 = firstn 5 rows) by (now rewrite slice_0 by lia).
  assert (Hbottom : slice rows (-5) (Z.of_nat (List.length rows))
                    = skipn (List.length rows - 5) rows).
  { unfold slice. change (-5 <? 0) with true. cbv iota.
    destruct (Z.ltb_spec (Z.of_nat (List.length rows)) 0) as [H | _]; [lia |].
    rewrite Z.min_id.
    replace (Z.to_nat (Z.max (Z.of_nat (List.length rows) + -5) 0))
      with (List.length rows - 5)%nat by lia.
    apply firstn_all2. rewrite length_skipn. lia. }
  assert (Hrow : forall b, In b rows ->
            let records := branchRecords (BranchDatum.name b) data in
            records <> []
            /\ BranchDatum.recordCount b = Z.of_nat (List.length records)
            /\ BranchDatum.completionRate b = mean (map completionRate records)
            /\ BranchDatum.quizScore b = mean (map averageQuizScore records)).
  { intros b Hb. unfold rows, BranchComparison.sortedData in Hb.
    apply sort_In in Hb. apply in_map_iff in Hb. destruct Hb as (entry & <- & Hin).
    destruct (branchDatum_of_entry displayNameOf data entry Hin)
      as (_ & H1 & H2 & H3 & H4 & _). cbv zeta. auto. }
  split; [| split; [| split; [| split; [| split; [| split; [| split]]]]]].
  - eapply Permutation_NoDup;
      [apply Permutation_sym, sortedData_names | apply Set_of_NoDup].
  - intros n. apply sortedData_name_iff.
  - exact Hrow.
  - apply (sort_descending (BranchComparison.sortValue sortBy)).
  - exact Htop.
  - exact Hbottom.
  - intros Hle. rewrite Htop, Hbottom. split.
    + now apply firstn_all2.
    + replace (List.length rows - 5)%nat with 0%nat by lia. reflexivity.
  - intros row Hrow'. unfold Leaderboard.topBranches in Hrow'.
    rewrite branchRates_groupBy in Hrow'.
    destruct (ranked_row (fun d => truthy (branch d)) branch data row Hrow')
      as (Hne & Havg & _).
    assert (Hname : In (GroupRow.name row) (map BranchDatum.name rows)).
    { apply sortedData_name_iff.
      destruct (groupOf (fun d => truthy (branch d)) branch (GroupRow.name row) data)
        as [|d0 g] eqn:E; [now elim Hne |].
      apply groupOf_head in E. destruct E as (Hd & Ht & Hk).
      split; [rewrite <- Hk; now apply truthy_nonempty | eauto]. }
    apply in_map_iff in Hname. destruct Hname as (b & Hb & Hin).
    exists b. split; [exact Hin | split; [exact Hb |]].
    destruct (Hrow b Hin) as (_ & _ & Hc & _).
    rewrite Havg, Hc, Hb. reflexivity.
Qed.

Lemma branchData_views_witness :
  BranchComparison.branchData (fun s => s) sampleData BranchComparison.bottom5
    BranchComparison.byCompletionRate
  = BranchComparison.branchData (fun s => s) sampleData BranchComparison.all
      BranchComparison.byCompletionRate.
Proof.
  destruct (branchData_views (fun s => s) sampleData
              BranchComparison.byCompletionRate)
    as (_ & _ & _ & _ & _ & _ & H & _).
  apply H. simpl. lia.
Defined.

(* ================================================================== *)
(** * Proofs: engagement and performance *)
(* ================================================================== *)

Lemma Zsum_map_scale {A : Type} (f : A -> Z) (c : Z) (l : list A) :
  Zsum (map (fun k => f k * c) l) = Zsum (map f l) * c.
Proof. induction l as [|x l IH]; simpl; [reflexivity | rewrite IH; lia]. Qed.

Lemma point_of_trainee (data : list TrainingRecord) (n : string) :
  In n (map traineeName data) ->
  EngagementPerformance.point data n = Some (pointOf data n).
Proof.
  intros Hin. unfold EngagementPerformance.point, pointOf. cbv zeta.
  fold (traineeRecords n data).
  assert (Hlen : (0 < List.length (traineeRecords n data))%nat).
  { apply in_map_iff in Hin. destruct Hin as (r & Hn & Hr).
    assert (Hr' : In r (traineeRecords n data)).
    { apply filter_In. split; [exact Hr | now apply String.eqb_eq]. }
    destruct (traineeRecords n data); [destruct Hr' | simpl; lia]. }
  rewrite (checked_div_nonzero _ _ (inject_Z_length_nonzero _ Hlen)).
  now rewrite reduce_sum_mean.
Qed.

Lemma processedData_eq (data : list TrainingRecord) :
  filter_Boolean (map (EngagementPerformance.point data)
                      (Set_of (map traineeName data)))
  = map (pointOf data) (Set_of (map traineeName data)).
Proof.
  apply filter_Boolean_Some. intros n Hn. apply point_of_trainee.
  now apply Set_of_In.
Qed.

(** X30. The scatter plot has one point for every distinct trainee name,
    in the order of the first record of each: no point is dropped for a
    value that is not a number. A point holds the total training hours of
    the trainee, the mean of the post-assessment scores of all the
    trainee's records and 50 times the number of these records; the sizes
    add up to 50 times the number of records and the hours to the hours of
    all records. The average engagement is the total of the hours over
    the number of trainees, and 0 without records. *)
Theorem engagement_points :
  forall data : list TrainingRecord,
    let e := EngagementPerformance.engagement data in
    let names := Set_of (map traineeName data) in
    Engagement.scatterData e = map (pointOf data) names
    /\ Zsum (map ScatterPoint.z (Engagement.scatterData e))
       = 50 * Z.of_nat (List.length data)
    /\ (Qsum (map ScatterPoint.x (Engagement.scatterData e))
        == Qsum (map trainingHours data))%Q
    /\ (data = [] ->
        Engagement.avgEngagement e = 0%Q /\ Engagement.avgPerformance e = 0%Q)
    /\ (data <> [] ->
        (Engagement.avgEngagement e
         == Qsum (map trainingHours data)
            / inject_Z (Z.of_nat (List.length names)))%Q).
Proof.
  intros data e names. subst e.
  unfold EngagementPerformance.engagement. cbv zeta.
  rewrite processedData_eq. fold names.
  assert (Hz : Zsum (map ScatterPoint.z (map (pointOf data) names))
               = 50 * Z.of_nat (List.length data)).
  { rewrite map_map. unfold pointOf. cbn [ScatterPoint.z].
    rewrite (Zsum_map_scale (fun n => Z.of_nat (List.length (traineeRecords n data)))).
    change (fun n => Z.of_nat (List.length (traineeRecords n data)))
      with (fun n => Z.of_nat (List.length
                                 (groupOf (fun _ => true) traineeName n data))).
    rewrite groupOf_partition.
    - rewrite (filter_all (fun _ => true)) by reflexivity. lia.
    - apply Set_of_NoDup.
    - intros d Hd _. apply Set_of_In, in_map, Hd. }
  assert (Hx : (Qsum (map ScatterPoint.x (map (pointOf data) names))
                == Qsum (map trainingHours data))%Q).
  { rewrite map_map. unfold pointOf. cbn [ScatterPoint.x].
    rewrite (Qsum_map_eq _
               (fun n => Qsum (map trainingHours
                                 (groupOf (fun _ => true) traineeName n data))))
      by (intros n _; apply reduce_sum_Qsum).
    rewrite groupOf_Qsum.
    - now rewrite (filter_all (fun _ => true)) by reflexivity.
    - apply Set_of_NoDup.
    - intros d Hd _. apply Set_of_In, in_map, Hd. }
  destruct (Z.eqb_spec (Z.of_nat (List.length (map (pointOf data) names))) 0)
    as [E | E]; cbn [Engagement.scatterData Engagement.avgEngagement
                     Engagement.avgPerformance].
  - rewrite length_map in E.
    assert (Hnil : names = []) by (destruct names; [reflexivity | simpl in E; lia]).
    assert (Hdata : data = []).
    { destruct data as [|d l]; [reflexivity |].
      assert (Hin : In (traineeName d) names)
        by (apply Set_of_In; now left).
      rewrite Hnil in Hin. destruct Hin. }
    rewrite Hnil. subst data. simpl.
    split; [reflexivity | split; [reflexivity | split; [reflexivity |]]].
    split; [intros _; split; reflexivity | intros H; now elim H].
  - split; [reflexivity | split; [exact Hz | split; [exact Hx |]]].
    split.
    + intros ->. simpl in E. now elim E.
    + intros _. rewrite reduce_sum_Qsum, Hx, length_map. reflexivity.
Qed.

Lemma engagement_points_witness :
  (Engagement.avgEngagement (EngagementPerformance.engagement sampleData)
   == Qsum (map trainingHours sampleData) / inject_Z 3)%Q.
Proof.
  destruct (engagement_points sampleData) as (_ & _ & _ & _ & H).
  apply H. discriminate.
Defined.
